(** * Token importance annotation pipeline

    A shallow embedding of the three stages of the repository,

      - [extract_questions.py]  (the Selector),
      - [calculate_weights.py]  (the Annotator),
      - [convert_to_csv.py]     (the Flattener),

    together with the parts of Python's [str], [json] and [pandas] they
    call, and the properties of the design document checked against them.

    Conventions.  A Python [str] is the list of its code points
    ([pystr]); a value read from JSON is a [pyval]; a [dict] is an
    association list in insertion order with distinct keys.  Code that can
    raise returns [option]: [None] stands for the exception, and the
    [try]/[except] blocks of the source decide what becomes of it.

    The interpreter is CPython 3.11 with its default settings, on a POSIX
    system, the scripts run as programs.  The console encodes UTF-8 with
    the strict error handler, so [print] raises on a text that holds a
    surrogate code point and on nothing else; the Annotator and the
    Flattener are modelled with the [print] calls that can raise this way,
    the output of the others is left out.  The system clock stays below
    2^62 nanoseconds (146 years) while a script runs.  A [float] is a
    binary64 number.  A text of more than 4300 digits is no integer for
    [int] and for the decoder, and the decoder nests 992 arrays and objects
    at most (the recursion limit of 1000, less the frames the call stands
    on).  The values of a run come out of the decoder, so no integer has
    more digits than that and [str] of an integer does not raise. *)

From Stdlib Require Import ZArith NArith QArith String Ascii List Lia.
From Stdlib Require Import DecimalString SpecFloat.
From stdpp Require Import base option list sorting gmap.

Local Open Scope N_scope.

(* ===================================================================== *)
(** ** Python values and the string methods the sources use *)
(* ===================================================================== *)

Module Py.

(** A Python [str]: a sequence of Unicode code points. *)
Abbreviation pystr := (list N).

(** A literal made of ASCII characters. *)
Definition lit (s : string) : pystr :=
  List.map N_of_ascii (list_ascii_of_string s).

(** Code points the sources name. *)
Definition c_quote : N := 34.
Definition c_apostrophe : N := 39.
Definition c_backslash : N := 92.
Definition c_lbrace : N := 123.
Definition c_rbrace : N := 125.
Definition c_bar : N := 124.

(** A literal of JSON text, written with ['] where the text has a double
    quote. *)
Definition jlit (s : string) : pystr :=
  List.map (fun c => if c =? c_apostrophe then c_quote else c) (lit s).

(** [str.isspace] on one code point: the Unicode white space. *)
Definition isspace (c : N) : bool :=
  ((9 <=? c) && (c <=? 13)) || ((28 <=? c) && (c <=? 32))
  || (c =? 133) || (c =? 160) || (c =? 5760)
  || ((8192 <=? c) && (c <=? 8202))
  || (c =? 8232) || (c =? 8233) || (c =? 8239) || (c =? 8287) || (c =? 12288).

Fixpoint lstrip (s : pystr) : pystr :=
  match s with
  | c :: r => if isspace c then lstrip r else s
  | [] => []
  end.

Definition rstrip (s : pystr) : pystr := rev (lstrip (rev s)).

(** [s.strip()] *)
Definition strip (s : pystr) : pystr := rstrip (lstrip s).

(** [s.startswith(p)] *)
Fixpoint startswith (p s : pystr) : bool :=
  match p, s with
  | [], _ => true
  | a :: p', b :: s' => (a =? b) && startswith p' s'
  | _ :: _, [] => false
  end.

(** [s.find(c)] for a one-character [c]: the first index, or -1. *)
Fixpoint find (c : N) (s : pystr) : Z :=
  match s with
  | [] => (-1)%Z
  | a :: r =>
      if a =? c then 0%Z
      else let i := find c r in if (i <? 0)%Z then (-1)%Z else (i + 1)%Z
  end.

(** [s.rfind(c)] for a one-character [c]: the last index, or -1. *)
Fixpoint rfind (c : N) (s : pystr) : Z :=
  match s with
  | [] => (-1)%Z
  | a :: r =>
      let i := rfind c r in
      if (0 <=? i)%Z then (i + 1)%Z else if a =? c then 0%Z else (-1)%Z
  end.

(** [s[start:stop]] with Python's rules: a negative bound counts from the
    end, and both are clamped into the string. *)
Definition slice_bound (len i : Z) : Z :=
  let j := if (i <? 0)%Z then (i + len)%Z else i in
  Z.min len (Z.max 0 j).

Definition slice (s : pystr) (start stop : Z) : pystr :=
  let len := Z.of_nat (length s) in
  let a := slice_bound len start in
  let b := slice_bound len stop in
  firstn (Z.to_nat (b - a)) (skipn (Z.to_nat a) s).

(** [s.count(c)] for a one-character [c]. *)
Fixpoint count (c : N) (s : pystr) : Z :=
  match s with
  | [] => 0%Z
  | a :: r => ((if (a =? c)%N then 1 else 0) + count c r)%Z
  end.

(** [s.split(c)] for a one-character separator: never empty. *)
Fixpoint split (c : N) (s : pystr) : list pystr :=
  match s with
  | [] => [[]]
  | a :: r =>
      if a =? c then [] :: split c r
      else match split c r with
           | seg :: segs => (a :: seg) :: segs
           | [] => [[a]]
           end
  end.

(** [sep.join(parts)] *)
Fixpoint join (sep : pystr) (parts : list pystr) : pystr :=
  match parts with
  | [] => []
  | [p] => p
  | p :: ps => p ++ sep ++ join sep ps
  end.

(** A Python [float], kept as the literal it was read from: [NaN], an
    infinity, or the decimal [mant * 10 ^ exp10], negative when [neg].  The
    number the interpreter holds is the binary64 nearest to the decimal,
    [to_double]. *)
Inductive pyfloat :=
| FNan
| FInf (neg : bool)
| FDec (neg : bool) (mant : N) (exp10 : Z).

(** [float(literal)]: the literal rounded to the nearest binary64, ties
    to even; a decimal too large is an infinity, one too small a zero.  An
    integer times a power of ten is rounded as it is; a quotient by a power
    of ten is rounded as the division of the two integers. *)
Definition to_double (f : pyfloat) : spec_float :=
  match f with
  | FNan => S754_nan
  | FInf neg => S754_infinity neg
  | FDec neg 0 _ => S754_zero neg
  | FDec neg (Npos m) e =>
      match e with
      | Zneg k =>
          SFdiv 53 1024 (S754_finite neg m 0) (S754_finite false (10 ^ k)%positive 0)
      | _ =>
          binary_normalize 53 1024
            ((if neg then Z.neg m else Z.pos m) * 10 ^ e)%Z 0 false
      end
  end.

(** [float(z)] for an integer: [None] is [OverflowError], raised when the
    nearest binary64 would be an infinity. *)
Definition int_to_double (z : Z) : option spec_float :=
  match binary_normalize 53 1024 z 0 false with
  | S754_infinity _ => None
  | x => Some x
  end.

(** The values [json.load] produces. *)
Inductive pyval :=
| PNone
| PBool (b : bool)
| PInt (z : Z)
| PFloat (f : pyfloat)
| PStr (s : pystr)
| PList (l : list pyval)
| PDict (d : list (pystr * pyval)).

Abbreviation pydict := (list (pystr * pyval)).

(** [d[k]] on a dict; [None] is [KeyError]. *)
Fixpoint dict_get (d : pydict) (k : pystr) : option pyval :=
  match d with
  | [] => None
  | (k', v) :: r => if decide (k' = k) then Some v else dict_get r k
  end.

(** [d[k] = v]: an existing key keeps its place, a new one goes last. *)
Fixpoint dict_set (d : pydict) (k : pystr) (v : pyval) : pydict :=
  match d with
  | [] => [(k, v)]
  | (k', v') :: r =>
      if decide (k' = k) then (k', v) :: r else (k', v') :: dict_set r k v
  end.

(** [x[k]] for a string key [k]: only a dict holding [k] answers; any other
    value raises ([TypeError], [KeyError]). *)
Definition getitem (x : pyval) (k : pystr) : option pyval :=
  match x with
  | PDict d => dict_get d k
  | _ => None
  end.

(** [for x in v]: the items the loop visits; [None] when [v] is not
    iterable.  A dict yields its keys and a string its characters. *)
Definition iter (v : pyval) : option (list pyval) :=
  match v with
  | PList l => Some l
  | PDict d => Some (List.map (fun kv => PStr (fst kv)) d)
  | PStr s => Some (List.map (fun c => PStr [c]) s)
  | _ => None
  end.

(** [bool(v)] *)
Definition truthy (v : pyval) : bool :=
  match v with
  | PNone => false
  | PBool b => b
  | PInt z => negb (z =? 0)%Z
  | PFloat f =>
      match to_double f with
      | S754_zero _ => false
      | _ => true
      end
  | PStr s => negb (Nat.eqb (length s) 0)
  | PList l => negb (Nat.eqb (length l) 0)
  | PDict d => negb (Nat.eqb (length d) 0)
  end.

(** The decimal digits of a natural number. *)
Definition digits (n : N) : pystr := lit (NilZero.string_of_uint (N.to_uint n)).

(** [n] written with at least [w] digits (zeros to the left). *)
Definition zero_pad (w : nat) (s : pystr) : pystr :=
  repeat 48 (w - length s) ++ s.

(** Round [m / d] to the nearest integer, ties to even. *)
Definition div_half_even (m d : N) : N :=
  let q := m / d in
  let r := m mod d in
  if 2 * r <? d then q
  else if d <? 2 * r then q + 1
  else if N.even q then q else q + 1.

(** The number [m * 2 ^ e] in millionths, rounded to the nearest, ties to
    even. *)
Definition millionths (m : positive) (e : Z) : N :=
  match e with
  | Zneg k => div_half_even (Npos m * 1000000) (2 ^ Npos k)
  | _ => Npos m * 2 ^ Z.to_N e * 1000000
  end.

Definition fixed6 (neg : bool) (u : N) : pystr :=
  (if neg then lit "-" else [])
  ++ digits (u / 1000000) ++ lit "." ++ zero_pad 6 (digits (u mod 1000000)).

(** [f"{x:.6f}"] for a binary64 [x]: its exact value rounded to six
    decimals. *)
Definition format_double (x : spec_float) : pystr :=
  match x with
  | S754_nan => lit "nan"
  | S754_infinity neg => (if neg then lit "-" else []) ++ lit "inf"
  | S754_zero neg => fixed6 neg 0
  | S754_finite neg m e => fixed6 neg (millionths m e)
  end.

(** [f"{v:.6f}"]: six decimals for a number, an integer or a boolean
    being made a [float] first; [None] is the exception raised for an
    integer beyond the range of the [float]s and for anything that is not a
    number. *)
Definition format_6f (v : pyval) : option pystr :=
  match v with
  | PInt z => format_double <$> int_to_double z
  | PBool b => Some (fixed6 false (if b then 1000000 else 0))
  | PFloat f => Some (format_double (to_double f))
  | _ => None
  end.

(** A surrogate code point: a [str] can hold one on its own, and no
    encoding writes it. *)
Definition is_surrogate (c : N) : bool := (55296 <=? c) && (c <=? 57343).

(** [s.encode('utf-8')] does not raise. *)
Definition encodable (s : pystr) : bool :=
  forallb (fun c => negb (is_surrogate c)) s.

(** [print(f"...{v}...")] does not raise.  A string is written as it is;
    any other value is written through [str] and [repr], which escape the
    characters that cannot be written. *)
Definition printable (v : pyval) : bool :=
  match v with
  | PStr s => encodable s
  | _ => true
  end.

(** The first code point of each run of ten decimal digits (Unicode 14):
    the characters [int] reads as digits. *)
Definition decimal_zeros : list N :=
  [48; 1632; 1776; 1984; 2406; 2534; 2662; 2790; 2918; 3046; 3174; 3302;
   3430; 3558; 3664; 3792; 3872; 4160; 4240; 6112; 6160; 6470; 6608; 6784;
   6800; 6992; 7088; 7232; 7248; 42528; 43216; 43264; 43472; 43504; 43600;
   44016; 65296; 66720; 68912; 69734; 69872; 69942; 70096; 70384; 70736;
   70864; 71248; 71360; 71472; 71904; 72016; 72784; 73040; 73120; 92768;
   92864; 93008; 120782; 120792; 120802; 120812; 120822; 123200; 123632;
   125264; 130032].

Definition decimal_value (c : N) : option N :=
  match List.find (fun z => (z <=? c) && (c <? z + 10)) decimal_zeros with
  | Some z => Some (c - z)
  | None => None
  end.

(** The white space [int] skips: of the ASCII characters those of C's
    [isspace], of the others those of [str.isspace]. *)
Definition int_space (c : N) : bool :=
  if c <? 128 then ((9 <=? c) && (c <=? 13)) || (c =? 32) else isspace c.

Fixpoint skip_int_space (s : pystr) : pystr :=
  match s with
  | c :: r => if int_space c then skip_int_space r else s
  | [] => []
  end.

(** The digits of an integer literal, a single underscore allowed between
    two digits: the number read so far, the count of its digits, and the
    text after them.  [None] when an underscore is not followed by a
    digit. *)
Fixpoint int_digits (s : pystr) (acc : N) (n : nat) : option (N * nat * pystr) :=
  match s with
  | c :: r =>
      match decimal_value c with
      | Some d => int_digits r (acc * 10 + d) (S n)
      | None =>
          if c =? 95 then
            match r with
            | c' :: r' =>
                match decimal_value c' with
                | Some d => int_digits r' (acc * 10 + d) (S n)
                | None => None
                end
            | [] => None
            end
          else Some (acc, n, s)
      end
  | [] => Some (acc, n, [])
  end.

(** The most digits [int] and [str] take. *)
Definition int_max_str_digits : nat := 4300.

(** [int(s)] for a string: white space, a sign, digits, white space;
    [None] is [ValueError]. *)
Definition py_int (s : pystr) : option Z :=
  let s1 := skip_int_space s in
  let '(neg, s2) :=
    match s1 with
    | c :: r => if c =? 45 then (true, r) else if c =? 43 then (false, r) else (false, s1)
    | [] => (false, s1)
    end in
  match s2 with
  | c :: _ =>
      if c =? 95 then None
      else
        match int_digits s2 0 0 with
        | Some (v, n, rest) =>
            match skip_int_space rest with
            | [] =>
                if ((0 <? n) && (n <=? int_max_str_digits))%nat
                then Some (if neg then (- Z.of_N v)%Z else Z.of_N v)
                else None
            | _ :: _ => None
            end
        | None => None
        end
  | [] => None
  end.

(** [head.rstrip('/')] *)
Fixpoint lstrip_slash (s : pystr) : pystr :=
  match s with
  | c :: r => if c =? 47 then lstrip_slash r else s
  | [] => []
  end.

Definition rstrip_slash (s : pystr) : pystr := rev (lstrip_slash (rev s)).

(** [os.path.dirname] *)
Definition dirname (p : pystr) : pystr :=
  let head := slice p 0 (rfind 47 p + 1) in
  if forallb (N.eqb 47) head then head else rstrip_slash head.

(** [dir / part] of [pathlib] for a single component [part]: a slash
    between the two, unless [dir] is a root and ends with one. *)
Definition child (dir part : pystr) : pystr :=
  match last dir with
  | Some 47 => dir ++ part
  | _ => dir ++ [47] ++ part
  end.

(** The components of a path text: what stands between its slashes, less
    the empty components and the dots. *)
Definition path_parts (name : pystr) : list pystr :=
  List.filter (fun p => negb (bool_decide (p = [])) && negb (bool_decide (p = [46])))
              (split 47 name).

(** The root of a path text: one slash, or two when it starts with
    exactly two. *)
Definition path_root (name : pystr) : pystr :=
  match name with
  | 47 :: 47 :: 47 :: _ => [47]
  | 47 :: 47 :: _ => [47; 47]
  | 47 :: _ => [47]
  | _ => []
  end.

(** [str(dir / name)] for [dir] an absolute path in the form [pathlib]
    gives it: an absolute [name] takes the place of [dir], a relative one
    adds its components to it. *)
Definition joinpath (dir name : pystr) : pystr :=
  match path_root name with
  | [] => fold_left child (path_parts name) dir
  | root => root ++ join [47] (path_parts name)
  end.

(** How an invocation hands control back: by returning, or through
    [sys.exit(code)]. *)
Inductive termination :=
| Returns
| SysExit (code : Z).

(** The status the process ends with when [main] ends this way. *)
Definition exit_status (t : termination) : Z :=
  match t with
  | Returns => 0%Z
  | SysExit code => code
  end.

End Py.

Import Py.

(* ===================================================================== *)
(** ** [json.loads]: the decoder of Python's standard library *)
(* ===================================================================== *)

Module Json.

(** The decoder's white space: space, tab, line feed, carriage return. *)
Definition is_ws (c : N) : bool :=
  (c =? 32) || (c =? 9) || (c =? 10) || (c =? 13).

Fixpoint skip_ws (s : pystr) : pystr :=
  match s with
  | c :: r => if is_ws c then skip_ws r else s
  | [] => []
  end.

Definition is_digit (c : N) : bool := (48 <=? c) && (c <=? 57).

Definition hex_value (c : N) : option N :=
  if (48 <=? c) && (c <=? 57) then Some (c - 48)
  else if (65 <=? c) && (c <=? 70) then Some (c - 55)
  else if (97 <=? c) && (c <=? 102) then Some (c - 87)
  else None.

(** The four hex digits of a [\uXXXX] escape. *)
Definition hex4 (a b c d : N) : option N :=
  match hex_value a, hex_value b, hex_value c, hex_value d with
  | Some x, Some y, Some z, Some w => Some (((x * 16 + y) * 16 + z) * 16 + w)
  | _, _, _, _ => None
  end.

(** What a one-letter escape stands for. *)
Definition backslash (c : N) : option N :=
  if c =? 34 then Some 34          (* quote *)
  else if c =? 92 then Some 92     (* backslash *)
  else if c =? 47 then Some 47     (* slash *)
  else if c =? 98 then Some 8      (* b *)
  else if c =? 102 then Some 12    (* f *)
  else if c =? 110 then Some 10    (* n *)
  else if c =? 114 then Some 13    (* r *)
  else if c =? 116 then Some 9     (* t *)
  else None.

(** [scanstring]: the text after an opening quote, up to the closing one.
    [acc] holds the characters read so far, last first.  A control
    character, an unknown escape and a missing closing quote are errors; a
    high surrogate followed by an escaped low surrogate is one character. *)
Fixpoint scanstring (s : pystr) (acc : pystr) : option (pystr * pystr) :=
  match s with
  | [] => None
  | c :: r =>
      if c =? c_quote then Some (rev acc, r)
      else if c =? c_backslash then
        match r with
        | [] => None
        | e :: r1 =>
            if e =? 117 then
              match r1 with
              | h1 :: h2 :: h3 :: h4 :: r2 =>
                  match hex4 h1 h2 h3 h4 with
                  | None => None
                  | Some u =>
                      match r2 with
                      | b :: l :: g1 :: g2 :: g3 :: g4 :: r3 =>
                          match hex4 g1 g2 g3 g4 with
                          | Some u2 =>
                              if (55296 <=? u) && (u <=? 56319)
                                 && (b =? c_backslash) && (l =? 117)
                                 && (56320 <=? u2) && (u2 <=? 57343)
                              then scanstring r3
                                     (65536 + (((u - 55296) * 1024) + (u2 - 56320)) :: acc)
                              else scanstring r2 (u :: acc)
                          | None => scanstring r2 (u :: acc)
                          end
                      | _ => scanstring r2 (u :: acc)
                      end
                  end
              | _ => None
              end
            else
              match backslash e with
              | Some x => scanstring r1 (x :: acc)
              | None => None
              end
        end
      else if c <? 32 then None
      else scanstring r (c :: acc)
  end.

(** The leading digits of [s] and what follows them. *)
Fixpoint take_digits (s : pystr) : pystr * pystr :=
  match s with
  | c :: r =>
      if is_digit c then let '(ds, rest) := take_digits r in (c :: ds, rest)
      else ([], s)
  | [] => ([], [])
  end.

(** The number a run of digits writes. *)
Definition digits_value (ds : pystr) : N :=
  fold_left (fun acc c => acc * 10 + (c - 48)) ds 0.

(** The integer part of a number: [0], or a digit from 1 to 9 and more
    digits. *)
Definition match_integer (s : pystr) : option (pystr * pystr) :=
  match s with
  | c :: r =>
      if c =? 48 then Some ([c], r)
      else if is_digit c then Some (take_digits s)
      else None
  | [] => None
  end.

(** The optional fraction: a dot and at least one digit. *)
Definition match_frac (s : pystr) : option (pystr * pystr) :=
  match s with
  | c :: r =>
      if c =? 46 then
        match take_digits r with
        | ([], _) => None
        | (ds, rest) => Some (ds, rest)
        end
      else None
  | [] => None
  end.

(** The optional exponent: [e] or [E], a sign, at least one digit. *)
Definition match_exp (s : pystr) : option (Z * pystr) :=
  match s with
  | c :: r =>
      if (c =? 101) || (c =? 69) then
        let '(neg, r1) :=
          match r with
          | sg :: r' =>
              if sg =? 45 then (true, r')
              else if sg =? 43 then (false, r') else (false, r)
          | [] => (false, r)
          end in
        match take_digits r1 with
        | ([], _) => None
        | (ds, rest) =>
            let v := Z.of_N (digits_value ds) in
            Some (if neg then (- v)%Z else v, rest)
        end
      else None
  | [] => None
  end.

(** [NUMBER_RE]: an int when there is neither fraction nor exponent, a
    float otherwise.  An int of more digits than [int] takes raises
    ([ValueError]), which is [None] here as well. *)
Definition match_number (s : pystr) : option (pyval * pystr) :=
  let '(neg, s1) :=
    match s with
    | c :: r => if c =? 45 then (true, r) else (false, s)
    | [] => (false, s)
    end in
  match match_integer s1 with
  | None => None
  | Some (ip, s2) =>
      let '(frac, s3) :=
        match match_frac s2 with
        | Some (fd, rest) => (Some fd, rest)
        | None => (None, s2)
        end in
      let '(ex, s4) :=
        match match_exp s3 with
        | Some (e, rest) => (Some e, rest)
        | None => (None, s3)
        end in
      match frac, ex with
      | None, None =>
          if (int_max_str_digits <? length ip)%nat then None
          else
            let v := Z.of_N (digits_value ip) in
            Some (PInt (if neg then (- v)%Z else v), s4)
      | _, _ =>
          let fd := default [] frac in
          let e := default 0%Z ex in
          Some (PFloat (FDec neg (digits_value (ip ++ fd))
                             (e - Z.of_nat (length fd))), s4)
      end
  end.

(** [s] without the prefix [p], when it starts with it. *)
Fixpoint strip_prefix (p s : pystr) : option pystr :=
  match p, s with
  | [], _ => Some s
  | a :: p', b :: s' => if a =? b then strip_prefix p' s' else None
  | _ :: _, [] => None
  end.

(** The words the decoder knows beside numbers and strings. *)
Definition match_word (s : pystr) : option (pyval * pystr) :=
  match strip_prefix (lit "null") s with
  | Some r => Some (PNone, r)
  | None =>
  match strip_prefix (lit "true") s with
  | Some r => Some (PBool true, r)
  | None =>
  match strip_prefix (lit "false") s with
  | Some r => Some (PBool false, r)
  | None => None
  end end end.

Definition match_constant (s : pystr) : option (pyval * pystr) :=
  match strip_prefix (lit "NaN") s with
  | Some r => Some (PFloat FNan, r)
  | None =>
  match strip_prefix (lit "Infinity") s with
  | Some r => Some (PFloat (FInf false), r)
  | None =>
  match strip_prefix (lit "-Infinity") s with
  | Some r => Some (PFloat (FInf true), r)
  | None => None
  end end end.

(** The arrays and objects the decoder nests at most: each one is a
    recursive call of the scanner, and the interpreter stops the calls at
    its recursion limit. *)
Definition max_nesting : nat := 992.

(** [scan_once] with [JSONObject] and [JSONArray]: one value at the head
    of [s], and the text after it.  [depth] is the number of arrays and
    objects that may still be opened one inside the other; [None] where it
    is used up is [RecursionError].  [n] bounds the calls of this
    definition; the decoder starts it above twice the length of the text,
    which no text exhausts (every second call consumes a character; see
    [scan_fuel]). *)
Fixpoint scan_once (n depth : nat) (s : pystr) : option (pyval * pystr) :=
  match n with
  | O => None
  | S n' =>
      match s with
      | [] => None
      | c :: r =>
          if c =? c_quote then
            match scanstring r [] with
            | Some (str, rest) => Some (PStr str, rest)
            | None => None
            end
          else if c =? c_lbrace then
            match depth with
            | O => None
            | S depth' =>
                match skip_ws r with
                | c1 :: r1 =>
                    if c1 =? c_rbrace then Some (PDict [], r1)
                    else if c1 =? c_quote then members n' depth' r1 []
                    else None
                | [] => None
                end
            end
          else if c =? 91 then
            match depth with
            | O => None
            | S depth' =>
                match skip_ws r with
                | c1 :: r1 =>
                    if c1 =? 93 then Some (PList [], r1)
                    else elements n' depth' (c1 :: r1) []
                | [] => None
                end
            end
          else
            match match_word s with
            | Some res => Some res
            | None =>
                match match_number s with
                | Some res => Some res
                | None => match_constant s
                end
            end
      end
  end

(** The pairs of an object, from just after a key's opening quote. *)
with members (n depth : nat) (s : pystr) (acc : pydict) : option (pyval * pystr) :=
  match n with
  | O => None
  | S n' =>
      match scanstring s [] with
      | None => None
      | Some (key, r) =>
          match skip_ws r with
          | colon :: r1 =>
              if colon =? 58 then
                match scan_once n' depth (skip_ws r1) with
                | None => None
                | Some (v, r2) =>
                    let acc' := dict_set acc key v in
                    match skip_ws r2 with
                    | c :: r3 =>
                        if c =? c_rbrace then Some (PDict acc', r3)
                        else if c =? 44 then
                          match skip_ws r3 with
                          | q :: r4 =>
                              if q =? c_quote then members n' depth r4 acc' else None
                          | [] => None
                          end
                        else None
                    | [] => None
                    end
                end
              else None
          | [] => None
          end
      end
  end

(** The items of an array, from the start of an item. *)
with elements (n depth : nat) (s : pystr) (acc : list pyval) : option (pyval * pystr) :=
  match n with
  | O => None
  | S n' =>
      match scan_once n' depth s with
      | None => None
      | Some (v, r) =>
          match skip_ws r with
          | c :: r1 =>
              if c =? 93 then Some (PList (acc ++ [v]), r1)
              else if c =? 44 then elements n' depth (skip_ws r1) (acc ++ [v])
              else None
          | [] => None
          end
      end
  end.

(** [json.loads(s)]: the value the whole text writes; [None] is the
    exception raised otherwise: [JSONDecodeError] (no value, text after the
    value, a leading byte order mark), [RecursionError] or the
    [ValueError] of an integer too long.  The callers treat the three
    alike. *)
Definition loads (s : pystr) : option pyval :=
  match s with
  | 65279 :: _ => None
  | _ =>
      match scan_once (2 * length s + 2) max_nesting (skip_ws s) with
      | Some (v, rest) =>
          match skip_ws rest with
          | [] => Some v
          | _ :: _ => None
          end
      | None => None
      end
  end.

End Json.

(* ===================================================================== *)
(** ** The Selector: [extract_questions.py] *)
(* ===================================================================== *)

Module Selector.

(** A [pandas.DataFrame] as the script uses it: the column names and the
    rows in their order, each row a dict from column name to cell. *)
Record DataFrame := { columns : list pystr; rows : list pydict }.

(** What [pd.read_csv(input_file)] gives: a frame, or one of the
    exceptions the script tells apart. *)
Inductive read_csv_result :=
| FileNotFoundError
| EmptyDataError
| ReadError
| Frame (df : DataFrame).

Inductive error :=
| MissingColumns (missing_columns : list pystr)
| InputNotFound
| InputEmpty
| OtherException.

(** What is written to [output_file]. *)
Inductive artifact :=
| JsonRecords (data_list : list pydict)
| CsvTable (header : list pystr) (records : list pydict).

(** The effects of one invocation, in order. *)
Inductive event :=
| PrintWarning (missing_ids : list Z)
| PrintError (e : error)
| Mkdir (output_dir : pystr)
| WriteFile (output_file : pystr) (a : artifact).

Definition required_columns : list pystr :=
  [lit "data_id"; lit "question"; lit "answer"; lit "tokens"; lit "token_count"].

(** The identifier a row carries in its [data_id] cell (an integer
    column). *)
Definition row_id (r : pydict) : option Z :=
  match dict_get r (lit "data_id") with
  | Some (PInt z) => Some z
  | _ => None
  end.

(** The identifiers a sequence of records carries. *)
Definition ids_of (records : list pydict) : list Z := omap row_id records.

(** The identifiers of the source table, row by row. *)
Definition source_ids (df : DataFrame) : list Z := ids_of (rows df).

(** [df['data_id'].isin(target_data_ids)] on one row. *)
Definition isin (target_data_ids : list Z) (r : pydict) : bool :=
  match row_id r with
  | Some z => bool_decide (z ∈ target_data_ids)
  | None => false
  end.

(** The position of a category in [categories]: the code
    [pd.Categorical] gives a value. *)
Fixpoint index_of (z : Z) (categories : list Z) : nat :=
  match categories with
  | [] => O
  | c :: cs => if decide (c = z) then O else S (index_of z cs)
  end.

Definition category_code (categories : list Z) (r : pydict) : nat :=
  match row_id r with
  | Some z => index_of z categories
  | None => length categories
  end.

(** The order of the categories, on identifiers and on rows. *)
Definition by_position (categories : list Z) (x y : Z) : Prop :=
  (index_of x categories <= index_of y categories)%nat.

Definition by_code (categories : list Z) (r r' : pydict) : Prop :=
  (category_code categories r <= category_code categories r')%nat.

(** [sort_values] on the categorical column: rows in the order of their
    codes.  Rows with the same code (the same identifier) are kept in their
    order here; pandas promises no order among them. *)
Fixpoint insert_by_code (categories : list Z) (r : pydict) (sorted : list pydict)
  : list pydict :=
  match sorted with
  | [] => [r]
  | r' :: rest =>
      if (category_code categories r <=? category_code categories r')%nat
      then r :: sorted
      else r' :: insert_by_code categories r rest
  end.

Definition sort_values (categories : list Z) (l : list pydict) : list pydict :=
  foldr (insert_by_code categories) [] l.

(** [df[required_columns]] on one row. *)
Definition select_columns (cols : list pystr) (r : pydict) : pydict :=
  omap (fun c => match dict_get r c with
                 | Some v => Some (c, v)
                 | None => None
                 end) cols.

(** [output_format.lower() == 'json']; only the letters A to Z matter to
    the comparison. *)
Definition lower (s : pystr) : pystr :=
  List.map (fun c => if (65 <=? c) && (c <=? 90) then c + 32 else c) s.

Definition is_json (output_format : pystr) : bool :=
  bool_decide (lower output_format = lit "json").

(** The rows the script keeps, as [extracted_df]: filtered to the target
    identifiers and reordered to their order, or every row when no target
    list is given (an empty list counts as none).  [None] is the
    [ValueError] of [pd.Categorical] when [target_data_ids] names an
    identifier twice. *)
Definition extracted_rows (df : DataFrame) (target_data_ids : option (list Z))
  : option (list event * list pydict) :=
  match target_data_ids with
  | Some (t :: ts) =>
      let target := t :: ts in
      let filtered_df := List.filter (isin target) (rows df) in
      if bool_decide (NoDup target) then
        let filtered_df := sort_values target filtered_df in
        let found_ids := omap row_id filtered_df in
        let missing_ids :=
          List.filter (fun data_id => negb (bool_decide (data_id ∈ found_ids))) target in
        Some (match missing_ids with
              | [] => []
              | _ :: _ => [PrintWarning missing_ids]
              end,
              List.map (select_columns required_columns) filtered_df)
      else None
  | _ => Some ([], List.map (select_columns required_columns) (rows df))
  end.

(** The body of [extract_csv_data] inside its [try]: the effects up to the
    point it is left, and the exception that leaves it, if any. *)
Definition extract_body (input : read_csv_result) (output_file : pystr)
    (target_data_ids : option (list Z)) (output_format : pystr)
  : list event * option error :=
  match input with
  | FileNotFoundError => ([], Some InputNotFound)
  | EmptyDataError => ([], Some InputEmpty)
  | ReadError => ([], Some OtherException)
  | Frame df =>
      let missing_columns :=
        List.filter (fun col => negb (bool_decide (col ∈ columns df))) required_columns in
      match missing_columns with
      | _ :: _ => ([], Some (MissingColumns missing_columns))
      | [] =>
          match extracted_rows df target_data_ids with
          | None => ([], Some OtherException)
          | Some (warnings, extracted_df) =>
              let output_dir := dirname output_file in
              (warnings
               ++ (match output_dir with [] => [] | _ :: _ => [Mkdir output_dir] end)
               ++ [WriteFile output_file
                     (if is_json output_format
                      then JsonRecords extracted_df
                      else CsvTable required_columns extracted_df)],
               None)
          end
      end
  end.

(** One invocation: what it did and how it ended. *)
Record outcome := { events : list event; ends : termination }.

(** [extract_csv_data]: each [except] clause prints the exception and falls
    through to the end of the function, so every call returns. *)
Definition extract_csv_data (input : read_csv_result) (output_file : pystr)
    (target_data_ids : option (list Z)) (output_format : pystr) : outcome :=
  match extract_body input output_file target_data_ids output_format with
  | (evs, None) => {| events := evs; ends := Returns |}
  | (evs, Some e) => {| events := evs ++ [PrintError e]; ends := Returns |}
  end.

(** [main]: the target identifiers of the script, JSON output. *)
Definition main_target_data_ids : list Z :=
  [2201; 141; 2017; 1320; 1055; 495; 1825; 965; 1356; 1613; 667; 2210; 32;
   1725; 326; 1524; 1342; 84]%Z.

Definition main (input : read_csv_result) (output_file : pystr) : outcome :=
  extract_csv_data input output_file (Some main_target_data_ids) (lit "json").

(** The record sequence an invocation wrote, if it wrote one. *)
Fixpoint written (evs : list event) : option (list pydict) :=
  match evs with
  | [] => None
  | WriteFile _ (JsonRecords l) :: _ => Some l
  | WriteFile _ (CsvTable _ l) :: _ => Some l
  | _ :: rest => written rest
  end.

(** The warnings an invocation printed: the identifiers reported absent. *)
Fixpoint warned (evs : list event) : list Z :=
  match evs with
  | [] => []
  | PrintWarning ids :: rest => ids ++ warned rest
  | _ :: rest => warned rest
  end.

End Selector.

(* ===================================================================== *)
(** ** The Annotator: [calculate_weights.py] *)
(* ===================================================================== *)

Module Annotator.

(** The prompt [_create_prompt] renders: a fixed template around the
    question, the answer and the token list. *)
Record prompt := {
  prompt_question : pyval;
  prompt_answer : pyval;
  token_list : list pystr
}.

(** One request to the scoring oracle.  The system message, the
    temperature and the length bound are the same in every request. *)
Record request := { request_model : pystr; request_prompt : prompt }.

(** What [client.chat.completions.create(...)] and the reading of
    [response.choices[0].message.content] give: an exception, of which
    [message] is the text [str(e)]; no text; or the text. *)
Inductive oracle_reply :=
| CallRaises (message : pystr)
| NoContent
| Content (text : pystr).

(** The oracle as one call sees it. *)
Abbreviation client := (request -> oracle_reply).

(** The effects of a run, in order. *)
Inductive event :=
| Call (r : request)
| Sleep (delay : Q)
| Mkdir (output_dir : pystr)
| Save (output_file : pystr) (results : list pyval).

(** [_create_prompt]; [None] when [tokens] has no [split] (it is not a
    string). *)
Definition _create_prompt (question answer tokens : pyval) : option prompt :=
  match tokens with
  | PStr t =>
      Some {| prompt_question := question;
              prompt_answer := answer;
              token_list :=
                List.filter (fun token => negb (Nat.eqb (length (strip token)) 0))
                            (split c_bar t) |}
  | _ => None
  end.

(** The text handed to [json.loads]: inside a response that starts with
    the fence, the text from the first opening brace to the last closing
    one; otherwise the response itself. *)
Definition json_content (response_text : pystr) : pystr :=
  if startswith (lit "```json") response_text then
    let json_start := find c_lbrace response_text in
    let json_end := (rfind c_rbrace response_text + 1)%Z in
    slice response_text json_start json_end
  else response_text.

(** The inner [try]: [None] is [json.JSONDecodeError]. *)
Definition parse_response (response_text : pystr) : option pyval :=
  Json.loads (json_content response_text).

(** The dict [calculate_attention_weights] builds; [None] when a key is
    missing from the record or from the decoded response. *)
Definition build_result (quiz_item : pydict) (data_id question answer tokens : pyval)
    (model response_text : pystr) (weights_data : pyval) : option pyval :=
  token_count ← dict_get quiz_item (lit "token_count");
  token_weights ← getitem weights_data (lit "token_weights");
  total_weight ← getitem weights_data (lit "total_weight");
  Some (PDict [ (lit "data_id", data_id);
                (lit "question", question);
                (lit "answer", answer);
                (lit "tokens", tokens);
                (lit "token_count", token_count);
                (lit "attention_weights", token_weights);
                (lit "total_weight", total_weight);
                (lit "model", PStr model);
                (lit "model_response", PStr response_text) ]).

(** What becomes of one call of [calculate_attention_weights]: it returns
    the result, it returns [None], or an exception leaves it. *)
Inductive outcome :=
| Accepted (result : pyval)
| Rejected
| Raised.

(** The identifier the handler prints: [quiz_item.get('data_id', 'unknown')]. *)
Definition shown_id (quiz_item : pydict) : pyval :=
  default (PStr (lit "unknown")) (dict_get quiz_item (lit "data_id")).

(** The handler of the outer [try]: it prints the identifier and the text
    of the exception, and returns [None].  When one of the two cannot be
    printed, the exception of [print] leaves the function.  [message_ok]
    tells whether the text of the exception caught can be printed; the
    texts of the exceptions the interpreter raises itself always can. *)
Definition handler (quiz_item : pydict) (message_ok : bool) : outcome :=
  if printable (shown_id quiz_item) && message_ok then Rejected else Raised.

(** [calculate_attention_weights] on a record: the calls made and the
    outcome.  The identifier is printed before the prompt is made and, with
    the total weight, once the result is built; an exception of the first
    [print] is caught by the handler, which prints the identifier again.
    The inner [except] prints the response that did not decode; should that
    raise, the handler returns [None] all the same. *)
Definition calculate_attention_weights (ask : client) (quiz_item : pydict)
    (model : pystr) : list event * outcome :=
  match dict_get quiz_item (lit "data_id"), dict_get quiz_item (lit "question"),
        dict_get quiz_item (lit "answer"), dict_get quiz_item (lit "tokens") with
  | Some data_id, Some question, Some answer, Some tokens =>
      if printable data_id then
        match _create_prompt question answer tokens with
        | None => ([], handler quiz_item true)
        | Some p =>
            let r := {| request_model := model; request_prompt := p |} in
            ([Call r],
             match ask r with
             | Content text =>
                 let response_text := strip text in
                 match parse_response response_text with
                 | None => Rejected
                 | Some weights_data =>
                     match build_result quiz_item data_id question answer tokens
                                        model response_text weights_data with
                     | Some result =>
                         if printable
                              (default PNone (getitem weights_data (lit "total_weight")))
                         then Accepted result
                         else handler quiz_item true
                     | None => handler quiz_item true
                     end
                 end
             | NoContent => handler quiz_item true
             | CallRaises message => handler quiz_item (encodable message)
             end)
        end
      else ([], handler quiz_item true)
  | _, _, _, _ => ([], handler quiz_item true)
  end.

(** [calculate_attention_weights] on any element of the decoded input.  An
    element that is not a dict has no ['data_id'] subscript; the handler
    then calls [quiz_item.get], which such an element does not have either,
    and that second exception leaves the function. *)
Definition calculate_item (ask : client) (quiz_item : pyval) (model : pystr)
  : list event * outcome :=
  match quiz_item with
  | PDict d => calculate_attention_weights ask d model
  | _ => ([], Raised)
  end.

(** [time.sleep(delay)] returns.  A negative delay raises [ValueError].
    The end of the wait is counted in nanoseconds of the system clock, on
    63 bits: while that clock is below 2^62 nanoseconds, a delay below 2^62
    nanoseconds is slept, and a longer one raises ([OverflowError],
    [OSError]) or outlasts the clock. *)
Definition can_sleep (delay : Q) : bool :=
  Qle_bool 0 delay && negb (Qle_bool (4611686018427387904 # 1000000000) delay).

(** The state of the loop of [process_all_quiz_data]. *)
Record run := { results : list pyval; trace : list event }.

(** [for i, quiz_item in enumerate(quiz_data, 1)]: record number [i] of
    [total_items] and those after it.  [if result:] keeps a result that is
    neither [None] nor empty.  The loop is left by the exception that
    leaves [calculate_attention_weights] and by the one [time.sleep]
    raises; the flag tells whether it ran to its end. *)
Fixpoint loop (oracle : nat -> client) (model : pystr) (delay : Q)
    (total_items i : nat) (quiz_data : list pyval) (st : run) : run * bool :=
  match quiz_data with
  | [] => (st, true)
  | quiz_item :: rest =>
      let '(calls, result) := calculate_item (oracle i) quiz_item model in
      match result with
      | Raised => ({| results := results st; trace := trace st ++ calls |}, false)
      | _ =>
          let results' :=
            match result with
            | Accepted r => if truthy r then results st ++ [r] else results st
            | _ => results st
            end in
          if (i <? total_items)%nat then
            if can_sleep delay then
              loop oracle model delay total_items (S i) rest
                   {| results := results';
                      trace := trace st ++ calls ++ [Sleep delay] |}
            else ({| results := results'; trace := trace st ++ calls |}, false)
          else
            loop oracle model delay total_items (S i) rest
                 {| results := results'; trace := trace st ++ calls |}
      end
  end.

(** [_save_results]: the directory of the output file is made when the
    path names one, then the file is opened and the results are written.
    [Save] stands for that one [json.dump] into the file, whether it ends
    well or not: the function catches every exception and returns.  A file
    system that refuses the directory or the file is not modelled. *)
Definition _save_results (results : list pyval) (output_file : pystr) : list event :=
  let output_dir := dirname output_file in
  match output_dir with
  | [] => []
  | _ :: _ => [Mkdir output_dir]
  end ++ [Save output_file results].

(** [process_all_quiz_data]: the model and the output file are printed,
    then comes the loop, then [_save_results] once.  [oracle i] is the
    oracle as the call for record [i] meets it.  The flag tells whether the
    function returned; when an exception left it, nothing was saved. *)
Definition process_all_quiz_data (oracle : nat -> client) (quiz_data : list pyval)
    (output_file model : pystr) (delay : Q) : run * bool :=
  if encodable model && encodable output_file then
    let total_items := length quiz_data in
    match loop oracle model delay total_items 1 quiz_data
               {| results := []; trace := [] |} with
    | (st, true) =>
        ({| results := results st;
            trace := trace st ++ _save_results (results st) output_file |}, true)
    | (st, false) => (st, false)
    end
  else ({| results := []; trace := [] |}, false).

(** The results a run saved, if it saved any. *)
Fixpoint saved (evs : list event) : option (list pyval) :=
  match evs with
  | [] => None
  | Save _ results :: _ => Some results
  | _ :: rest => saved rest
  end.

(** The identifier an output record carries. *)
Definition data_id_of (r : pyval) : option pyval := getitem r (lit "data_id").

(** The fields of the source record an annotated record repeats. *)
Definition source_fields (r : pydict) : list (option pyval) :=
  List.map (dict_get r)
    [lit "data_id"; lit "question"; lit "answer"; lit "tokens"; lit "token_count"].

Definition source_of (r : pyval) : list (option pyval) :=
  List.map (getitem r)
    [lit "data_id"; lit "question"; lit "answer"; lit "tokens"; lit "token_count"].

(** An annotated record without the raw response it retains. *)
Definition without_raw (r : pyval) : pyval :=
  match r with
  | PDict d =>
      PDict (List.filter
               (fun kv => negb (bool_decide (fst kv = lit "model_response"))) d)
  | _ => r
  end.

(** What the loop appends for one record: the result when the record is
    accepted and [if result:] lets it through. *)
Definition annotate (ask : client) (quiz_item : pydict) (model : pystr)
  : option pyval :=
  match snd (calculate_attention_weights ask quiz_item model) with
  | Accepted r => if truthy r then Some r else None
  | _ => None
  end.

(** Whether an exception leaves the iteration of a record. *)
Definition raises (ask : client) (quiz_item : pydict) (model : pystr) : bool :=
  match snd (calculate_attention_weights ask quiz_item model) with
  | Raised => true
  | _ => false
  end.

(** The request [calculate_attention_weights] sends for a record: none
    when one of the four fields it reads first is missing, the identifier
    cannot be printed, or [tokens] is not a string. *)
Definition request_for (quiz_item : pydict) (model : pystr) : option request :=
  match dict_get quiz_item (lit "data_id"), dict_get quiz_item (lit "question"),
        dict_get quiz_item (lit "answer"), dict_get quiz_item (lit "tokens") with
  | Some data_id, Some question, Some answer, Some tokens =>
      if printable data_id then
        match _create_prompt question answer tokens with
        | Some p => Some {| request_model := model; request_prompt := p |}
        | None => None
        end
      else None
  | _, _, _, _ => None
  end.

(** The accepted results of the records numbered from [i] on. *)
Definition outputs (oracle : nat -> client) (model : pystr) (i : nat)
    (quiz_data : list pydict) : list pyval :=
  omap id (imap (fun j q => annotate (oracle (i + j)%nat) q model) quiz_data).

(** The effects of the iteration for record [i] of [total_items]: its
    calls, then the wait unless the record is the last. *)
Definition segment (oracle : nat -> client) (model : pystr) (delay : Q)
    (total_items i : nat) (quiz_item : pydict) : list event :=
  fst (calculate_attention_weights (oracle i) quiz_item model)
  ++ (if (i <? total_items)%nat then [Sleep delay] else []).

Definition is_call (e : event) : bool :=
  match e with Call _ => true | _ => false end.

Definition is_sleep (e : event) : bool :=
  match e with Sleep _ => true | _ => false end.

Definition is_save (e : event) : bool :=
  match e with Save _ _ => true | _ => false end.

(** [load_quiz_data]: the decoded file, or [sys.exit(1)] when it cannot be
    opened or decoded, or has no [len]. *)
Definition load_quiz_data (file : option pystr) : pyval + termination :=
  match file ≫= Json.loads with
  | Some data =>
      match data with
      | PList _ | PDict _ | PStr _ => inl data
      | _ => inr (SysExit 1)
      end
  | None => inr (SysExit 1)
  end.

End Annotator.

(* ===================================================================== *)
(** ** The Flattener: [convert_to_csv.py] *)
(* ===================================================================== *)

Module Flattener.

(** One output row before it is written: the six fields of
    [row = [data_id, question, answer, tokens_str, weights_str, token_count]]. *)
Record flat_row := {
  data_id : pyval;
  question : pyval;
  answer : pyval;
  tokens_str : pystr;
  weights_str : pystr;
  token_count : pyval
}.

Definition fields (r : flat_row) : list pyval :=
  [data_id r; question r; answer r; PStr (tokens_str r); PStr (weights_str r);
   token_count r].

(** The inner loop over [item['attention_weights']]: the token and the
    formatted weight of each entry.  [None] when an entry has no such key
    or its weight is not a number. *)
Fixpoint collect (entries : list pyval) : option (list pyval * list pystr) :=
  match entries with
  | [] => Some ([], [])
  | token_data :: rest =>
      token ← getitem token_data (lit "token");
      weight ← getitem token_data (lit "weight") ≫= format_6f;
      '(tokens, weights) ← collect rest;
      Some (token :: tokens, weight :: weights)
  end.

(** ["|".join(tokens)] wants strings. *)
Fixpoint as_strings (l : list pyval) : option (list pystr) :=
  match l with
  | [] => Some []
  | PStr s :: rest => cons s <$> as_strings rest
  | _ :: _ => None
  end.

(** [s] between two delimiters: ["|" + s + "|"]. *)
Definition wrap (s : pystr) : pystr := [c_bar] ++ s ++ [c_bar].

(** The body of the loop of [convert_to_csv] for one item; [None] when it
    raises. *)
Definition row_of (item : pyval) : option flat_row :=
  data_id ← getitem item (lit "data_id");
  question ← getitem item (lit "question");
  answer ← getitem item (lit "answer");
  token_count ← getitem item (lit "token_count");
  entries ← getitem item (lit "attention_weights") ≫= iter;
  '(tokens, weights) ← collect entries;
  tokens ← as_strings tokens;
  Some {| data_id := data_id; question := question; answer := answer;
          tokens_str := wrap (join [c_bar] tokens);
          weights_str := wrap (join [c_bar] weights);
          token_count := token_count |}.

(** The counts [verify_format] compares, on the fields of a row as
    [csv.reader] gives them back: delimiters less one in the tokens and
    weights fields, and the declared count.  [verify_format] makes the
    comparison on the first row of the file only, and only prints what it
    finds. *)
Definition tokens_count (r : flat_row) : Z := (count c_bar (tokens_str r) - 1)%Z.
Definition weights_count (r : flat_row) : Z := (count c_bar (weights_str r) - 1)%Z.

(** [int(sample_row[5])]; [None] is [ValueError].  The field read back is
    the digits of an integer, and a string as it is but for its line ends,
    which [int] does not tell apart from other white space; the text
    written for [None], a boolean, a float, a list or a dict is no integer
    literal. *)
Definition declared_count (r : flat_row) : option Z :=
  match token_count r with
  | PInt z => Some z
  | PStr s => py_int s
  | _ => None
  end.

(** [tokens_count == weights_count == declared_count]; [None] when the
    declared count cannot be read. *)
Definition consistent (r : flat_row) : option bool :=
  d ← declared_count r;
  Some ((tokens_count r =? weights_count r)%Z && (weights_count r =? d)%Z).

(** The delimiters that stand inside the tokens themselves. *)
Definition inner_delimiters (tokens : list pystr) : Z :=
  foldr (fun t acc => (count c_bar t + acc)%Z) 0%Z tokens.

Definition header : list pyval :=
  List.map (fun s => PStr (lit s))
    ["data_id"; "question"; "answer"; "tokens"; "weights"; "token_count"]%string.

(** [len(data)] is defined for a list, a dict and a string. *)
Definition sized (data : pyval) : bool :=
  match data with
  | PList _ | PDict _ | PStr _ => true
  | _ => false
  end.

Section Csv.

(** [csv.writer(f).writerow(row)] as the text it appends to the file, or
    [None] when the write raises (a field the file's encoding cannot
    hold).  The rules of the [csv] module are not spelled out. *)
Variable writerow : list pyval -> option pystr.

(** The rows written one after the other; the first item that raises ends
    the loop, and the file keeps what was written before it. *)
Fixpoint write_rows (items : list pyval) (written : pystr) : pystr :=
  match items with
  | [] => written
  | item :: rest =>
      match row_of item ≫= (fun r => writerow (fields r)) with
      | Some line => write_rows rest (written ++ line)
      | None => written
      end
  end.

(** The text [convert_to_csv] leaves in [output_file] once the input
    decoded to [data]. *)
Definition output_text (data : pyval) (with_header : bool) : pystr :=
  match (if with_header then writerow header else Some []) with
  | None => []
  | Some head =>
      match iter data with
      | Some items => write_rows items head
      | None => head
      end
  end.

(** [convert_to_csv] on a file system, a map from the paths that name a
    file to the text of the file; two paths name two files.  An input that
    is missing or does not decode leaves the file system as it was;
    otherwise [output_file] is opened for writing (emptied) and filled.  A
    file system that refuses the directory or the file is not modelled. *)
Definition convert_to_csv (fs : gmap pystr pystr) (input_json output_file : pystr)
    (with_header : bool) : gmap pystr pystr :=
  match fs !! input_json ≫= Json.loads with
  | Some data =>
      if sized data then <[output_file := output_text data with_header]> fs
      else fs
  | None => fs
  end.

(** [json_filename.replace('.json', '')]: every occurrence of [pat] taken
    out, left to right.  [n] is the length of the text still to read. *)
Fixpoint remove_all (pat : pystr) (n : nat) (s : pystr) : pystr :=
  match n with
  | O => s
  | S n' =>
      match Json.strip_prefix pat s with
      | Some rest => remove_all pat (n' - (length pat - 1)) rest
      | None =>
          match s with
          | [] => []
          | c :: r => c :: remove_all pat n' r
          end
      end
  end.

Definition replace_json (json_filename : pystr) : pystr :=
  remove_all (lit ".json") (length json_filename) json_filename.

(** [main]: both variants, from the same input.  [output_dir] is the
    directory [data/output] of the project, an absolute path in the form
    [pathlib] gives it; [json_filename] is the argument of the command line
    or the default name.  The input path and the directory are printed
    first, and the exception of that [print] ends the run. *)
Definition main (fs : gmap pystr pystr) (output_dir json_filename : pystr)
  : gmap pystr pystr :=
  let input_json := joinpath output_dir json_filename in
  let base_name := replace_json json_filename in
  let output_with_header := joinpath output_dir (base_name ++ lit ".csv") in
  let output_no_header := joinpath output_dir (base_name ++ lit "_no_header.csv") in
  if encodable input_json && encodable output_dir then
    let fs1 := convert_to_csv fs input_json output_with_header true in
    convert_to_csv fs1 input_json output_no_header false
  else fs.

End Csv.

(** A file name of one component: not empty, without a slash and without
    a null character, neither [.] nor [..], and printable. *)
Definition plain_name (name : pystr) : bool :=
  negb (bool_decide (name = []))
  && negb (bool_decide (47 ∈ name))
  && negb (bool_decide (0 ∈ name))
  && negb (bool_decide (name = [46]))
  && negb (bool_decide (name = [46; 46]))
  && encodable name.

(** A directory as [pathlib] writes it: absolute, printable, and not
    ending with a slash (it is not a root). *)
Definition plain_dir (dir : pystr) : bool :=
  startswith [47] dir
  && match last dir with
     | Some c => negb (c =? 47)
     | None => false
     end
  && encodable dir.

End Flattener.

(* ===================================================================== *)
(** ** Sample inputs *)
(* ===================================================================== *)

Module Samples.

(** A record of the corpus. *)
Definition quiz_row (id : Z) (q a t : string) (n : Z) : pydict :=
  [ (lit "data_id", PInt id);
    (lit "question", PStr (lit q));
    (lit "answer", PStr (lit a));
    (lit "tokens", PStr (lit t));
    (lit "token_count", PInt n) ].

(** The record of the round-trip scenario: three tokens. *)
Definition example_item : pydict := quiz_row 1 "Q" "A" "|a|b|c|" 3.

(** A source table of three records, with identifiers 7, 3 and 5. *)
Definition small_table : Selector.DataFrame :=
  {| Selector.columns := Selector.required_columns;
     Selector.rows := [ quiz_row 7 "Q7" "A7" "|x|y|" 2;
                        quiz_row 3 "Q3" "A3" "|u|" 1;
                        quiz_row 5 "Q5" "A5" "|v|w|" 2 ] |}.

(** A source table in which identifier 1 comes twice. *)
Definition repeated_table : Selector.DataFrame :=
  {| Selector.columns := Selector.required_columns;
     Selector.rows := [ quiz_row 1 "Q1" "A1" "|x|" 1;
                        quiz_row 1 "Q1 again" "A1" "|y|" 1 ] |}.

(** A source table without the [tokens] column. *)
Definition narrow_table : Selector.DataFrame :=
  {| Selector.columns :=
       [lit "data_id"; lit "question"; lit "answer"; lit "token_count"];
     Selector.rows :=
       [ [ (lit "data_id", PInt 7); (lit "question", PStr (lit "Q7"));
           (lit "answer", PStr (lit "A7")); (lit "token_count", PInt 2) ] ] |}.

(** The oracle's answer of the round-trip scenario. *)
Definition good_response : pystr :=
  jlit "{'token_weights':[{'token':'a','weight':0.10},{'token':'b','weight':0.30},{'token':'c','weight':0.60}],'total_weight':1.00}".

(** An answer with one weight, 7.5, and a total of 42. *)
Definition odd_response : pystr :=
  jlit "{'token_weights': [{'token': 'z', 'weight': 7.5}], 'total_weight': 42}".



(** An annotated record of three tokens, as the Annotator writes it for
    the round-trip scenario. *)
Definition annotated_item : pyval :=
  PDict [ (lit "data_id", PInt 1);
          (lit "question", PStr (lit "Q"));
          (lit "answer", PStr (lit "A"));
          (lit "tokens", PStr (lit "|a|b|c|"));
          (lit "token_count", PInt 3);
          (lit "attention_weights",
           PList [ PDict [(lit "token", PStr (lit "a")); (lit "weight", PFloat (FDec false 10 (-2)))];
                   PDict [(lit "token", PStr (lit "b")); (lit "weight", PFloat (FDec false 30 (-2)))];
                   PDict [(lit "token", PStr (lit "c")); (lit "weight", PFloat (FDec false 60 (-2)))] ]);
          (lit "total_weight", PFloat (FDec false 100 (-2))) ].

(** An annotated record that declares three tokens and holds two
    weights. *)
Definition short_item : pyval :=
  PDict [ (lit "data_id", PInt 1);
          (lit "question", PStr (lit "Q"));
          (lit "answer", PStr (lit "A"));
          (lit "tokens", PStr (lit "|a|b|c|"));
          (lit "token_count", PInt 3);
          (lit "attention_weights",
           PList [ PDict [(lit "token", PStr (lit "a")); (lit "weight", PFloat (FDec false 4 (-1)))];
                   PDict [(lit "token", PStr (lit "b")); (lit "weight", PFloat (FDec false 6 (-1)))] ]);
          (lit "total_weight", PInt 1) ].

End Samples.


(* ===================================================================== *)
(** ** The Annotator from its start: set-up, input file, any input *)
(* ===================================================================== *)

Module AnnotatorRun.

Import Annotator.

(** [if token.strip()]: the token is not blank. *)
Definition nonblank (token : pystr) : bool :=
  negb (Nat.eqb (length (strip token)) 0).

(** How a run of the script ends: at the end of [main], through
    [sys.exit(code)], or on an exception that nothing catches. *)
Inductive ending :=
| Completed
| Exited (code : Z)
| UncaughtError.

(** What [_setup_openai_client] finds beside the script: no [config.py]; a
    [config.py] with which the branch fails before the client is made (the
    import or its [key] raises); or one that gives a key. *)
Inductive config_py :=
| NoConfig
| BrokenConfig
| ConfigKey (key : pyval).

(** [_setup_openai_client]: the client, or [sys.exit(1)].  [OpenAI] is the
    constructor of the client library ([None] when it raises);
    [OPENAI_API_KEY] is the environment variable, read only when there is
    no [config.py]. *)
Definition _setup_openai_client {C} (OpenAI : pyval -> option C)
    (config : config_py) (OPENAI_API_KEY : option pystr) : C + termination :=
  match config with
  | ConfigKey key =>
      match OpenAI key with
      | Some c => inl c
      | None => inr (SysExit 1)
      end
  | BrokenConfig => inr (SysExit 1)
  | NoConfig =>
      match OPENAI_API_KEY with
      | Some api_key =>
          if truthy (PStr api_key) then
            match OpenAI (PStr api_key) with
            | Some c => inl c
            | None => inr (SysExit 1)
            end
          else inr (SysExit 1)
      | None => inr (SysExit 1)
      end
  end.

(** [project_root / "data" / "output" / ...] *)
Definition input_file (project_root : pystr) : pystr :=
  child (child (child project_root (lit "data")) (lit "output"))
        (lit "selected_questions.json").

Definition output_file (project_root : pystr) : pystr :=
  child (child (child project_root (lit "data")) (lit "output"))
        (lit "gpt4_turbo_attention_weights.json").

(** [main]: the two paths are printed, then come the set-up, the input
    file, and the batch with the model [gpt-4.1] and a delay of two
    seconds.  The decoded input is iterated as it is, whatever it is.
    [project_root] is the directory above the script's, an absolute path
    in the form [pathlib] gives it. *)
Definition main (OpenAI : pyval -> option (nat -> client)) (config : config_py)
    (OPENAI_API_KEY : option pystr) (project_root : pystr)
    (fs : gmap pystr pystr) : list event * ending :=
  if encodable project_root then
    match _setup_openai_client OpenAI config OPENAI_API_KEY with
    | inr t => ([], Exited (exit_status t))
    | inl oracle =>
        match load_quiz_data (fs !! input_file project_root) with
        | inr t => ([], Exited (exit_status t))
        | inl data =>
            match iter data with
            | Some quiz_data =>
                let '(st, returned) :=
                  process_all_quiz_data oracle quiz_data (output_file project_root)
                                        (lit "gpt-4.1") 2 in
                (trace st, if returned then Completed else UncaughtError)
            | None => ([], UncaughtError)
            end
        end
    end
  else ([], UncaughtError).

End AnnotatorRun.

(* ===================================================================== *)
(** ** The Flattener line by line *)
(* ===================================================================== *)

Module FlattenerLines.

Import Flattener.

(** The text one item adds to the output file, [None] when its row cannot
    be built or written. *)
Definition line_of (writerow : list pyval -> option pystr) (item : pyval)
  : option pystr :=
  row_of item ≫= (fun r => writerow (fields r)).

(** The items before the first one that raises. *)
Fixpoint written_items (writerow : list pyval -> option pystr)
    (items : list pyval) : list pyval :=
  match items with
  | [] => []
  | item :: rest =>
      match line_of writerow item with
      | Some _ => item :: written_items writerow rest
      | None => []
      end
  end.

End FlattenerLines.

(* ===================================================================== *)
(** ** More sample inputs *)
(* ===================================================================== *)

Module MoreSamples.

(** A row serialiser for fields that need no quoting: strings and
    integers, joined by commas, ended by a carriage return and a line
    feed. *)
Definition field_text (v : pyval) : option pystr :=
  match v with
  | PStr s => Some s
  | PInt z => Some ((if (z <? 0)%Z then lit "-" else []) ++ digits (Z.abs_N z))
  | PNone => Some []
  | _ => None
  end.

Fixpoint fields_text (l : list pyval) : option (list pystr) :=
  match l with
  | [] => Some []
  | v :: rest =>
      match field_text v, fields_text rest with
      | Some s, Some ss => Some (s :: ss)
      | _, _ => None
      end
  end.

Definition plain_writerow (row : list pyval) : option pystr :=
  match fields_text row with
  | Some ss => Some (join (lit ",") ss ++ [13; 10])
  | None => None
  end.

(** An annotated record whose second weight is a string. *)
Definition broken_item : pyval :=
  PDict [ (lit "data_id", PInt 2);
          (lit "question", PStr (lit "Q2"));
          (lit "answer", PStr (lit "A2"));
          (lit "tokens", PStr (lit "|a|b|"));
          (lit "token_count", PInt 2);
          (lit "attention_weights",
           PList [ PDict [(lit "token", PStr (lit "a")); (lit "weight", PFloat (FDec false 5 (-1)))];
                   PDict [(lit "token", PStr (lit "b")); (lit "weight", PStr (lit "0.5"))] ]);
          (lit "total_weight", PInt 1) ].

(** An annotated record without a weight, which declares no token. *)
Definition no_weights_item : pyval :=
  PDict [ (lit "data_id", PInt 3);
          (lit "question", PStr (lit "Q3"));
          (lit "answer", PStr (lit "A3"));
          (lit "tokens", PStr (lit "||"));
          (lit "token_count", PInt 0);
          (lit "attention_weights", PList []);
          (lit "total_weight", PInt 0) ].

(** An annotated record of three weights whose [token_count] is the text
    of the number, between blanks. *)
Definition text_count_item : pyval :=
  PDict [ (lit "data_id", PInt 1);
          (lit "question", PStr (lit "Q"));
          (lit "answer", PStr (lit "A"));
          (lit "tokens", PStr (lit "|a|b|c|"));
          (lit "token_count", PStr (lit " 3 "));
          (lit "attention_weights",
           PList [ PDict [(lit "token", PStr (lit "a")); (lit "weight", PFloat (FDec false 10 (-2)))];
                   PDict [(lit "token", PStr (lit "b")); (lit "weight", PFloat (FDec false 30 (-2)))];
                   PDict [(lit "token", PStr (lit "c")); (lit "weight", PFloat (FDec false 60 (-2)))] ]);
          (lit "total_weight", PFloat (FDec false 100 (-2))) ].

(** A table with a further column, its columns in another order. *)
Definition wide_table : Selector.DataFrame :=
  {| Selector.columns :=
       [lit "source"; lit "tokens"; lit "data_id"; lit "answer"; lit "question";
        lit "token_count"];
     Selector.rows :=
       [ [ (lit "source", PStr (lit "abc")); (lit "tokens", PStr (lit "|x|y|"));
           (lit "data_id", PInt 7); (lit "answer", PStr (lit "A7"));
           (lit "question", PStr (lit "Q7")); (lit "token_count", PInt 2) ];
         [ (lit "source", PStr (lit "abc")); (lit "tokens", PStr (lit "|u|"));
           (lit "data_id", PInt 3); (lit "answer", PStr (lit "A3"));
           (lit "question", PStr (lit "Q3")); (lit "token_count", PInt 1) ] ] |}.

(** An oracle that gives the answer of the round-trip scenario to every
    request. *)
Definition steady : nat -> Annotator.client :=
  fun _ _ => Annotator.Content Samples.good_response.

(** The text of an input file of the Annotator that holds the record of
    the round-trip scenario. *)
Definition records_text : pystr :=
  jlit "[{'data_id': 1, 'question': 'Q', 'answer': 'A', 'tokens': '|a|b|c|', 'token_count': 3}]".

(** The text of an input file of the Flattener that holds one annotated
    record of one token. *)
Definition annotated_text : pystr :=
  jlit "[{'data_id': 4, 'question': 'Q4', 'answer': 'A4', 'token_count': 1, 'attention_weights': [{'token': 'a', 'weight': 1.0}]}]".


(** A response that decodes and holds both keys, its total weight the
    string of one surrogate. *)
Definition surrogate_total_response : pystr :=
  jlit "{'token_weights': [], 'total_weight': '\ud800'}".



(** A source table that holds three identifiers of the script's list, in
    another order, and one identifier the list does not have. *)
Definition script_table : Selector.DataFrame :=
  {| Selector.columns := Selector.required_columns;
     Selector.rows := [ Samples.quiz_row 84 "Q84" "A84" "|x|y|" 2;
                        Samples.quiz_row 2201 "Q2201" "A2201" "|u|" 1;
                        Samples.quiz_row 5 "Q5" "A5" "|v|w|" 2;
                        Samples.quiz_row 141 "Q141" "A141" "|z|" 1 ] |}.

End MoreSamples.

(* ===================================================================== *)
(** ** Facts about the string methods *)
(* ===================================================================== *)

Section StringFacts.

Implicit Types (s p a b : pystr) (c : N).

Lemma lstrip_app_keep a c b :
  isspace c = false -> lstrip (a ++ c :: b) = lstrip a ++ c :: b.
Proof.
  intros Hc. induction a as [|x a IH]; simpl.
  - now rewrite Hc.
  - destruct (isspace x); [exact IH | reflexivity].
Qed.

Lemma lstrip_keep c s : isspace c = false -> lstrip (c :: s) = c :: s.
Proof. intros Hc. simpl. now rewrite Hc. Qed.

Lemma rstrip_app_keep a c b :
  isspace c = false -> rstrip (a ++ c :: b) = a ++ c :: rstrip b.
Proof.
  intros Hc. unfold rstrip.
  rewrite rev_app_distr. simpl. rewrite <- app_assoc. simpl.
  rewrite lstrip_app_keep by assumption.
  rewrite rev_app_distr. simpl. rewrite rev_involutive.
  now rewrite <- app_assoc.
Qed.

(** What [rstrip] keeps was there before. *)
Lemma lstrip_suffix s : exists w, s = w ++ lstrip s.
Proof.
  induction s as [|x s [w Hw]]; simpl.
  - now exists [].
  - destruct (isspace x).
    + exists (x :: w). simpl. now rewrite <- Hw.
    + now exists [].
Qed.

Lemma rstrip_prefix s : exists w, s = rstrip s ++ w.
Proof.
  unfold rstrip. destruct (lstrip_suffix (rev s)) as [w Hw].
  exists (rev w).
  rewrite <- rev_app_distr, <- Hw. now rewrite rev_involutive.
Qed.

Lemma rstrip_not_in c s : c ∉ s -> c ∉ rstrip s.
Proof.
  intros Hn Hin. apply Hn.
  destruct (rstrip_prefix s) as [w Hw]. rewrite Hw.
  apply elem_of_app. now left.
Qed.

Lemma find_skip c a b :
  c ∉ a -> find c (a ++ c :: b) = Z.of_nat (length a).
Proof.
  induction a as [|x a IH]; intros Hn; simpl.
  - now rewrite N.eqb_refl.
  - apply not_elem_of_cons in Hn as [Hx Ha].
    destruct (N.eqb_spec x c) as [->|_]; [congruence|].
    rewrite (IH Ha).
    destruct (Z.ltb_spec (Z.of_nat (length a)) 0); lia.
Qed.

Lemma rfind_none c s : c ∉ s -> rfind c s = (-1)%Z.
Proof.
  induction s as [|x s IH]; intros Hn; simpl; [reflexivity|].
  apply not_elem_of_cons in Hn as [Hx Hs].
  rewrite (IH Hs). simpl.
  destruct (N.eqb_spec x c) as [->|_]; [congruence | reflexivity].
Qed.

Lemma rfind_skip c a b :
  c ∉ b -> rfind c (a ++ c :: b) = Z.of_nat (length a).
Proof.
  intros Hn. induction a as [|x a IH]; simpl.
  - rewrite (rfind_none _ _ Hn). simpl. now rewrite N.eqb_refl.
  - rewrite IH.
    destruct (Z.leb_spec 0 (Z.of_nat (length a))); lia.
Qed.

Lemma slice_middle a m b :
  slice (a ++ m ++ b) (Z.of_nat (length a)) (Z.of_nat (length a + length m)) = m.
Proof.
  unfold slice, slice_bound. rewrite !length_app.
  destruct (Z.ltb_spec (Z.of_nat (length a)) 0); [lia|].
  destruct (Z.ltb_spec (Z.of_nat (length a + length m)) 0); [lia|].
  replace (Z.to_nat _) with (length m) by lia.
  replace (Z.to_nat _) with (length a) by lia.
  rewrite drop_app_length. apply take_app_length.
Qed.

Lemma startswith_app p s : startswith p (p ++ s) = true.
Proof.
  induction p as [|x p IH]; simpl; [reflexivity|].
  now rewrite N.eqb_refl.
Qed.

Lemma split_no_sep c (a : pystr) : c ∉ a -> split c a = [a].
Proof.
  induction a as [|x a IH]; intros Hn; [reflexivity|].
  apply not_elem_of_cons in Hn as [Hx Ha]. simpl.
  destruct (N.eqb_spec x c) as [->|_]; [congruence|].
  now rewrite (IH Ha).
Qed.

Lemma encodable_app (a b : pystr) : encodable (a ++ b) = encodable a && encodable b.
Proof. apply forallb_app. Qed.

End StringFacts.

(* ===================================================================== *)
(** ** The decoder reads forward, and its bound on calls is never met *)
(* ===================================================================== *)

Section DecoderFuel.

Import Json.

(** Case analysis on what a hypothesis matches on, one match at a time. *)
Ltac split_match H :=
  match type of H with
  | context [match ?x with _ => _ end] => destruct x eqn:?; try discriminate H
  end.

Lemma skip_ws_le s : (length (skip_ws s) <= length s)%nat.
Proof.
  induction s as [|c r IH]; simpl; [lia|].
  destruct (is_ws c); simpl; lia.
Qed.

Lemma scanstring_lt n : forall s acc str rest,
  (length s <= n)%nat ->
  scanstring s acc = Some (str, rest) -> (length rest < length s)%nat.
Proof.
  induction n as [|n IH]; intros s acc str rest Hn H.
  - destruct s; [discriminate | simpl in Hn; lia].
  - destruct s as [|c r]; [discriminate|]. cbn [scanstring] in H.
    cbn [length] in *.
    repeat (split_match H; cbn [length] in * );
      first [ injection H as <- <-; lia
            | apply IH in H; cbn [length] in *; lia ].
Qed.

Lemma take_digits_length s :
  (length (fst (take_digits s)) + length (snd (take_digits s)) = length s)%nat.
Proof.
  induction s as [|c r IH]; simpl; [reflexivity|].
  destruct (is_digit c); simpl; [|reflexivity].
  destruct (take_digits r); simpl in *. lia.
Qed.

Lemma take_digits_le s ds rest :
  take_digits s = (ds, rest) -> (length rest <= length s)%nat.
Proof.
  intros H. pose proof (take_digits_length s) as E. rewrite H in E. simpl in E. lia.
Qed.

Lemma strip_prefix_length p : forall s rest,
  strip_prefix p s = Some rest -> (length rest + length p = length s)%nat.
Proof.
  induction p as [|a p IH]; intros s rest; simpl.
  - intros [= ->]. lia.
  - destruct s as [|b s]; [discriminate|].
    destruct (a =? b); [|discriminate].
    intros H. apply IH in H. simpl. lia.
Qed.

Lemma match_word_lt s v rest :
  match_word s = Some (v, rest) -> (length rest < length s)%nat.
Proof.
  unfold match_word. intros H.
  repeat split_match H; injection H as <- <-;
    match goal with
    | E : strip_prefix _ _ = Some _ |- _ => apply strip_prefix_length in E; simpl in E; lia
    end.
Qed.

Lemma match_constant_lt s v rest :
  match_constant s = Some (v, rest) -> (length rest < length s)%nat.
Proof.
  unfold match_constant. intros H.
  repeat split_match H; injection H as <- <-;
    match goal with
    | E : strip_prefix _ _ = Some _ |- _ => apply strip_prefix_length in E; simpl in E; lia
    end.
Qed.

Lemma match_integer_lt s ip rest :
  match_integer s = Some (ip, rest) -> (length rest < length s)%nat.
Proof.
  unfold match_integer. destruct s as [|c r]; [discriminate|].
  destruct (c =? 48); [intros [= <- <-]; simpl; lia|].
  destruct (is_digit c) eqn:Hd; [|discriminate].
  simpl. rewrite Hd. destruct (take_digits r) as [ds rest'] eqn:Ht.
  intros [= <- <-]. apply take_digits_le in Ht. simpl. lia.
Qed.

Lemma match_frac_le s fd rest :
  match_frac s = Some (fd, rest) -> (length rest <= length s)%nat.
Proof.
  unfold match_frac. destruct s as [|c r]; [discriminate|].
  destruct (c =? 46); [|discriminate].
  destruct (take_digits r) as [ds rest'] eqn:Ht.
  destruct ds; [discriminate|]. intros [= <- <-].
  apply take_digits_le in Ht. simpl. lia.
Qed.

Lemma match_exp_le s e rest :
  match_exp s = Some (e, rest) -> (length rest <= length s)%nat.
Proof.
  unfold match_exp. destruct s as [|c r]; [discriminate|].
  destruct ((c =? 101) || (c =? 69)); [|discriminate].
  destruct r as [|sg r']; [discriminate|].
  destruct (sg =? 45); [|destruct (sg =? 43)]; cbv beta iota zeta;
    match goal with
    | |- context [take_digits ?x] =>
        destruct (take_digits x) as [ds rest'] eqn:Ht
    end;
    (destruct ds; [discriminate|]); intros [= <- <-];
    apply take_digits_le in Ht; simpl in *; lia.
Qed.

Lemma match_number_lt s v rest :
  match_number s = Some (v, rest) -> (length rest < length s)%nat.
Proof.
  unfold match_number. intros H.
  destruct (match s with
            | c :: r => if c =? 45 then (true, r) else (false, s)
            | [] => (false, s)
            end) as [neg s1] eqn:Hs1.
  assert (Hle1 : (length s1 <= length s)%nat).
  { destruct s as [|c r]; [injection Hs1 as <- <-; lia|].
    destruct (c =? 45); injection Hs1 as <- <-; simpl; lia. }
  destruct (match_integer s1) as [[ip s2]|] eqn:Hi; [|discriminate].
  apply match_integer_lt in Hi.
  destruct (match_frac s2) as [[fd s3']|] eqn:Hf.
  - apply match_frac_le in Hf.
    destruct (match_exp s3') as [[e s4']|] eqn:He.
    + apply match_exp_le in He. injection H as <- <-. lia.
    + injection H as <- <-. lia.
  - destruct (match_exp s2) as [[e s4']|] eqn:He.
    + apply match_exp_le in He. injection H as <- <-. lia.
    + destruct (int_max_str_digits <? length ip)%nat; [discriminate|].
      injection H as <- <-. lia.
Qed.

(** Every value the decoder reads takes at least one character. *)
Lemma scan_lt n :
  (forall d s v rest, scan_once n d s = Some (v, rest) -> (length rest < length s)%nat)
  /\ (forall d s acc v rest,
        members n d s acc = Some (v, rest) -> (length rest < length s)%nat)
  /\ (forall d s acc v rest,
        elements n d s acc = Some (v, rest) -> (length rest < length s)%nat).
Proof.
  induction n as [|n (IHs & IHm & IHe)]; [repeat split; intros; discriminate|].
  assert (Hws : forall r x y, skip_ws r = x :: y -> (length y < length r)%nat).
  { intros r x y E. pose proof (skip_ws_le r) as L. rewrite E in L. simpl in L. lia. }
  repeat split.
  - intros d s v rest H. destruct s as [|c r]; [discriminate|]. simpl in H.
    destruct (c =? c_quote).
    { destruct (scanstring r []) as [[str rest']|] eqn:E; [|discriminate].
      injection H as <- <-. apply (scanstring_lt (length r)) in E; simpl; lia. }
    destruct (c =? c_lbrace).
    { destruct d as [|d']; [discriminate|].
      destruct (skip_ws r) as [|c1 r1] eqn:E; [discriminate|]. apply Hws in E.
      destruct (c1 =? c_rbrace); [injection H as <- <-; simpl; lia|].
      destruct (c1 =? c_quote); [|discriminate].
      apply IHm in H. simpl. lia. }
    destruct (c =? 91).
    { destruct d as [|d']; [discriminate|].
      destruct (skip_ws r) as [|c1 r1] eqn:E; [discriminate|]. apply Hws in E.
      destruct (c1 =? 93); [injection H as <- <-; simpl; lia|].
      apply IHe in H. simpl in *. lia. }
    destruct (match_word (c :: r)) as [[v' r']|] eqn:Ew.
    { injection H as <- <-. now apply match_word_lt in Ew. }
    destruct (match_number (c :: r)) as [[v' r']|] eqn:En.
    { injection H as <- <-. now apply match_number_lt in En. }
    now apply match_constant_lt in H.
  - intros d s acc v rest H. simpl in H.
    destruct (scanstring s []) as [[key r]|] eqn:Ek; [|discriminate].
    apply (scanstring_lt (length s)) in Ek; [|lia].
    destruct (skip_ws r) as [|colon r1] eqn:E1; [discriminate|]. apply Hws in E1.
    destruct (colon =? 58); [|discriminate].
    destruct (scan_once n d (skip_ws r1)) as [[v' r2]|] eqn:Ev; [|discriminate].
    apply IHs in Ev. pose proof (skip_ws_le r1) as L1.
    destruct (skip_ws r2) as [|c r3] eqn:E2; [discriminate|]. apply Hws in E2.
    destruct (c =? c_rbrace); [injection H as <- <-; lia|].
    destruct (c =? 44); [|discriminate].
    destruct (skip_ws r3) as [|q r4] eqn:E3; [discriminate|]. apply Hws in E3.
    destruct (q =? c_quote); [|discriminate].
    apply IHm in H. lia.
  - intros d s acc v rest H. simpl in H.
    destruct (scan_once n d s) as [[v' r]|] eqn:Ev; [|discriminate].
    apply IHs in Ev.
    destruct (skip_ws r) as [|c r1] eqn:E1; [discriminate|]. apply Hws in E1.
    destruct (c =? 93); [injection H as <- <-; lia|].
    destruct (c =? 44); [|discriminate].
    apply IHe in H. pose proof (skip_ws_le r1). lia.
Qed.

(** The bound on the depth of the calls is never what stops the decoder:
    from twice the length of the text on, more makes no difference. *)
Lemma scan_fuel n :
  (forall d s, (2 * length s + 1 <= n)%nat ->
               scan_once n d s = scan_once (2 * length s + 1) d s)
  /\ (forall d s acc, (2 * length s + 2 <= n)%nat ->
                      members n d s acc = members (2 * length s + 2) d s acc)
  /\ (forall d s acc, (2 * length s + 2 <= n)%nat ->
                      elements n d s acc = elements (2 * length s + 2) d s acc).
Proof.
  induction n as [n IH] using lt_wf_ind.
  assert (IHs : forall m d s, (m < n)%nat -> (2 * length s + 1 <= m)%nat ->
                              scan_once m d s = scan_once (2 * length s + 1) d s)
    by (intros m d s Hm; apply (IH m Hm)).
  assert (IHm : forall m d s acc, (m < n)%nat -> (2 * length s + 2 <= m)%nat ->
                                  members m d s acc = members (2 * length s + 2) d s acc)
    by (intros m d s acc Hm; apply (IH m Hm)).
  assert (IHe : forall m d s acc, (m < n)%nat -> (2 * length s + 2 <= m)%nat ->
                                  elements m d s acc = elements (2 * length s + 2) d s acc)
    by (intros m d s acc Hm; apply (IH m Hm)).
  assert (Hws : forall r x y, skip_ws r = x :: y -> (length y < length r)%nat).
  { intros r x y E. pose proof (skip_ws_le r) as L. rewrite E in L. simpl in L. lia. }
  clear IH. repeat split.
  - intros d s Hn. destruct n as [|n']; [lia|].
    replace (2 * length s + 1)%nat with (S (2 * length s)) by lia.
    destruct s as [|c r]; [reflexivity|]. cbn [scan_once].
    destruct (c =? c_quote); [reflexivity|].
    destruct (c =? c_lbrace).
    { destruct d as [|d']; [reflexivity|].
      destruct (skip_ws r) as [|c1 r1] eqn:E; [reflexivity|]. apply Hws in E.
      destruct (c1 =? c_rbrace); [reflexivity|].
      destruct (c1 =? c_quote); [|reflexivity].
      simpl length in *.
      rewrite (IHm n' d' r1 []) by lia.
      now rewrite (IHm (2 * S (length r))%nat d' r1 []) by lia. }
    destruct (c =? 91); [|reflexivity].
    destruct d as [|d']; [reflexivity|].
    destruct (skip_ws r) as [|c1 r1] eqn:E; [reflexivity|]. apply Hws in E.
    destruct (c1 =? 93); [reflexivity|].
    simpl length in *.
    rewrite (IHe n' d' (c1 :: r1) []) by (simpl; lia).
    now rewrite (IHe (2 * S (length r))%nat d' (c1 :: r1) []) by (simpl; lia).
  - intros d s acc Hn. destruct n as [|n']; [lia|].
    replace (2 * length s + 2)%nat with (S (2 * length s + 1)) by lia.
    cbn [members].
    destruct (scanstring s []) as [[key r]|] eqn:Ek; [|reflexivity].
    apply (scanstring_lt (length s)) in Ek; [|lia].
    destruct (skip_ws r) as [|colon r1] eqn:E1; [reflexivity|]. apply Hws in E1.
    destruct (colon =? 58); [|reflexivity].
    pose proof (skip_ws_le r1) as L1.
    rewrite (IHs n' d (skip_ws r1)) by lia.
    rewrite (IHs (2 * length s + 1)%nat d (skip_ws r1)) by lia.
    destruct (scan_once (2 * length (skip_ws r1) + 1)%nat d (skip_ws r1))
      as [[v r2]|] eqn:Ev; [|reflexivity].
    apply (proj1 (scan_lt _)) in Ev.
    destruct (skip_ws r2) as [|c r3] eqn:E2; [reflexivity|]. apply Hws in E2.
    destruct (c =? c_rbrace); [reflexivity|].
    destruct (c =? 44); [|reflexivity].
    destruct (skip_ws r3) as [|q r4] eqn:E3; [reflexivity|]. apply Hws in E3.
    destruct (q =? c_quote); [|reflexivity].
    rewrite (IHm n' d r4) by lia.
    now rewrite (IHm (2 * length s + 1)%nat d r4) by lia.
  - intros d s acc Hn. destruct n as [|n']; [lia|].
    replace (2 * length s + 2)%nat with (S (2 * length s + 1)) by lia.
    cbn [elements].
    rewrite (IHs n' d s) by lia.
    destruct (scan_once (2 * length s + 1)%nat d s) as [[v r]|] eqn:Ev; [|reflexivity].
    apply (proj1 (scan_lt _)) in Ev.
    destruct (skip_ws r) as [|c r1] eqn:E1; [reflexivity|]. apply Hws in E1.
    destruct (c =? 93); [reflexivity|].
    destruct (c =? 44); [|reflexivity].
    pose proof (skip_ws_le r1) as L1.
    rewrite (IHe n' d (skip_ws r1)) by lia.
    now rewrite (IHe (2 * length s + 1)%nat d (skip_ws r1)) by lia.
Qed.

(** [json.loads] with any larger bound decodes the same. *)
Lemma loads_fuel s n d :
  (2 * length s + 2 <= n)%nat ->
  scan_once n d (skip_ws s) = scan_once (2 * length s + 2)%nat d (skip_ws s).
Proof.
  intros Hn. pose proof (skip_ws_le s) as L.
  rewrite (proj1 (scan_fuel n)) by lia.
  now rewrite (proj1 (scan_fuel (2 * length s + 2)%nat)) by lia.
Qed.

End DecoderFuel.

(* ===================================================================== *)
(** ** The Annotator: fence stripping *)
(* ===================================================================== *)

Section FenceStripping.

Import Annotator.

Lemma fence_chars : lit "```json" = [96; 96; 96; 106; 115; 111; 110].
Proof. reflexivity. Qed.

Lemma strip_keep_ends c0 h c post :
  isspace c0 = false -> isspace c = false ->
  strip ((c0 :: h) ++ c :: post) = (c0 :: h) ++ c :: rstrip post.
Proof.
  intros H0 Hc. unfold strip.
  change ((c0 :: h) ++ c :: post) with (c0 :: (h ++ c :: post)).
  rewrite lstrip_keep by assumption.
  change (c0 :: (h ++ c :: post)) with ((c0 :: h) ++ c :: post).
  now apply rstrip_app_keep.
Qed.

(** A JSON object text is handed to the decoder as it is. *)
Lemma json_content_object body :
  json_content (strip (c_lbrace :: body ++ [c_rbrace])) = c_lbrace :: body ++ [c_rbrace].
Proof.
  change (c_lbrace :: body ++ [c_rbrace]) with ((c_lbrace :: body) ++ c_rbrace :: []).
  rewrite strip_keep_ends by reflexivity. reflexivity.
Qed.

(** Inside the fence, the text between the first opening brace and the
    last closing brace is handed to the decoder. *)
Lemma json_content_fence pre body post :
  c_lbrace ∉ pre -> c_rbrace ∉ post ->
  json_content (lit "```json" ++ pre ++ (c_lbrace :: body ++ [c_rbrace]) ++ post)
  = c_lbrace :: body ++ [c_rbrace].
Proof.
  intros Hpre Hpost.
  set (head := lit "```json" ++ pre).
  assert (Hhead : c_lbrace ∉ head).
  { unfold head. rewrite elem_of_app. intros [H|H]; [|now apply Hpre].
    rewrite fence_chars in H.
    repeat (apply elem_of_cons in H as [H|H]; [discriminate H|]).
    now apply elem_of_nil in H. }
  replace (lit "```json" ++ pre ++ (c_lbrace :: body ++ [c_rbrace]) ++ post)
    with ((head ++ c_lbrace :: body) ++ c_rbrace :: post)
    by (unfold head; rewrite <- !app_assoc; do 2 f_equal;
        change (c_lbrace :: body ++ [c_rbrace]) with ((c_lbrace :: body) ++ [c_rbrace]);
        now rewrite <- app_assoc).
  unfold json_content.
  assert (Hsw : startswith (lit "```json")
                  ((head ++ c_lbrace :: body) ++ c_rbrace :: post) = true).
  { unfold head. rewrite <- !app_assoc. apply startswith_app. }
  rewrite Hsw.
  rewrite (rfind_skip c_rbrace (head ++ c_lbrace :: body) post) by exact Hpost.
  replace (find c_lbrace ((head ++ c_lbrace :: body) ++ c_rbrace :: post))
    with (Z.of_nat (length head))
    by (symmetry; rewrite <- app_assoc; apply find_skip, Hhead).
  replace ((head ++ c_lbrace :: body) ++ c_rbrace :: post)
    with (head ++ (c_lbrace :: body ++ [c_rbrace]) ++ post)
    by (simpl; rewrite <- !app_assoc; reflexivity).
  replace (Z.of_nat (length (head ++ c_lbrace :: body)) + 1)%Z
    with (Z.of_nat (length head + length (c_lbrace :: body ++ [c_rbrace]))).
  2:{ rewrite !length_app. simpl. rewrite length_app. simpl. lia. }
  apply slice_middle.
Qed.

Lemma json_content_fenced pre body post :
  c_lbrace ∉ pre -> c_rbrace ∉ post ->
  json_content
    (strip (lit "```json" ++ pre ++ (c_lbrace :: body ++ [c_rbrace]) ++ post))
  = c_lbrace :: body ++ [c_rbrace].
Proof.
  intros Hpre Hpost.
  set (head := lit "```json" ++ pre).
  assert (Hhead : c_lbrace ∉ head).
  { unfold head. rewrite elem_of_app. intros [H|H]; [|now apply Hpre].
    rewrite fence_chars in H.
    repeat (apply elem_of_cons in H as [H|H]; [discriminate H|]).
    now apply elem_of_nil in H. }
  assert (Hs : strip (lit "```json" ++ pre ++ (c_lbrace :: body ++ [c_rbrace]) ++ post)
               = (head ++ c_lbrace :: body) ++ c_rbrace :: rstrip post).
  { unfold head. rewrite fence_chars.
    rewrite <- (strip_keep_ends 96 ([96; 96; 106; 115; 111; 110] ++ pre ++ c_lbrace :: body))
      by reflexivity.
    f_equal. simpl. rewrite <- !app_assoc. reflexivity. }
  rewrite Hs. unfold json_content.
  assert (Hsw : startswith (lit "```json")
                  ((head ++ c_lbrace :: body) ++ c_rbrace :: rstrip post) = true).
  { unfold head. rewrite <- !app_assoc. apply startswith_app. }
  rewrite Hsw.
  rewrite (rfind_skip c_rbrace (head ++ c_lbrace :: body) (rstrip post))
    by (apply rstrip_not_in, Hpost).
  replace (find c_lbrace ((head ++ c_lbrace :: body) ++ c_rbrace :: rstrip post))
    with (Z.of_nat (length head))
    by (symmetry; rewrite <- app_assoc; apply find_skip, Hhead).
  replace ((head ++ c_lbrace :: body) ++ c_rbrace :: rstrip post)
    with (head ++ (c_lbrace :: body ++ [c_rbrace]) ++ rstrip post)
    by (simpl; rewrite <- !app_assoc; reflexivity).
  replace (Z.of_nat (length (head ++ c_lbrace :: body)) + 1)%Z
    with (Z.of_nat (length head + length (c_lbrace :: body ++ [c_rbrace]))).
  2:{ rewrite !length_app. simpl. rewrite length_app. simpl. lia. }
  apply slice_middle.
Qed.

End FenceStripping.

(* ===================================================================== *)
(** ** The Annotator: one record *)
(* ===================================================================== *)

Section OneRecord.

Import Annotator.

Lemma handler_not_accepted quiz_item message_ok r :
  handler quiz_item message_ok <> Accepted r.
Proof. unfold handler. destruct (_ && _); discriminate. Qed.


(** The result of an accepted record, field by field. *)
Lemma calculate_Accepted ask quiz_item model r :
  snd (calculate_attention_weights ask quiz_item model) = Accepted r ->
  exists data_id question answer t token_count text weights_data tw total,
    dict_get quiz_item (lit "data_id") = Some data_id
    /\ dict_get quiz_item (lit "question") = Some question
    /\ dict_get quiz_item (lit "answer") = Some answer
    /\ dict_get quiz_item (lit "tokens") = Some (PStr t)
    /\ dict_get quiz_item (lit "token_count") = Some token_count
    /\ printable data_id = true
    /\ (exists p, _create_prompt question answer (PStr t) = Some p
                  /\ ask {| request_model := model; request_prompt := p |} = Content text)
    /\ parse_response (strip text) = Some weights_data
    /\ getitem weights_data (lit "token_weights") = Some tw
    /\ getitem weights_data (lit "total_weight") = Some total
    /\ printable total = true
    /\ r = PDict [ (lit "data_id", data_id);
                   (lit "question", question);
                   (lit "answer", answer);
                   (lit "tokens", PStr t);
                   (lit "token_count", token_count);
                   (lit "attention_weights", tw);
                   (lit "total_weight", total);
                   (lit "model", PStr model);
                   (lit "model_response", PStr (strip text)) ].
Proof.
  unfold calculate_attention_weights.
  destruct (dict_get quiz_item (lit "data_id")) as [data_id|];
    [|intros H; now apply handler_not_accepted in H].
  destruct (dict_get quiz_item (lit "question")) as [question|];
    [|intros H; now apply handler_not_accepted in H].
  destruct (dict_get quiz_item (lit "answer")) as [answer|];
    [|intros H; now apply handler_not_accepted in H].
  destruct (dict_get quiz_item (lit "tokens")) as [tokens|];
    [|intros H; now apply handler_not_accepted in H].
  destruct (printable data_id) eqn:Hid;
    [|intros H; now apply handler_not_accepted in H].
  destruct (_create_prompt question answer tokens) as [p|] eqn:Hp;
    [|intros H; now apply handler_not_accepted in H].
  cbn [snd].
  destruct (ask _) as [message| |text] eqn:Hask;
    try (intros H; now apply handler_not_accepted in H).
  cbv zeta.
  destruct (parse_response (strip text)) as [weights_data|] eqn:Hparse; [|discriminate].
  unfold build_result.
  destruct (dict_get quiz_item (lit "token_count")) as [token_count|];
    [|intros H; now apply handler_not_accepted in H].
  destruct (getitem weights_data (lit "token_weights")) as [tw|] eqn:Htw;
    [|intros H; now apply handler_not_accepted in H].
  destruct (getitem weights_data (lit "total_weight")) as [total|] eqn:Htotal;
    [|intros H; now apply handler_not_accepted in H].
  cbn [mbind option_bind default from_option id].
  destruct (printable total) eqn:Htp;
    [|intros H; now apply handler_not_accepted in H].
  intros [= <-].
  destruct tokens as [| | | |t| |]; try discriminate.
  exists data_id, question, answer, t, token_count, text, weights_data, tw, total.
  do 5 (split; [reflexivity|]). split; [assumption|].
  split; [exists p; split; assumption|].
  do 3 (split; [assumption|]). split; [assumption | reflexivity].
Qed.

Lemma calculate_intro ask quiz_item model
    data_id question answer t token_count p text weights_data tw total :
  dict_get quiz_item (lit "data_id") = Some data_id ->
  dict_get quiz_item (lit "question") = Some question ->
  dict_get quiz_item (lit "answer") = Some answer ->
  dict_get quiz_item (lit "tokens") = Some (PStr t) ->
  dict_get quiz_item (lit "token_count") = Some token_count ->
  printable data_id = true ->
  _create_prompt question answer (PStr t) = Some p ->
  ask {| request_model := model; request_prompt := p |} = Content text ->
  parse_response (strip text) = Some weights_data ->
  getitem weights_data (lit "token_weights") = Some tw ->
  getitem weights_data (lit "total_weight") = Some total ->
  printable total = true ->
  snd (calculate_attention_weights ask quiz_item model)
  = Accepted (PDict [ (lit "data_id", data_id);
                      (lit "question", question);
                      (lit "answer", answer);
                      (lit "tokens", PStr t);
                      (lit "token_count", token_count);
                      (lit "attention_weights", tw);
                      (lit "total_weight", total);
                      (lit "model", PStr model);
                      (lit "model_response", PStr (strip text)) ]).
Proof.
  intros H1 H2 H3 H4 H5 Hid Hp Hask Hparse Htw Htotal Htp.
  unfold calculate_attention_weights.
  rewrite H1, H2, H3, H4, Hid, Hp. cbn [snd]. rewrite Hask. cbv zeta. rewrite Hparse.
  unfold build_result. rewrite H5, Htw, Htotal. cbn [mbind option_bind default from_option id].
  now rewrite Htp.
Qed.

(** A result is never empty, so [if result:] keeps every result. *)
Lemma annotate_calculate ask quiz_item model r :
  annotate ask quiz_item model = Some r
  <-> snd (calculate_attention_weights ask quiz_item model) = Accepted r.
Proof.
  unfold annotate.
  destruct (snd (calculate_attention_weights ask quiz_item model)) as [r'| |] eqn:H;
    [|split; discriminate..].
  apply calculate_Accepted in H
    as (? & ? & ? & ? & ? & ? & ? & ? & ? & _ & _ & _ & _ & _ & _ & _ & _ & _ & _ & _ & ->).
  cbn [truthy length Nat.eqb negb]. split; intros [= ->]; reflexivity.
Qed.

(** An accepted record repeats the five fields of its source record. *)
Lemma annotate_source ask quiz_item model r :
  annotate ask quiz_item model = Some r ->
  source_of r = source_fields quiz_item.
Proof.
  rewrite annotate_calculate. intros H.
  apply calculate_Accepted in H
    as (? & ? & ? & ? & ? & ? & ? & ? & ? & H1 & H2 & H3 & H4 & H5 & _ & _ & _ & _ & _ & _ & ->).
  unfold source_fields. simpl. rewrite H1, H2, H3, H4, H5. reflexivity.
Qed.

Lemma annotate_data_id ask quiz_item model r :
  annotate ask quiz_item model = Some r ->
  data_id_of r = dict_get quiz_item (lit "data_id").
Proof.
  intros H. apply annotate_source in H.
  unfold source_of, source_fields in H. simpl in H. now injection H.
Qed.

(** The calls of a record are its request, when it has one. *)
Lemma calls_of_calculate ask q model :
  fst (calculate_attention_weights ask q model)
  = match request_for q model with
    | Some r => [Call r]
    | None => []
    end.
Proof.
  unfold calculate_attention_weights, request_for.
  destruct (dict_get q (lit "data_id")) as [data_id|],
    (dict_get q (lit "question")), (dict_get q (lit "answer")),
    (dict_get q (lit "tokens")); try reflexivity.
  destruct (printable data_id); [|reflexivity].
  now destruct (_create_prompt _ _ _).
Qed.




(** A record whose identifier cannot be printed raises, before any call. *)
Lemma unprintable_id_raises ask q model data_id :
  dict_get q (lit "data_id") = Some data_id -> printable data_id = false ->
  calculate_attention_weights ask q model = ([], Raised).
Proof.
  intros H1 Hid. unfold calculate_attention_weights. rewrite H1.
  assert (Hh : forall b, handler q b = Raised).
  { intros b. unfold handler, shown_id. rewrite H1. cbn [default from_option id]. now rewrite Hid. }
  destruct (dict_get q (lit "question")); [|now rewrite Hh].
  destruct (dict_get q (lit "answer")); [|now rewrite Hh].
  destruct (dict_get q (lit "tokens")); [|now rewrite Hh].
  rewrite Hid. now rewrite Hh.
Qed.

End OneRecord.

Lemma length_omap_le {A B} (f : A -> option B) (l : list A) :
  (length (omap f l) <= length l)%nat.
Proof.
  induction l as [|x l IH]; [reflexivity|].
  cbn [omap list_omap]. destruct (f x); simpl; lia.
Qed.

(* ===================================================================== *)
(** ** The Annotator: the batch *)
(* ===================================================================== *)

Section Batch.

Import Annotator.

Variable oracle : nat -> client.
Variable model : pystr.
Variable delay : Q.

Lemma outputs_cons i q rest :
  outputs oracle model i (q :: rest)
  = option_list (annotate (oracle i) q model) ++ outputs oracle model (S i) rest.
Proof.
  unfold outputs. rewrite imap_cons. simpl. rewrite Nat.add_0_r.
  assert (E : imap ((fun j q0 => annotate (oracle (i + j)) q0 model) ∘ S) rest
              = imap (fun j q0 => annotate (oracle (S i + j)) q0 model) rest).
  { apply imap_ext. intros j x _. simpl. now rewrite Nat.add_succ_r. }
  rewrite E. now destruct (annotate (oracle i) q model).
Qed.

Lemma outputs_nil i : outputs oracle model i [] = [].
Proof. reflexivity. Qed.

Lemma segments_cons total i q (rest : list pydict) :
  concat (imap (fun j q0 => segment oracle model delay total (i + j) q0) (q :: rest))
  = segment oracle model delay total i q
    ++ concat (imap (fun j q0 => segment oracle model delay total (S i + j) q0) rest).
Proof.
  rewrite imap_cons. simpl concat. rewrite Nat.add_0_r. do 2 f_equal.
  apply imap_ext. intros j x _. simpl. now rewrite Nat.add_succ_r.
Qed.

(** One iteration of the loop. *)
Lemma loop_cons total i q rest st :
  loop oracle model delay total i (PDict q :: rest) st
  = let calls := fst (calculate_attention_weights (oracle i) q model) in
    let results' := results st ++ option_list (annotate (oracle i) q model) in
    if raises (oracle i) q model
    then ({| results := results st; trace := trace st ++ calls |}, false)
    else if (i <? total)%nat then
      if can_sleep delay then
        loop oracle model delay total (S i) rest
             {| results := results'; trace := trace st ++ calls ++ [Sleep delay] |}
      else ({| results := results'; trace := trace st ++ calls |}, false)
    else loop oracle model delay total (S i) rest
              {| results := results'; trace := trace st ++ calls |}.
Proof.
  cbn [loop calculate_item]. unfold raises, annotate.
  destruct (calculate_attention_weights (oracle i) q model) as [calls [r| |]];
    cbn [fst snd option_list]; cbv zeta.
  - destruct (truthy r); cbn [option_list]; rewrite ?app_nil_r; reflexivity.
  - rewrite app_nil_r. reflexivity.
  - reflexivity.
Qed.

(** The loop over records none of which raises, with a delay that
    [time.sleep] takes: every record is processed. *)
Lemma loop_prefix total (ds : list pydict) tail : forall i st,
  can_sleep delay = true ->
  (forall j q, ds !! j = Some q -> raises (oracle (i + j)) q model = false) ->
  loop oracle model delay total i ((PDict <$> ds) ++ tail) st
  = loop oracle model delay total (i + length ds) tail
      {| results := results st ++ outputs oracle model i ds;
         trace := trace st
                  ++ concat (imap (fun j q => segment oracle model delay total (i + j) q)
                                  ds) |}.
Proof.
  induction ds as [|q rest IH]; intros i st Hs Hr.
  - cbn [fmap list_fmap app length imap concat]. rewrite outputs_nil, !app_nil_r, Nat.add_0_r.
    now destruct st.
  - cbn [fmap list_fmap app]. rewrite loop_cons. cbv zeta.
    pose proof (Hr 0%nat q eq_refl) as H0. rewrite Nat.add_0_r in H0. rewrite H0, Hs.
    assert (Hr' : forall j q', rest !! j = Some q' ->
                               raises (oracle (S i + j)) q' model = false).
    { intros j q' Hj. rewrite Nat.add_succ_l, <- Nat.add_succ_r. now apply (Hr (S j)). }
    rewrite segments_cons, outputs_cons. unfold segment at 1.
    cbn [length]. rewrite Nat.add_succ_r, <- Nat.add_succ_l.
    destruct (i <? total)%nat; rewrite (IH (S i) _ Hs Hr'); cbn [results trace];
      rewrite <- ?app_assoc, ?app_nil_r; reflexivity.
Qed.


(** What the loop holds when it is left, however it is left: the accepted
    results of the records it went through, and their calls. *)
Lemma loop_any total (ds : list pydict) : forall i st st' b,
  loop oracle model delay total i (PDict <$> ds) st = (st', b) ->
  exists m,
    (m <= length ds)%nat
    /\ (b = true -> m = length ds)
    /\ results st' = results st ++ outputs oracle model i (take m ds)
    /\ List.filter is_call (trace st')
       = List.filter is_call (trace st)
         ++ (Call <$> omap (fun q => request_for q model) (take m ds))
    /\ List.filter is_save (trace st') = List.filter is_save (trace st).
Proof.
  induction ds as [|q rest IH]; intros i st st' b.
  - cbn [fmap list_fmap loop]. intros [= <- <-]. exists 0%nat.
    cbn [take]. rewrite outputs_nil, !app_nil_r. now repeat split.
  - cbn [fmap list_fmap]. rewrite loop_cons. cbv zeta.
    assert (Hc : forall l,
              List.filter is_call (l ++ fst (calculate_attention_weights (oracle i) q model))
              = List.filter is_call l
                ++ (Call <$> omap (fun q0 => request_for q0 model) [q])).
    { intros l. rewrite List.filter_app, calls_of_calculate. f_equal.
      cbn [omap list_omap]. now destruct (request_for q model). }
    assert (Hv : forall l,
              List.filter is_save (l ++ fst (calculate_attention_weights (oracle i) q model))
              = List.filter is_save l).
    { intros l. rewrite List.filter_app, calls_of_calculate.
      destruct (request_for q model); simpl; now rewrite app_nil_r. }
    assert (Hstop : forall rs,
              rs = results st ++ outputs oracle model i (take 1 (q :: rest)) ->
              forall st0 b0,
                st0 = {| results := rs;
                         trace := trace st
                                  ++ fst (calculate_attention_weights (oracle i) q model) |} ->
                (st0, false) = (st', b0) ->
                exists m, (m <= length (q :: rest))%nat
                  /\ (b0 = true -> m = length (q :: rest))
                  /\ results st' = results st ++ outputs oracle model i (take m (q :: rest))
                  /\ List.filter is_call (trace st')
                     = List.filter is_call (trace st)
                       ++ (Call <$> omap (fun q0 => request_for q0 model)
                                         (take m (q :: rest)))
                  /\ List.filter is_save (trace st') = List.filter is_save (trace st)).
    { intros rs Hrs st0 b0 -> [= <- <-]. exists 1%nat. cbn [length results trace].
      split; [lia|]. split; [discriminate|]. split; [exact Hrs|].
      split; [apply Hc | apply Hv]. }
    assert (Hgo : forall tr,
              List.filter is_call tr
              = List.filter is_call (trace st)
                ++ (Call <$> omap (fun q0 => request_for q0 model) [q]) ->
              List.filter is_save tr = List.filter is_save (trace st) ->
              loop oracle model delay total (S i) (PDict <$> rest)
                   {| results := results st ++ option_list (annotate (oracle i) q model);
                      trace := tr |} = (st', b) ->
              exists m, (m <= length (q :: rest))%nat
                /\ (b = true -> m = length (q :: rest))
                /\ results st' = results st ++ outputs oracle model i (take m (q :: rest))
                /\ List.filter is_call (trace st')
                   = List.filter is_call (trace st)
                     ++ (Call <$> omap (fun q0 => request_for q0 model)
                                       (take m (q :: rest)))
                /\ List.filter is_save (trace st') = List.filter is_save (trace st)).
    { intros tr Htr Hsv H. apply IH in H as (m & Hm & Hb & Hres & Hcalls & Hsaves).
      exists (S m). cbn [length take results trace] in *.
      split; [lia|]. split; [intros E; now rewrite (Hb E)|].
      split; [|split].
      - rewrite Hres, outputs_cons. now rewrite <- app_assoc.
      - rewrite Hcalls, Htr. rewrite <- app_assoc. f_equal.
        cbn [omap list_omap]. destruct (request_for q model); reflexivity.
      - now rewrite Hsaves. }
    destruct (raises (oracle i) q model) eqn:Hr.
    { intros H. refine (Hstop _ _ _ _ eq_refl H).
      cbn [take]. rewrite outputs_cons, outputs_nil, app_nil_r.
      unfold annotate. unfold raises in Hr.
      destruct (snd (calculate_attention_weights (oracle i) q model)); try discriminate.
      cbn [option_list]. now rewrite app_nil_r. }
    destruct (i <? total)%nat.
    + destruct (can_sleep delay).
      * apply Hgo.
        -- rewrite app_assoc, List.filter_app, Hc. simpl. now rewrite app_nil_r.
        -- rewrite app_assoc, List.filter_app, Hv. simpl. now rewrite app_nil_r.
      * intros H. refine (Hstop _ _ _ _ eq_refl H).
        cbn [take]. now rewrite outputs_cons, outputs_nil, app_nil_r.
    + apply Hgo; [apply Hc | apply Hv].
Qed.







Lemma segment_sleeps total i q :
  List.filter is_sleep (segment oracle model delay total i q)
  = if (i <? total)%nat then [Sleep delay] else [].
Proof.
  unfold segment. rewrite List.filter_app, calls_of_calculate.
  destruct (request_for q model), (i <? total)%nat; reflexivity.
Qed.

Lemma segment_saves total i q :
  List.filter is_save (segment oracle model delay total i q) = [].
Proof.
  unfold segment. rewrite List.filter_app, calls_of_calculate.
  destruct (request_for q model), (i <? total)%nat; reflexivity.
Qed.

Lemma segment_calls total i q :
  List.filter is_call (segment oracle model delay total i q)
  = Call <$> omap (fun q0 => request_for q0 model) [q].
Proof.
  unfold segment. rewrite List.filter_app, calls_of_calculate. cbn [omap list_omap].
  destruct (request_for q model), (i <? total)%nat; reflexivity.
Qed.


(** Before the last record every record is followed by its wait. *)
Lemma segments_all_sleep total (ds : list pydict) : forall i,
  (i + length ds <= total)%nat ->
  List.filter is_sleep
    (concat (imap (fun j q => segment oracle model delay total (i + j) q) ds))
  = repeat (Sleep delay) (length ds).
Proof.
  induction ds as [|q rest IH]; intros i Hi; [reflexivity|].
  rewrite segments_cons, List.filter_app, segment_sleeps.
  simpl in Hi. rewrite IH by lia.
  destruct (Nat.ltb_spec i total); [reflexivity | lia].
Qed.

Lemma segments_saves total quiz_data : forall i,
  List.filter is_save
    (concat (imap (fun j q => segment oracle model delay total (i + j) q) quiz_data))
  = [].
Proof.
  induction quiz_data as [|q rest IH]; intros i; [reflexivity|].
  now rewrite segments_cons, List.filter_app, segment_saves, IH.
Qed.

Lemma segments_calls total quiz_data : forall i,
  List.filter is_call
    (concat (imap (fun j q => segment oracle model delay total (i + j) q) quiz_data))
  = Call <$> omap (fun q => request_for q model) quiz_data.
Proof.
  induction quiz_data as [|q rest IH]; intros i; [reflexivity|].
  rewrite segments_cons, List.filter_app, segment_calls, IH.
  cbn [omap list_omap]. now destruct (request_for q model).
Qed.



Lemma save_results_calls rs output_file :
  List.filter is_call (_save_results rs output_file) = [].
Proof. unfold _save_results. now destruct (dirname output_file). Qed.

Lemma saved_filter evs : saved evs = saved (List.filter is_save evs).
Proof.
  induction evs as [|e evs IH]; [reflexivity|].
  destruct e; cbn [saved List.filter is_save]; try exact IH. reflexivity.
Qed.

(** What [process_all_quiz_data] does when the loop runs to its end. *)
Lemma process_completed quiz_data output_file st :
  encodable model = true -> encodable output_file = true ->
  loop oracle model delay (length quiz_data) 1 quiz_data {| results := []; trace := [] |}
  = (st, true) ->
  process_all_quiz_data oracle quiz_data output_file model delay
  = ({| results := results st;
        trace := trace st ++ _save_results (results st) output_file |}, true).
Proof.
  intros Hm Ho Hl. unfold process_all_quiz_data. now rewrite Hm, Ho, Hl.
Qed.






(** X2.  A run calls the oracle at most once per record, with no retry
    and in the order of the input: its calls are the requests of the
    records it went through, a record without a request being passed over;
    a run that returns went through every record. *)
Theorem one_call_per_record quiz_data output_file :
  let out := process_all_quiz_data oracle (PDict <$> quiz_data) output_file model delay in
  let calls := List.filter is_call (trace (fst out)) in
  (exists m, calls = Call <$> omap (fun q => request_for q model) (take m quiz_data))
  /\ (length calls <= length quiz_data)%nat
  /\ (snd out = true -> calls = Call <$> omap (fun q => request_for q model) quiz_data).
Proof.
  intros out calls.
  assert (Hany : exists m, (m <= length quiz_data)%nat
                   /\ (snd out = true -> m = length quiz_data)
                   /\ calls = Call <$> omap (fun q => request_for q model)
                                            (take m quiz_data)).
  { unfold calls, out, process_all_quiz_data.
    destruct (encodable model && encodable output_file).
    - rewrite length_fmap.
      destruct (loop _ _ _ _ _ _ _) as [st b] eqn:Hl.
      apply loop_any in Hl as (m & Hm & Hb & _ & Hc & _). exists m.
      cbn [trace List.filter app] in Hc.
      destruct b; cbn [fst snd trace]; repeat split; try assumption; try discriminate.
      rewrite List.filter_app, save_results_calls, app_nil_r. exact Hc.
    - exists 0%nat. cbn [fst snd trace take]. repeat split; [lia | discriminate]. }
  destruct Hany as (m & Hm & Hb & Hc).
  split; [now exists m|]. split.
  - rewrite Hc, length_fmap.
    etransitivity; [apply length_omap_le|]. rewrite length_take. lia.
  - intros Hret. rewrite Hc, (Hb Hret). now rewrite firstn_all.
Qed.

(** X3.  An element of the input that is not an object ends the run on an
    uncaught exception.  With a delay that [time.sleep] takes and records
    before it that do not raise, those records were processed, each
    followed by its wait, and nothing is saved, their results included. *)
Theorem non_object_element_aborts (ds : list pydict) x rest output_file :
  can_sleep delay = true -> encodable model = true -> encodable output_file = true ->
  (forall j q, ds !! j = Some q -> raises (oracle (S j)) q model = false) ->
  (forall d, x <> PDict d) ->
  let quiz_data := (PDict <$> ds) ++ x :: rest in
  let out := process_all_quiz_data oracle quiz_data output_file model delay in
  snd out = false
  /\ trace (fst out)
     = concat (imap (fun j q => segment oracle model delay (length quiz_data) (S j) q) ds)
  /\ List.filter is_save (trace (fst out)) = []
  /\ saved (trace (fst out)) = None
  /\ List.filter is_sleep (trace (fst out)) = repeat (Sleep delay) (length ds).
Proof.
  intros Hs Hm Ho Hr Hx quiz_data out.
  assert (Hout : out
                 = ({| results := outputs oracle model 1 ds;
                       trace := concat (imap (fun j q =>
                                  segment oracle model delay (length quiz_data) (S j) q)
                                  ds) |}, false)).
  { unfold out, process_all_quiz_data. rewrite Hm, Ho. cbn [andb].
    fold quiz_data. unfold quiz_data at 2.
    rewrite (loop_prefix _ ds (x :: rest) 1 _ Hs Hr).
    cbn [loop results trace app].
    assert (Hc : calculate_item (oracle (1 + length ds)) x model = ([], Raised)).
    { destruct x; try reflexivity. now destruct (Hx d). }
    rewrite Hc. cbn [results trace]. now rewrite app_nil_r. }
  rewrite Hout. cbn [fst snd trace]. split; [reflexivity|]. split; [reflexivity|].
  assert (Hsv : List.filter is_save
                  (concat (imap (fun j q =>
                     segment oracle model delay (length quiz_data) (S j) q) ds)) = [])
    by exact (segments_saves (length quiz_data) ds 1).
  split; [exact Hsv|]. split; [now rewrite saved_filter, Hsv|].
  apply (segments_all_sleep (length quiz_data) ds 1).
  unfold quiz_data. rewrite length_app, length_fmap. simpl. lia.
Qed.

End Batch.

(* ===================================================================== *)
(** ** The Annotator: what is accepted *)
(* ===================================================================== *)

Section Acceptance.

Import Annotator.

(** C10.  A record is accepted exactly when it has its five fields with an
    identifier that can be printed and a string of tokens, the oracle
    answered with text, the text handed to the decoder decodes to a value
    holding [token_weights] and [total_weight], and the total can be
    printed; the two are copied as they are.  Nothing else is asked of
    their content: a response with one weight of 7.5 and a total of 42 is
    accepted for a record of three tokens. *)
Theorem C10_acceptance_ignores_weights :
  (forall ask quiz_item model r,
      annotate ask quiz_item model = Some r <->
      exists data_id question answer t token_count text weights_data tw total,
        dict_get quiz_item (lit "data_id") = Some data_id
        /\ dict_get quiz_item (lit "question") = Some question
        /\ dict_get quiz_item (lit "answer") = Some answer
        /\ dict_get quiz_item (lit "tokens") = Some (PStr t)
        /\ dict_get quiz_item (lit "token_count") = Some token_count
        /\ printable data_id = true
        /\ (exists p, _create_prompt question answer (PStr t) = Some p
                      /\ ask {| request_model := model; request_prompt := p |}
                         = Content text)
        /\ parse_response (strip text) = Some weights_data
        /\ getitem weights_data (lit "token_weights") = Some tw
        /\ getitem weights_data (lit "total_weight") = Some total
        /\ printable total = true
        /\ r = PDict [ (lit "data_id", data_id);
                       (lit "question", question);
                       (lit "answer", answer);
                       (lit "tokens", PStr t);
                       (lit "token_count", token_count);
                       (lit "attention_weights", tw);
                       (lit "total_weight", total);
                       (lit "model", PStr model);
                       (lit "model_response", PStr (strip text)) ])
  /\ (forall delay,
        process_all_quiz_data (fun _ _ => Content Samples.odd_response)
          [PDict Samples.example_item] (lit "/proj/data/output/weights.json")
          (lit "gpt-4.1") delay
        = ({| results :=
                [PDict [ (lit "data_id", PInt 1);
                         (lit "question", PStr (lit "Q"));
                         (lit "answer", PStr (lit "A"));
                         (lit "tokens", PStr (lit "|a|b|c|"));
                         (lit "token_count", PInt 3);
                         (lit "attention_weights",
                          PList [PDict [ (lit "token", PStr (lit "z"));
                                         (lit "weight", PFloat (FDec false 75 (-1))) ]]);
                         (lit "total_weight", PInt 42);
                         (lit "model", PStr (lit "gpt-4.1"));
                         (lit "model_response", PStr Samples.odd_response) ]];
              trace :=
                [ Call {| request_model := lit "gpt-4.1";
                          request_prompt :=
                            {| prompt_question := PStr (lit "Q");
                               prompt_answer := PStr (lit "A");
                               token_list := [lit "a"; lit "b"; lit "c"] |} |};
                  Mkdir (lit "/proj/data/output");
                  Save (lit "/proj/data/output/weights.json")
                    [PDict [ (lit "data_id", PInt 1);
                             (lit "question", PStr (lit "Q"));
                             (lit "answer", PStr (lit "A"));
                             (lit "tokens", PStr (lit "|a|b|c|"));
                             (lit "token_count", PInt 3);
                             (lit "attention_weights",
                              PList [PDict [ (lit "token", PStr (lit "z"));
                                             (lit "weight", PFloat (FDec false 75 (-1))) ]]);
                             (lit "total_weight", PInt 42);
                             (lit "model", PStr (lit "gpt-4.1"));
                             (lit "model_response", PStr Samples.odd_response) ]] ] |},
           true)).
Proof.
  split.
  - intros ask quiz_item model r. rewrite annotate_calculate. split.
    + apply calculate_Accepted.
    + intros (data_id & question & answer & t & token_count & text & weights_data
              & tw & total & H1 & H2 & H3 & H4 & H5 & Hid & (p & Hp & Hask)
              & Hparse & Htw & Htotal & Htp & ->).
      now apply (calculate_intro _ _ _ data_id question answer t token_count p text
                   weights_data tw total).
  - intros delay. vm_compute. reflexivity.
Qed.

Lemma strip_object body :
  strip (c_lbrace :: body ++ [c_rbrace]) = c_lbrace :: body ++ [c_rbrace].
Proof.
  change (c_lbrace :: body ++ [c_rbrace]) with ((c_lbrace :: body) ++ c_rbrace :: []).
  now rewrite strip_keep_ends by reflexivity.
Qed.

(** C4.  A response that, stripped of the white space around it, opens
    with the [json] fence is cut down to the text from its first opening
    brace to its last closing brace before it is decoded.  Around a JSON
    object, with no opening brace before it and no closing brace after it,
    that text is the object: the fenced response decodes to what the bare
    object decodes to, and the two are accepted or rejected alike, with the
    same record but for the raw response kept in it.  A response that does
    not open with the fence is handed to the decoder as it is. *)
Theorem C4_json_fence_is_stripped text pre body post :
  c_lbrace ∉ pre -> c_rbrace ∉ post ->
  let unwrapped := c_lbrace :: body ++ [c_rbrace] in
  strip text = lit "```json" ++ pre ++ unwrapped ++ post ->
  json_content (strip text) = unwrapped
  /\ parse_response (strip text) = parse_response (strip unwrapped)
  /\ (forall quiz_item model,
        without_raw <$> annotate (fun _ => Content text) quiz_item model
        = without_raw <$> annotate (fun _ => Content unwrapped) quiz_item model
        /\ raises (fun _ => Content text) quiz_item model
           = raises (fun _ => Content unwrapped) quiz_item model)
  /\ (forall response_text,
        startswith (lit "```json") response_text = false ->
        json_content response_text = response_text).
Proof.
  intros Hpre Hpost unwrapped Htext.
  assert (Hw : json_content (strip text) = unwrapped)
    by (rewrite Htext; apply json_content_fence; assumption).
  assert (Hp : parse_response (strip text) = parse_response (strip unwrapped)).
  { unfold parse_response. rewrite Hw. unfold unwrapped.
    now rewrite json_content_object. }
  split; [exact Hw|]. split; [exact Hp|]. split.
  - intros quiz_item model. unfold annotate, raises, calculate_attention_weights.
    destruct (dict_get quiz_item (lit "data_id")); [|split; reflexivity].
    destruct (dict_get quiz_item (lit "question")); [|split; reflexivity].
    destruct (dict_get quiz_item (lit "answer")); [|split; reflexivity].
    destruct (dict_get quiz_item (lit "tokens")); [|split; reflexivity].
    destruct (printable _); [|split; reflexivity].
    destruct (_create_prompt _ _ _); [|split; reflexivity].
    cbn [snd]. cbv zeta. rewrite Hp.
    destruct (parse_response (strip unwrapped)) as [weights_data|]; [|split; reflexivity].
    unfold build_result.
    destruct (dict_get quiz_item (lit "token_count")); [|split; reflexivity].
    destruct (getitem weights_data (lit "token_weights")); [|split; reflexivity].
    destruct (getitem weights_data (lit "total_weight")); [|split; reflexivity].
    cbn [mbind option_bind default from_option id].
    destruct (printable _); split; reflexivity.
  - intros response_text H. unfold json_content. now rewrite H.
Qed.

End Acceptance.


(* ===================================================================== *)
(** ** The Flattener: the counts of a row *)
(* ===================================================================== *)

Section RowCounts.

Import Flattener.

Lemma count_app c (a b : pystr) : count c (a ++ b) = (count c a + count c b)%Z.
Proof. induction a as [|x a IH]; simpl; [reflexivity | rewrite IH; lia]. Qed.

Lemma count_repeat c x n : x <> c -> count c (repeat x n) = 0%Z.
Proof.
  intros Hx. induction n as [|n IH]; simpl; [reflexivity|].
  destruct (N.eqb_spec x c); [contradiction | now rewrite IH].
Qed.

(** Decimal digits hold no delimiter. *)
Lemma count_uint d : count c_bar (lit (NilEmpty.string_of_uint d)) = 0%Z.
Proof. induction d; simpl; try assumption; reflexivity. Qed.

Lemma count_digits n : count c_bar (digits n) = 0%Z.
Proof.
  unfold digits, NilZero.string_of_uint.
  destruct (N.to_uint n); try apply count_uint; reflexivity.
Qed.

Lemma count_fixed6 neg u : count c_bar (fixed6 neg u) = 0%Z.
Proof.
  unfold fixed6, zero_pad. rewrite !count_app, !count_digits.
  rewrite count_repeat by discriminate.
  destruct neg; reflexivity.
Qed.

Lemma count_format_double x : count c_bar (format_double x) = 0%Z.
Proof.
  destruct x as [neg|neg| |neg m e]; cbn [format_double];
    try apply count_fixed6; try reflexivity.
  now destruct neg.
Qed.

(** A formatted weight holds no delimiter. *)
Lemma count_format_6f v w : format_6f v = Some w -> count c_bar w = 0%Z.
Proof.
  destruct v as [|b|z|f|s|l|d]; cbn [format_6f]; try discriminate.
  - intros [= <-]. apply count_fixed6.
  - destruct (int_to_double z); [|discriminate]. intros [= <-].
    apply count_format_double.
  - intros [= <-]. apply count_format_double.
Qed.

Lemma count_join (parts : list pystr) :
  parts <> [] ->
  count c_bar (join [c_bar] parts)
  = (inner_delimiters parts + Z.of_nat (length parts) - 1)%Z.
Proof.
  induction parts as [|p ps IH]; intros Hne; [contradiction|].
  destruct ps as [|p' ps'].
  - simpl. lia.
  - change (join [c_bar] (p :: p' :: ps')) with (p ++ [c_bar] ++ join [c_bar] (p' :: ps')).
    rewrite !count_app, IH by discriminate.
    change (inner_delimiters (p :: p' :: ps'))
      with (count c_bar p + inner_delimiters (p' :: ps'))%Z.
    simpl length. simpl count. lia.
Qed.

(** Delimiters less one, in a joined and wrapped field. *)
Lemma count_wrap_join (parts : list pystr) :
  (count c_bar (wrap (join [c_bar] parts)) - 1
   = inner_delimiters parts + Z.max 1 (Z.of_nat (length parts)))%Z.
Proof.
  unfold wrap. rewrite !count_app.
  destruct parts as [|p ps].
  - reflexivity.
  - rewrite count_join by discriminate. simpl length. simpl count. lia.
Qed.

Lemma collect_spec entries : forall tokens weights,
  collect entries = Some (tokens, weights) ->
  Forall2 (fun e t => getitem e (lit "token") = Some t) entries tokens
  /\ length weights = length entries
  /\ inner_delimiters weights = 0%Z.
Proof.
  induction entries as [|e rest IH]; intros tokens weights; simpl.
  - intros [= <- <-]. repeat split. constructor.
  - destruct (getitem e (lit "token")) as [t|] eqn:Ht; [|discriminate]. simpl.
    destruct (getitem e (lit "weight")) as [w|]; [|discriminate]. simpl.
    destruct (format_6f w) as [ws|] eqn:Hw; [|discriminate]. simpl.
    destruct (collect rest) as [[ts' ws']|]; [|discriminate]. simpl.
    intros [= <- <-].
    destruct (IH ts' ws' eq_refl) as (HF & Hl & Hi).
    split; [now constructor|]. split; [simpl; now rewrite Hl|].
    simpl. rewrite Hi, (count_format_6f _ _ Hw). reflexivity.
Qed.

Lemma as_strings_spec l : forall ts, as_strings l = Some ts -> l = PStr <$> ts.
Proof.
  induction l as [|v l IH]; intros ts; simpl.
  - now intros [= <-].
  - destruct v; try discriminate.
    destruct (as_strings l) as [ts'|]; [|discriminate]. simpl.
    intros [= <-]. simpl. now rewrite (IH ts' eq_refl).
Qed.

(** C2.  Every row that is written has, in its weights field, as many
    delimiter-split segments as the record has [attention_weights] entries,
    and one for an empty list; its tokens field has that many and one more
    for each delimiter inside a token; its [token_count] is the record's,
    copied unchecked.  So the comparison of the three counts finds them
    equal exactly when no token holds a delimiter and [int] reads the
    [token_count] field as the number of entries, or as 1 when there is no
    entry; when [int] cannot read the field there is no comparison. *)
Theorem C2_row_counts item r :
  row_of item = Some r ->
  exists entries tokens,
    getitem item (lit "attention_weights") ≫= iter = Some entries
    /\ Forall2 (fun e t => getitem e (lit "token") = Some (PStr t)) entries tokens
    /\ getitem item (lit "token_count") = Some (token_count r)
    /\ weights_count r = Z.max 1 (Z.of_nat (length entries))
    /\ tokens_count r
       = (Z.max 1 (Z.of_nat (length entries)) + inner_delimiters tokens)%Z
    /\ (consistent r = Some true <->
        inner_delimiters tokens = 0%Z
        /\ declared_count r = Some (Z.max 1 (Z.of_nat (length entries))))
    /\ (consistent r = None <-> declared_count r = None).
Proof.
  unfold row_of.
  destruct (getitem item (lit "data_id")) as [i|]; [|discriminate]. simpl.
  destruct (getitem item (lit "question")) as [q|]; [|discriminate]. simpl.
  destruct (getitem item (lit "answer")) as [a|]; [|discriminate]. simpl.
  destruct (getitem item (lit "token_count")) as [tc|]; [|discriminate]. simpl.
  destruct (getitem item (lit "attention_weights") ≫= iter) as [entries|];
    [|discriminate]. simpl.
  destruct (collect entries) as [[tokens weights]|] eqn:Hc; [|discriminate]. simpl.
  destruct (as_strings tokens) as [ts|] eqn:Hs; [|discriminate]. simpl.
  intros [= <-].
  apply collect_spec in Hc as (HF & Hl & Hi).
  apply as_strings_spec in Hs. subst tokens.
  assert (Hlen : length ts = length entries).
  { apply Forall2_length in HF. now rewrite length_fmap in HF. }
  assert (Hw : weights_count
                 {| data_id := i; question := q; answer := a;
                    tokens_str := wrap (join [c_bar] ts);
                    weights_str := wrap (join [c_bar] weights);
                    token_count := tc |}
               = Z.max 1 (Z.of_nat (length entries))).
  { unfold weights_count. cbn [weights_str]. rewrite count_wrap_join, Hi, Hl. lia. }
  assert (Ht : tokens_count
                 {| data_id := i; question := q; answer := a;
                    tokens_str := wrap (join [c_bar] ts);
                    weights_str := wrap (join [c_bar] weights);
                    token_count := tc |}
               = (Z.max 1 (Z.of_nat (length entries)) + inner_delimiters ts)%Z).
  { unfold tokens_count. cbn [tokens_str]. rewrite count_wrap_join, Hlen. lia. }
  exists entries, ts. split; [reflexivity|]. split.
  { clear -HF. revert ts HF. induction entries as [|e rest IH]; intros ts HF.
    - destruct ts; [constructor | inversion HF].
    - destruct ts as [|t ts]; [inversion HF|].
      inversion HF; subst. constructor; [assumption | now apply IH]. }
  split; [reflexivity|]. split; [exact Hw|]. split; [exact Ht|].
  unfold consistent. rewrite Ht, Hw.
  destruct (declared_count _) as [d|]; cbn [mbind option_bind].
  - split.
    + split.
      * intros [= H]. apply andb_true_iff in H as [H1 H2].
        apply Z.eqb_eq in H1, H2. split; [lia | now rewrite H2].
      * intros [H1 [= <-]]. f_equal. apply andb_true_iff.
        split; apply Z.eqb_eq; lia.
    + split; discriminate.
  - split; [|split; reflexivity].
    split; [discriminate | intros [_ H]; discriminate H].
Qed.

End RowCounts.

(* ===================================================================== *)
(** ** The Flattener: running it again *)
(* ===================================================================== *)

Section Rerun.

Import Flattener.

Variable writerow : list pyval -> option pystr.

Lemma strip_prefix_Some p : forall s rest,
  Json.strip_prefix p s = Some rest -> s = p ++ rest.
Proof.
  induction p as [|a p IH]; intros s rest; simpl.
  - now intros [= ->].
  - destruct s as [|b s]; [discriminate|].
    destruct (N.eqb_spec a b) as [->|_]; [|discriminate].
    intros H. now rewrite (IH _ _ H).
Qed.

(** Taking out the occurrences of [pat] shortens a text by a multiple of
    the length of [pat]. *)
Lemma remove_all_length pat : (0 < length pat)%nat -> forall n s,
  (length s <= n)%nat ->
  exists k, (length (remove_all pat n s) + k * length pat = length s)%nat.
Proof.
  intros Hpat n. induction n as [n IH] using lt_wf_ind. intros s Hs.
  destruct n as [|n']; simpl.
  - exists 0%nat. lia.
  - destruct (Json.strip_prefix pat s) as [rest|] eqn:Hp.
    + apply strip_prefix_Some in Hp. subst s. rewrite length_app in *.
      destruct (IH (n' - (length pat - 1))%nat ltac:(lia) rest ltac:(lia)) as [k Hk].
      exists (S k). lia.
    + destruct s as [|c r]; [exists 0%nat; reflexivity|].
      simpl in Hs.
      destruct (IH n' ltac:(lia) r ltac:(lia)) as [k Hk].
      exists k. simpl. lia.
Qed.

Lemma replace_json_length f :
  exists k, (length (replace_json f) + k * 5 = length f)%nat.
Proof. apply (remove_all_length (lit ".json")); [simpl; lia | reflexivity]. Qed.

(** What is left holds no character the text did not hold. *)
Lemma remove_all_elem pat c : forall n s,
  c ∈ remove_all pat n s -> c ∈ s.
Proof.
  intros n. induction n as [n IH] using lt_wf_ind. intros s.
  destruct n as [|n']; [trivial|]. cbn [remove_all].
  destruct (Json.strip_prefix pat s) as [rest|] eqn:Hp.
  - apply strip_prefix_Some in Hp. subst s. intros H.
    apply elem_of_app. right.
    eapply IH; [|exact H]. lia.
  - destruct s as [|x r]; [trivial|].
    intros H. apply elem_of_cons in H as [->|H]; [left|right].
    exact (IH n' ltac:(lia) _ H).
Qed.

Lemma plain_dir_inv dir :
  plain_dir dir = true ->
  encodable dir = true /\ exists c, last dir = Some c /\ c <> 47.
Proof.
  unfold plain_dir. rewrite !andb_true_iff. intros [[_ Hl] He].
  split; [exact He|].
  destruct (last dir) as [c|]; [|discriminate].
  exists c. split; [reflexivity|]. intros ->. discriminate Hl.
Qed.

Lemma plain_name_inv name :
  plain_name name = true ->
  name <> [] /\ (47 ∉ name) /\ name <> [46] /\ encodable name = true.
Proof.
  unfold plain_name. rewrite !andb_true_iff, !negb_true_iff, !bool_decide_eq_false.
  tauto.
Qed.

(** Under a directory that is no root, a name of one component is joined
    with one slash. *)
Lemma joinpath_plain dir name :
  (exists c, last dir = Some c /\ c <> 47) ->
  name <> [] -> 47 ∉ name -> name <> [46] ->
  joinpath dir name = dir ++ [47] ++ name.
Proof.
  intros (c & Hl & Hc) Hne Hs Hd. unfold joinpath.
  assert (Hr : path_root name = []).
  { destruct name as [|x r]; [reflexivity|].
    apply not_elem_of_cons in Hs as [Hx _].
    destruct x as [|p]; [reflexivity|].
    unfold path_root.
    repeat (destruct p as [p|p|]; try reflexivity). congruence. }
  rewrite Hr. unfold path_parts. rewrite split_no_sep by exact Hs.
  cbn [List.filter].
  rewrite !bool_decide_eq_false_2 by assumption. cbn [negb andb fold_left].
  unfold child. rewrite Hl.
  destruct c as [|p]; [reflexivity|].
  repeat (destruct p as [p|p|]; try reflexivity). congruence.
Qed.

Lemma output_name_plain f suffix :
  47 ∉ f -> 47 ∉ suffix -> (2 <= length suffix)%nat ->
  replace_json f ++ suffix <> []
  /\ (47 ∉ replace_json f ++ suffix)
  /\ replace_json f ++ suffix <> [46].
Proof.
  intros Hf Hs Hl.
  assert (Hlen : (2 <= length (replace_json f ++ suffix))%nat)
    by (rewrite length_app; lia).
  split; [intros E; rewrite E in Hlen; simpl in Hlen; lia|].
  split; [|intros E; rewrite E in Hlen; simpl in Hlen; lia].
  rewrite elem_of_app. intros [H|H]; [|now apply Hs].
  apply Hf. eapply remove_all_elem, H.
Qed.

Lemma suffix_no_slash (s : pystr) :
  forallb (fun c => negb (c =? 47)) s = true -> 47 ∉ s.
Proof.
  intros H Hin. rewrite forallb_forall in H.
  apply list_elem_of_In in Hin. specialize (H _ Hin).
  now rewrite N.eqb_refl in H.
Qed.

(** The three paths of [main] for a name of one component. *)
Lemma main_paths output_dir f :
  plain_dir output_dir = true -> plain_name f = true ->
  joinpath output_dir f = output_dir ++ [47] ++ f
  /\ joinpath output_dir (replace_json f ++ lit ".csv")
     = output_dir ++ [47] ++ replace_json f ++ lit ".csv"
  /\ joinpath output_dir (replace_json f ++ lit "_no_header.csv")
     = output_dir ++ [47] ++ replace_json f ++ lit "_no_header.csv"
  /\ encodable (joinpath output_dir f) && encodable output_dir = true.
Proof.
  intros Hd Hf.
  apply plain_dir_inv in Hd as (Hde & Hlast).
  apply plain_name_inv in Hf as (Hne & Hs & Hdot & Hfe).
  assert (H0 : joinpath output_dir f = output_dir ++ [47] ++ f)
    by now apply joinpath_plain.
  split; [exact H0|].
  destruct (output_name_plain f (lit ".csv") Hs
              (suffix_no_slash (lit ".csv") eq_refl) ltac:(simpl; lia))
    as (A1 & A2 & A3).
  destruct (output_name_plain f (lit "_no_header.csv") Hs
              (suffix_no_slash (lit "_no_header.csv") eq_refl) ltac:(simpl; lia))
    as (B1 & B2 & B3).
  split; [now apply joinpath_plain|]. split; [now apply joinpath_plain|].
  rewrite H0, !encodable_app, Hde, Hfe. reflexivity.
Qed.

(** Neither output file is the input file, and the two differ. *)
Lemma output_with_header_fresh output_dir f :
  output_dir ++ replace_json f ++ lit ".csv" <> output_dir ++ f.
Proof.
  intros H. apply app_inv_head in H. apply (f_equal length) in H.
  rewrite length_app in H. simpl in H.
  destruct (replace_json_length f) as [k Hk]. lia.
Qed.

Lemma output_no_header_fresh output_dir f :
  output_dir ++ replace_json f ++ lit "_no_header.csv" <> output_dir ++ f.
Proof.
  intros H. apply app_inv_head in H. apply (f_equal length) in H.
  rewrite length_app in H. simpl in H.
  destruct (replace_json_length f) as [k Hk]. lia.
Qed.

Lemma outputs_differ output_dir f :
  output_dir ++ replace_json f ++ lit ".csv"
  <> output_dir ++ replace_json f ++ lit "_no_header.csv".
Proof. intros H. do 2 apply app_inv_head in H. discriminate H. Qed.

(** A run reads the input file and nothing else. *)
Lemma convert_to_csv_input (fs : gmap pystr pystr) input_json output_file with_header :
  output_file <> input_json ->
  convert_to_csv writerow fs input_json output_file with_header !! input_json
  = fs !! input_json.
Proof.
  intros Hne. unfold convert_to_csv.
  destruct (fs !! input_json ≫= Json.loads) as [data|]; [|reflexivity].
  destruct (sized data); [|reflexivity].
  now rewrite lookup_insert_ne.
Qed.

(** What [main] leaves behind, from the text of the input file alone. *)
Lemma main_unfold (fs : gmap pystr pystr) output_dir f :
  plain_dir output_dir = true -> plain_name f = true ->
  main writerow fs output_dir f
  = match fs !! (output_dir ++ [47] ++ f) ≫= Json.loads with
    | Some data =>
        if sized data then
          <[output_dir ++ [47] ++ replace_json f ++ lit "_no_header.csv"
              := output_text writerow data false]>
            (<[output_dir ++ [47] ++ replace_json f ++ lit ".csv"
                 := output_text writerow data true]> fs)
        else fs
    | None => fs
    end.
Proof.
  intros Hd Hf. destruct (main_paths output_dir f Hd Hf) as (P0 & P1 & P2 & Pe).
  unfold main. cbv zeta. rewrite Pe. rewrite P0, P1, P2.
  rewrite !(app_assoc output_dir [47]).
  pose proof (convert_to_csv_input fs ((output_dir ++ [47]) ++ f)
                ((output_dir ++ [47]) ++ replace_json f ++ lit ".csv") true
                (output_with_header_fresh (output_dir ++ [47]) f)) as Hin.
  set (fs1 := convert_to_csv writerow fs ((output_dir ++ [47]) ++ f)
                ((output_dir ++ [47]) ++ replace_json f ++ lit ".csv") true) in *.
  unfold convert_to_csv at 1. rewrite Hin.
  unfold fs1, convert_to_csv.
  destruct (fs !! ((output_dir ++ [47]) ++ f) ≫= Json.loads) as [data|]; [|reflexivity].
  destruct (sized data); reflexivity.
Qed.

(** C9.  For a file name of one component under the output directory:
    running the Flattener again on the same Annotator output leaves both
    files as the first run left them.  The run does not touch its input,
    and it writes each output afresh with a text that depends on the
    decoded input alone. *)
Theorem C9_rerun_is_identical (fs : gmap pystr pystr) output_dir json_filename :
  plain_dir output_dir = true -> plain_name json_filename = true ->
  let input_json := joinpath output_dir json_filename in
  let output_with_header :=
    joinpath output_dir (replace_json json_filename ++ lit ".csv") in
  let output_no_header :=
    joinpath output_dir (replace_json json_filename ++ lit "_no_header.csv") in
  let fs1 := main writerow fs output_dir json_filename in
  main writerow fs1 output_dir json_filename = fs1
  /\ fs1 !! input_json = fs !! input_json
  /\ input_json = output_dir ++ lit "/" ++ json_filename
  /\ output_with_header <> input_json
  /\ output_no_header <> input_json
  /\ output_with_header <> output_no_header
  /\ forall data,
       fs !! input_json ≫= Json.loads = Some data -> sized data = true ->
       fs1 !! output_with_header = Some (output_text writerow data true)
       /\ fs1 !! output_no_header = Some (output_text writerow data false).
Proof.
  intros Hdir Hname input_json output_with_header output_no_header fs1.
  destruct (main_paths output_dir json_filename Hdir Hname) as (P0 & P1 & P2 & _).
  assert (Hh : output_with_header <> input_json).
  { unfold output_with_header, input_json. rewrite P0, P1, !(app_assoc output_dir [47]).
    apply output_with_header_fresh. }
  assert (Hn : output_no_header <> input_json).
  { unfold output_no_header, input_json. rewrite P0, P2, !(app_assoc output_dir [47]).
    apply output_no_header_fresh. }
  assert (Hd : output_with_header <> output_no_header).
  { unfold output_with_header, output_no_header.
    rewrite P1, P2, !(app_assoc output_dir [47]). apply outputs_differ. }
  assert (Hm : forall fs0,
             main writerow fs0 output_dir json_filename
             = match fs0 !! input_json ≫= Json.loads with
               | Some data =>
                   if sized data then
                     <[output_no_header := output_text writerow data false]>
                       (<[output_with_header := output_text writerow data true]> fs0)
                   else fs0
               | None => fs0
               end).
  { intros fs0. rewrite main_unfold by assumption.
    unfold input_json, output_with_header, output_no_header.
    now rewrite P0, P1, P2. }
  assert (Hin : fs1 !! input_json = fs !! input_json).
  { unfold fs1. rewrite Hm.
    destruct (fs !! input_json ≫= Json.loads) as [data|]; [|reflexivity].
    destruct (sized data); [|reflexivity].
    now rewrite !lookup_insert_ne. }
  split; [|split; [exact Hin|]].
  - rewrite Hm, Hin. unfold fs1. rewrite Hm.
    destruct (fs !! input_json ≫= Json.loads) as [data|]; [|reflexivity].
    destruct (sized data); [|reflexivity].
    apply map_eq. intros path.
    rewrite !lookup_insert. repeat case_decide; congruence.
  - split; [exact P0|]. split; [exact Hh|]. split; [exact Hn|]. split; [exact Hd|].
    intros data Hdata Hsized.
    unfold fs1. rewrite Hm, Hdata, Hsized.
    split.
    + rewrite lookup_insert_ne by congruence. apply lookup_insert_eq.
    + apply lookup_insert_eq.
Qed.

End Rerun.

(* ===================================================================== *)
(** ** The Flattener: what ends up in the files *)
(* ===================================================================== *)

Section Files.

Import Flattener FlattenerLines.

Variable writerow : list pyval -> option pystr.

Lemma write_rows_app items : forall h w,
  write_rows writerow items (h ++ w) = h ++ write_rows writerow items w.
Proof.
  induction items as [|item rest IH]; intros h w; [reflexivity|].
  simpl. destruct (row_of item ≫= _) as [line|]; [|reflexivity].
  now rewrite <- app_assoc, IH.
Qed.

Lemma write_rows_lines items : forall w,
  write_rows writerow items w
  = w ++ concat (omap (line_of writerow) (written_items writerow items)).
Proof.
  induction items as [|item rest IH]; intros w; simpl.
  - now rewrite app_nil_r.
  - fold (line_of writerow item).
    destruct (line_of writerow item) as [line|] eqn:E.
    + rewrite IH. cbn [omap list_omap]. rewrite E. simpl. now rewrite app_assoc.
    + simpl. now rewrite app_nil_r.
Qed.

Lemma written_items_all good :
  Forall (fun item => is_Some (line_of writerow item)) good ->
  written_items writerow good = good.
Proof.
  induction 1 as [|item good [line E] _ IH]; [reflexivity|].
  simpl. now rewrite E, IH.
Qed.

Lemma written_items_stop good bad rest :
  Forall (fun item => is_Some (line_of writerow item)) good ->
  line_of writerow bad = None ->
  written_items writerow (good ++ bad :: rest) = good.
Proof.
  induction 1 as [|item good [line E] _ IH]; intros Hbad; simpl.
  - now rewrite Hbad.
  - now rewrite E, IH.
Qed.

(** X8.  The file with the header is the header line followed by the file
    without it. *)
Theorem header_file_is_header_then_rows data head :
  writerow header = Some head ->
  output_text writerow data true = head ++ output_text writerow data false.
Proof.
  intros Hh. unfold output_text. rewrite Hh.
  destruct (iter data) as [items|]; [|now rewrite app_nil_r].
  rewrite <- (app_nil_r head) at 1. apply write_rows_app.
Qed.

(** X9.  The first item whose row cannot be built or written ends the output:
    the file holds the lines of the items before it, and what follows it
    is never looked at. *)
Theorem output_stops_at_first_failure (good : list pyval) (bad : pyval)
    (rest : list pyval) (with_header : bool) (head : pystr) :
  (if with_header then writerow header else Some ([] : pystr)) = Some head ->
  Forall (fun item => is_Some (line_of writerow item)) good ->
  line_of writerow bad = None ->
  output_text writerow (PList (good ++ bad :: rest)) with_header
  = head ++ concat (omap (line_of writerow) good)
  /\ output_text writerow (PList (good ++ bad :: rest)) with_header
     = output_text writerow (PList good) with_header.
Proof.
  intros Hh Hgood Hbad. unfold output_text. rewrite Hh. cbn [iter].
  rewrite !write_rows_lines, written_items_stop, written_items_all by assumption.
  split; reflexivity.
Qed.

(** X10.  When every item gives a line, the file holds one line for each item,
    in the order of the input. *)
Theorem output_is_one_line_per_item (items : list pyval) (with_header : bool)
    (head : pystr) :
  (if with_header then writerow header else Some ([] : pystr)) = Some head ->
  Forall (fun item => is_Some (line_of writerow item)) items ->
  exists lines,
    Forall2 (fun item line => line_of writerow item = Some line) items lines
    /\ output_text writerow (PList items) with_header = head ++ concat lines.
Proof.
  intros Hh Hall. exists (omap (line_of writerow) items). split.
  - induction Hall as [|item items [line E] _ IH]; [constructor|].
    cbn [omap list_omap]. rewrite E. now constructor.
  - unfold output_text. rewrite Hh. cbn [iter].
    now rewrite write_rows_lines, written_items_all.
Qed.

Lemma strip_prefix_no_dot (c : N) (r : pystr) :
  c <> 46 -> Json.strip_prefix (lit ".json") (c :: r) = None.
Proof.
  intros H. change (lit ".json") with (46 :: lit "json").
  cbn [Json.strip_prefix]. destruct (N.eqb_spec 46 c); congruence.
Qed.

Lemma remove_all_no_dot (s : pystr) : forall n,
  46 ∉ s -> remove_all (lit ".json") n s = s.
Proof.
  induction s as [|c r IH]; intros n Hn.
  - destruct n; reflexivity.
  - apply not_elem_of_cons in Hn as [Hc Hr].
    destruct n as [|n']; [reflexivity|]. cbn [remove_all].
    rewrite strip_prefix_no_dot by congruence. now rewrite IH.
Qed.

Lemma remove_all_stem (stem : pystr) : forall n,
  (length (stem ++ lit ".json") <= n)%nat -> 46 ∉ stem ->
  remove_all (lit ".json") n (stem ++ lit ".json") = stem.
Proof.
  induction stem as [|c r IH]; intros n Hlen Hn.
  - simpl in Hlen. do 5 (destruct n as [|n]; [lia|]).
    destruct n; reflexivity.
  - apply not_elem_of_cons in Hn as [Hc Hr].
    destruct n as [|n']; [simpl in Hlen; lia|]. cbn [remove_all app].
    rewrite strip_prefix_no_dot by congruence.
    rewrite IH; [reflexivity | simpl in Hlen; lia | assumption].
Qed.

Lemma plain_name_app (stem suffix : pystr) :
  plain_name stem = true -> plain_name suffix = true ->
  plain_name (stem ++ suffix) = true.
Proof.
  unfold plain_name.
  rewrite !andb_true_iff, !negb_true_iff, !bool_decide_eq_false.
  intros (((((A1 & A2) & A3) & A4) & A5) & A6) (((((B1 & B2) & B3) & B4) & B5) & B6).
  assert (Hl : (2 <= length (stem ++ suffix))%nat).
  { rewrite length_app. destruct stem, suffix; simpl; try lia; congruence. }
  repeat split.
  - intros E. rewrite E in Hl. simpl in Hl. lia.
  - rewrite elem_of_app. tauto.
  - rewrite elem_of_app. tauto.
  - intros E. rewrite E in Hl. simpl in Hl. lia.
  - intros E. destruct stem as [|a [|b stem]]; [congruence| |].
    + destruct suffix as [|c [|d suffix]]; [congruence| |simpl in E; discriminate E].
      injection E as -> ->. now apply A4.
    + destruct suffix; [congruence | destruct stem; simpl in E; discriminate E].
  - rewrite encodable_app, A6, B6. reflexivity.
Qed.

(** X11.  The names of the output files: for an input name of one
    component with no dot, followed by the extension [.json], the outputs
    are the name followed by [.csv] and by [_no_header.csv], in the output
    directory; they hold the two texts when the input decodes. *)
Theorem output_names (fs : gmap pystr pystr) (output_dir stem : pystr) data :
  plain_dir output_dir = true -> plain_name stem = true -> 46 ∉ stem ->
  fs !! (output_dir ++ lit "/" ++ stem ++ lit ".json") ≫= Json.loads = Some data ->
  sized data = true ->
  replace_json stem = stem
  /\ replace_json (stem ++ lit ".json") = stem
  /\ main writerow fs output_dir (stem ++ lit ".json")
       !! (output_dir ++ lit "/" ++ stem ++ lit ".csv")
     = Some (output_text writerow data true)
  /\ main writerow fs output_dir (stem ++ lit ".json")
       !! (output_dir ++ lit "/" ++ stem ++ lit "_no_header.csv")
     = Some (output_text writerow data false).
Proof.
  intros Hdir Hplain Hstem Hdata Hsized.
  assert (H1 : replace_json stem = stem)
    by (apply remove_all_no_dot, Hstem).
  assert (H2 : replace_json (stem ++ lit ".json") = stem)
    by (apply remove_all_stem; [reflexivity | exact Hstem]).
  split; [exact H1|]. split; [exact H2|].
  rewrite main_unfold; [|exact Hdir|apply plain_name_app; [exact Hplain|reflexivity]].
  change (lit "/") with [47] in *.
  rewrite Hdata, Hsized, H2.
  split.
  - rewrite lookup_insert_ne; [apply lookup_insert_eq|].
    intros E. do 3 apply app_inv_head in E. discriminate E.
  - apply lookup_insert_eq.
Qed.


End Files.

(* ===================================================================== *)
(** ** The Selector: filtering and reordering *)
(* ===================================================================== *)

Section Reordering.

Import Selector.

Variable target : list Z.

Lemma insert_by_code_perm r l : insert_by_code target r l ≡ₚ r :: l.
Proof.
  induction l as [|r' l IH]; simpl; [reflexivity|].
  destruct (category_code target r <=? category_code target r')%nat; [reflexivity|].
  rewrite IH. apply Permutation_swap.
Qed.

Lemma sort_values_perm l : sort_values target l ≡ₚ l.
Proof.
  induction l as [|r l IH]; simpl; [reflexivity|].
  rewrite insert_by_code_perm. now rewrite IH.
Qed.

Lemma insert_by_code_sorted r l :
  StronglySorted (by_code target) l -> StronglySorted (by_code target) (insert_by_code target r l).
Proof.
  induction 1 as [|r' l Hl IH Hall]; simpl.
  - repeat constructor.
  - destruct (Nat.leb_spec (category_code target r) (category_code target r')) as [Hle|Hgt].
    + constructor; [now constructor|].
      constructor; [exact Hle|].
      eapply Forall_impl; [exact Hall|]. unfold by_code. simpl. intros; lia.
    + constructor; [exact IH|].
      rewrite insert_by_code_perm. constructor; [|exact Hall].
      unfold by_code. lia.
Qed.

Lemma sort_values_sorted l : StronglySorted (by_code target) (sort_values target l).
Proof.
  induction l as [|r l IH]; simpl; [constructor|].
  now apply insert_by_code_sorted.
Qed.

(** Rows in the order of their codes carry identifiers in the order of
    the target list. *)
Lemma sorted_ids l :
  StronglySorted (by_code target) l -> StronglySorted (by_position target) (omap row_id l).
Proof.
  induction 1 as [|r l Hl IH Hall]; simpl; [constructor|].
  destruct (row_id r) as [z|] eqn:Hz; [|exact IH].
  constructor; [exact IH|].
  apply Forall_forall. intros z' Hz'.
  apply list_elem_of_omap in Hz' as (r' & Hr' & Hid).
  rewrite Forall_forall in Hall. specialize (Hall r' Hr').
  unfold by_code, category_code in Hall. rewrite Hz, Hid in Hall. exact Hall.
Qed.

Lemma index_of_lookup (l : list Z) x : x ∈ l -> l !! index_of x l = Some x.
Proof.
  induction l as [|c cs IH]; intros Hx; [now apply elem_of_nil in Hx|].
  simpl. destruct (decide (c = x)) as [->|Hne]; [reflexivity|].
  apply elem_of_cons in Hx as [->|Hx]; [contradiction|]. now apply IH.
Qed.

Lemma by_position_antisym x y :
  x ∈ target -> y ∈ target -> (by_position target) x y -> (by_position target) y x -> x = y.
Proof.
  unfold by_position. intros Hx Hy H1 H2.
  apply index_of_lookup in Hx, Hy.
  assert (E : index_of x target = index_of y target) by lia.
  rewrite E in Hx. congruence.
Qed.

Lemma StronglySorted_agree {A} (R1 R2 : relation A) l :
  (forall x y, x ∈ l -> y ∈ l -> R1 x y -> R2 x y) ->
  StronglySorted R1 l -> StronglySorted R2 l.
Proof.
  intros Hag Hs. induction Hs as [|x l Hl IH Hall]; [constructor|].
  constructor.
  - apply IH. intros a b Ha Hb. apply Hag; now right.
  - rewrite Forall_forall in *. intros y Hy.
    apply Hag; [left | now right | now apply Hall].
Qed.

Lemma StronglySorted_filter {A} (R : relation A) (f : A -> bool) l :
  StronglySorted R l -> StronglySorted R (List.filter f l).
Proof.
  induction 1 as [|x l Hl IH Hall]; simpl; [constructor|].
  destruct (f x); [|exact IH].
  constructor; [exact IH|].
  rewrite Forall_forall in *. intros y Hy.
  apply list_elem_of_In, filter_In in Hy as [Hy _].
  now apply Hall, list_elem_of_In.
Qed.

End Reordering.

Section Selection.

Import Selector.

(** A list without repetition is in the order of its own positions. *)
Lemma target_sorted (l : list Z) : NoDup l -> StronglySorted (by_position l) l.
Proof.
  induction 1 as [|c cs Hc Hnd IH]; [constructor|].
  constructor.
  - apply (StronglySorted_agree (by_position cs)); [|exact IH].
    intros x y Hx Hy. unfold by_position. simpl.
    destruct (decide (c = x)) as [->|_]; [contradiction|].
    destruct (decide (c = y)) as [->|_]; [contradiction|]. lia.
  - apply Forall_forall. intros y _. unfold by_position. simpl.
    destruct (decide (c = c)); [lia | contradiction].
Qed.

Lemma row_id_select_columns r : row_id (select_columns required_columns r) = row_id r.
Proof.
  unfold row_id, select_columns, required_columns. simpl.
  destruct (dict_get r (lit "data_id")) as [v|] eqn:Hid.
  - reflexivity.
  - destruct (dict_get r (lit "question")), (dict_get r (lit "answer")),
      (dict_get r (lit "tokens")), (dict_get r (lit "token_count")); reflexivity.
Qed.

Lemma ids_select_columns l :
  omap row_id (List.map (select_columns required_columns) l) = omap row_id l.
Proof.
  induction l as [|r l IH]; [reflexivity|].
  cbn -[select_columns row_id required_columns].
  now rewrite row_id_select_columns, IH.
Qed.

Lemma ids_cons r l :
  omap row_id (r :: l)
  = match row_id r with
    | Some z => z :: omap row_id l
    | None => omap row_id l
    end.
Proof. reflexivity. Qed.

Lemma isin_spec target r :
  isin target r = match row_id r with
                  | Some z => bool_decide (z ∈ target)
                  | None => false
                  end.
Proof. reflexivity. Qed.

Lemma ids_filter_isin target l :
  omap row_id (List.filter (isin target) l)
  = List.filter (fun z => bool_decide (z ∈ target)) (omap row_id l).
Proof.
  induction l as [|r l IH]; [reflexivity|].
  cbn [List.filter]. rewrite ids_cons, isin_spec.
  destruct (row_id r) as [z|] eqn:Hz; [|exact IH].
  cbn [List.filter].
  destruct (bool_decide (z ∈ target)); [|exact IH].
  now rewrite ids_cons, Hz, IH.
Qed.

Lemma length_ids_isin target l :
  length (omap row_id (List.filter (isin target) l))
  = length (List.filter (isin target) l).
Proof.
  induction l as [|r l IH]; [reflexivity|].
  cbn [List.filter]. rewrite isin_spec.
  destruct (row_id r) as [z|] eqn:Hz; [|exact IH].
  destruct (bool_decide (z ∈ target)); [|exact IH].
  rewrite ids_cons, Hz. cbn [length]. now rewrite IH.
Qed.

(** The identifiers of the reordered rows: the target list, without the
    identifiers the source does not have. *)
Lemma selected_ids target l :
  NoDup target -> NoDup (omap row_id l) ->
  omap row_id (sort_values target (List.filter (isin target) l))
  = List.filter (fun z => bool_decide (z ∈ omap row_id l)) target.
Proof.
  intros Ht Hl.
  assert (Hperm : omap row_id (sort_values target (List.filter (isin target) l))
                  ≡ₚ List.filter (fun z => bool_decide (z ∈ target)) (omap row_id l)).
  { rewrite sort_values_perm. now rewrite ids_filter_isin. }
  assert (Hiff : forall z,
             z ∈ List.filter (fun z => bool_decide (z ∈ target)) (omap row_id l)
             <-> z ∈ List.filter (fun z => bool_decide (z ∈ omap row_id l)) target).
  { intros z. rewrite !list_elem_of_In, !filter_In, <- !list_elem_of_In.
    rewrite !bool_decide_eq_true. tauto. }
  apply (StronglySorted_unique_strong (by_position target)).
  - intros x y Hx Hy. apply by_position_antisym.
    + rewrite Hperm in Hx. apply Hiff in Hx.
      apply list_elem_of_In, filter_In in Hx as [Hx _]. now apply list_elem_of_In.
    + apply list_elem_of_In, filter_In in Hy as [Hy _]. now apply list_elem_of_In.
  - apply sorted_ids, sort_values_sorted.
  - apply StronglySorted_filter, target_sorted, Ht.
  - rewrite Hperm. apply NoDup_Permutation.
    + apply NoDup_ListNoDup, List.NoDup_filter, NoDup_ListNoDup, Hl.
    + apply NoDup_ListNoDup, List.NoDup_filter, NoDup_ListNoDup, Ht.
    + exact Hiff.
Qed.

End Selection.

(* ===================================================================== *)
(** ** The Selector: one invocation *)
(* ===================================================================== *)

Section Invocation.

Import Selector.

Lemma no_missing_columns df :
  Forall (fun col => col ∈ columns df) required_columns ->
  List.filter (fun col => negb (bool_decide (col ∈ columns df))) required_columns = [].
Proof.
  intros H. induction H as [|col cols Hcol _ IH]; [reflexivity|].
  cbn [List.filter]. now rewrite (bool_decide_eq_true_2 _ Hcol).
Qed.

Lemma some_missing_column df :
  Exists (fun col => col ∉ columns df) required_columns ->
  List.filter (fun col => negb (bool_decide (col ∈ columns df))) required_columns <> [].
Proof.
  intros H. induction H as [col cols Hcol|col cols _ IH]; cbn [List.filter].
  - now rewrite (bool_decide_eq_false_2 _ Hcol).
  - destruct (negb (bool_decide (col ∈ columns df))); [discriminate | exact IH].
Qed.

(** What an invocation with a non-empty target list without repetition
    does on a table that has the required columns: it warns of the absent
    identifiers, if any, and writes the selected rows. *)
Lemma extract_with_target df output_file target output_format :
  Forall (fun col => col ∈ columns df) required_columns ->
  target <> [] -> NoDup target ->
  let selected := sort_values target (List.filter (isin target) (rows df)) in
  let absent :=
    List.filter (fun z => negb (bool_decide (z ∈ omap row_id selected))) target in
  let o := extract_csv_data (Frame df) output_file (Some target) output_format in
  warned (events o) = absent
  /\ written (events o) = Some (List.map (select_columns required_columns) selected)
  /\ ends o = Returns.
Proof.
  intros Hcols Hne Hnd selected absent o.
  unfold o, extract_csv_data, extract_body.
  rewrite (no_missing_columns df Hcols).
  unfold extracted_rows. destruct target as [|t ts]; [contradiction|].
  rewrite (bool_decide_eq_true_2 _ Hnd).
  fold selected. fold absent.
  destruct absent as [|z zs], (dirname output_file) as [|c cs],
    (is_json output_format); repeat split; simpl; now rewrite ?app_nil_r.
Qed.

(** C3.  For a non-empty target list without repetition and a source table
    whose identifiers are distinct, the identifiers of the output records
    are the target list, less the identifiers the source does not have, in
    the order of the target list. *)
Theorem C3_output_follows_target_order df output_file target output_format :
  Forall (fun col => col ∈ columns df) required_columns ->
  target <> [] -> NoDup target -> NoDup (source_ids df) ->
  ids_of
    <$> written (events (extract_csv_data (Frame df) output_file (Some target)
                           output_format))
  = Some (List.filter (fun z => bool_decide (z ∈ source_ids df)) target).
Proof.
  intros Hcols Hne Hnd Hsrc.
  destruct (extract_with_target df output_file target output_format Hcols Hne Hnd)
    as (_ & -> & _).
  cbn [fmap option_fmap option_map]. f_equal. unfold ids_of.
  rewrite ids_select_columns. now apply selected_ids.
Qed.

Lemma length_split {A} (f : A -> bool) l :
  (length (List.filter f l) + length (List.filter (fun x => negb (f x)) l)
   = length l)%nat.
Proof.
  induction l as [|x l IH]; [reflexivity|].
  cbn [List.filter]. destruct (f x); simpl; lia.
Qed.

(** The identifiers of the selected rows are those of the target list
    that the source has. *)
Lemma selected_elem target l z :
  z ∈ omap row_id (sort_values target (List.filter (isin target) l))
  <-> z ∈ target /\ z ∈ omap row_id l.
Proof.
  rewrite sort_values_perm, ids_filter_isin.
  rewrite list_elem_of_In, filter_In, <- list_elem_of_In, bool_decide_eq_true.
  tauto.
Qed.

(** C8.  For a target list without repetition, the identifiers of the
    list that the source table does not have are the ones reported in the
    warning; the output is still written and holds none of them.  When the
    identifiers of the source are distinct, the output is shorter than the
    target list by the number of absent identifiers. *)
Theorem C8_absent_ids_are_warned_and_omitted df output_file target output_format :
  Forall (fun col => col ∈ columns df) required_columns ->
  target <> [] -> NoDup target ->
  let o := extract_csv_data (Frame df) output_file (Some target) output_format in
  let absent := List.filter (fun z => negb (bool_decide (z ∈ source_ids df))) target in
  warned (events o) = absent
  /\ exists records,
       written (events o) = Some records
       /\ (forall z, z ∈ absent -> z ∉ ids_of records)
       /\ (NoDup (source_ids df) ->
           (length records + length absent = length target)%nat).
Proof.
  intros Hcols Hne Hnd o absent.
  destruct (extract_with_target df output_file target output_format Hcols Hne Hnd)
    as (Hw & Hr & _).
  fold o in Hw, Hr.
  assert (Habs : List.filter
                   (fun z => negb (bool_decide
                      (z ∈ omap row_id
                             (sort_values target (List.filter (isin target) (rows df))))))
                   target
                 = absent).
  { unfold absent. apply filter_ext_in. intros z Hz. f_equal.
    apply bool_decide_ext. rewrite selected_elem.
    apply list_elem_of_In in Hz. unfold source_ids, ids_of. tauto. }
  split; [now rewrite Hw|].
  eexists. split; [exact Hr|]. split.
  - intros z Hz. unfold ids_of. rewrite ids_select_columns, selected_elem.
    unfold absent in Hz.
    apply list_elem_of_In, filter_In in Hz as [_ Hz].
    apply negb_true_iff, bool_decide_eq_false in Hz.
    unfold source_ids, ids_of in Hz. tauto.
  - intros Hsrc.
    pose proof (selected_ids target (rows df) Hnd Hsrc) as Hids.
    change (omap row_id (rows df)) with (source_ids df) in Hids.
    rewrite length_map.
    rewrite <- (length_split (fun z => bool_decide (z ∈ source_ids df)) target).
    fold absent. f_equal.
    rewrite <- Hids.
    rewrite (Permutation_length (sort_values_perm target _)).
    rewrite <- length_ids_isin.
    apply Permutation_length. apply omap_Permutation. symmetry. apply sort_values_perm.
Qed.

(** C6.  When a required column is absent from the source table, the
    invocation prints one error that names the absent columns and does
    nothing else: no directory is made and no file is written.  The error
    is caught inside the function, which returns; the process ends with
    status 0. *)
Theorem C6_missing_column_stops df output_file target_data_ids output_format :
  Exists (fun col => col ∉ columns df) required_columns ->
  let o := extract_csv_data (Frame df) output_file target_data_ids output_format in
  let missing_columns :=
    List.filter (fun col => negb (bool_decide (col ∈ columns df))) required_columns in
  missing_columns <> []
  /\ (forall col, col ∈ missing_columns <-> col ∈ required_columns /\ col ∉ columns df)
  /\ events o = [PrintError (MissingColumns missing_columns)]
  /\ written (events o) = None
  /\ ends o = Returns
  /\ exit_status (ends o) = 0%Z.
Proof.
  intros Hex o missing_columns.
  pose proof (some_missing_column df Hex) as Hne. fold missing_columns in Hne.
  split; [exact Hne|]. split.
  { intros col. unfold missing_columns.
    rewrite list_elem_of_In, filter_In, <- list_elem_of_In.
    rewrite negb_true_iff, bool_decide_eq_false. reflexivity. }
  unfold o, extract_csv_data, extract_body. fold missing_columns.
  destruct missing_columns as [|c cs]; [contradiction|].
  repeat split.
Qed.

End Invocation.

(* ===================================================================== *)
(** ** The delimiter encoding of tokens, there and back *)
(* ===================================================================== *)

Section TokenEncoding.

Import Annotator AnnotatorRun.

Lemma split_app_sep c (a b : pystr) :
  c ∉ a -> split c (a ++ c :: b) = a :: split c b.
Proof.
  induction a as [|x a IH]; intros Hn; simpl.
  - now rewrite N.eqb_refl.
  - apply not_elem_of_cons in Hn as [Hx Ha].
    destruct (N.eqb_spec x c) as [->|_]; [congruence|].
    now rewrite (IH Ha).
Qed.

Lemma split_join c (ts : list pystr) :
  Forall (fun t => c ∉ t) ts -> ts <> [] -> split c (join [c] ts) = ts.
Proof.
  induction 1 as [|t ts Ht Hts IH]; intros Hne; [contradiction|].
  destruct ts as [|t' ts'].
  - simpl. now apply split_no_sep.
  - change (join [c] (t :: t' :: ts')) with (t ++ c :: join [c] (t' :: ts')).
    rewrite split_app_sep by assumption. f_equal. now apply IH.
Qed.

Lemma split_nonempty c (s : pystr) : split c s <> [].
Proof.
  destruct s as [|x s]; simpl; [discriminate|].
  destruct (x =? c); [discriminate|]. now destruct (split c s).
Qed.

Lemma split_snoc_sep c (s : pystr) : split c (s ++ [c]) = split c s ++ [[]].
Proof.
  induction s as [|x s IH]; simpl.
  - now rewrite N.eqb_refl.
  - destruct (x =? c); [now rewrite IH|].
    rewrite IH. pose proof (split_nonempty c s).
    now destruct (split c s).
Qed.

(** The segments of a wrapped, joined list of tokens: an empty one, the
    tokens, an empty one. *)
Lemma split_wrap_join (ts : list pystr) :
  Forall (fun t => c_bar ∉ t) ts -> ts <> [] ->
  split c_bar (Flattener.wrap (join [c_bar] ts)) = [] :: ts ++ [[]].
Proof.
  intros Hts Hne. unfold Flattener.wrap.
  change ([c_bar] ++ join [c_bar] ts ++ [c_bar])
    with (c_bar :: (join [c_bar] ts ++ [c_bar])).
  change (split c_bar (c_bar :: (join [c_bar] ts ++ [c_bar])))
    with ([] :: split c_bar (join [c_bar] ts ++ [c_bar])).
  now rewrite split_snoc_sep, split_join.
Qed.

Lemma filter_nonblank (ts : list pystr) :
  Forall (fun t => strip t <> []) ts -> List.filter nonblank ts = ts.
Proof.
  induction 1 as [|t ts Ht _ IH]; [reflexivity|].
  simpl. unfold nonblank at 1.
  destruct (strip t); [contradiction|]. simpl. now rewrite IH.
Qed.

Lemma filter_nonblank_wrapped (ts : list pystr) :
  Forall (fun t => strip t <> []) ts ->
  List.filter nonblank ([] :: ts ++ [[]]) = ts.
Proof.
  intros H. change ([] :: ts ++ [[]]) with ([[]] ++ ts ++ [[]]).
  rewrite !List.filter_app, (filter_nonblank ts H). apply app_nil_r.
Qed.

(** X1.  The prompt's token list is the list of tokens the delimiter encoding
    was made from, when no token holds the delimiter and none is blank. *)
Theorem token_list_round_trip question answer (ts : list pystr) :
  Forall (fun t => (c_bar ∉ t) /\ strip t <> []) ts ->
  token_list
    <$> _create_prompt question answer (PStr (Flattener.wrap (join [c_bar] ts)))
  = Some ts.
Proof.
  intros H. unfold _create_prompt.
  cbn [fmap option_fmap option_map token_list]. f_equal.
  change (List.filter nonblank (split c_bar (Flattener.wrap (join [c_bar] ts))) = ts).
  destruct ts as [|t ts']; [reflexivity|].
  rewrite split_wrap_join;
    [| apply (Forall_impl _ _ _ H); intros x [Hx _]; exact Hx | discriminate].
  apply filter_nonblank_wrapped.
  apply (Forall_impl _ _ _ H). intros x [_ Hx]. exact Hx.
Qed.

End TokenEncoding.

(* ===================================================================== *)
(** ** The Annotator: a fence without braces *)
(* ===================================================================== *)

Section FenceWithoutBraces.

Import Annotator.

Lemma find_none c (s : pystr) : c ∉ s -> find c s = (-1)%Z.
Proof.
  induction s as [|x s IH]; intros Hn; [reflexivity|].
  apply not_elem_of_cons in Hn as [Hx Hs]. simpl.
  destruct (N.eqb_spec x c) as [->|_]; [congruence|].
  now rewrite (IH Hs).
Qed.

Lemma rfind_bounds c (s : pystr) :
  (-1 <= rfind c s < Z.of_nat (length s))%Z.
Proof.
  induction s as [|x s IH]; simpl; [lia|].
  destruct (Z.leb_spec 0 (rfind c s)); [lia|].
  destruct (x =? c); lia.
Qed.

Lemma rfind_snoc c (s : pystr) x :
  rfind c (s ++ [x]) = if x =? c then Z.of_nat (length s) else rfind c s.
Proof.
  induction s as [|a s IH]; simpl.
  - now destruct (x =? c).
  - rewrite IH. destruct (x =? c); [|reflexivity].
    destruct (Z.leb_spec 0 (Z.of_nat (length s))); lia.
Qed.

Lemma slice_to_zero (s : pystr) start : slice s start 0 = [].
Proof.
  unfold slice.
  assert (H : slice_bound (Z.of_nat (length s)) 0 = 0%Z)
    by (unfold slice_bound; simpl; lia).
  rewrite H.
  assert (0 <= slice_bound (Z.of_nat (length s)) start)%Z
    by (unfold slice_bound; lia).
  now replace (Z.to_nat _) with 0%nat by lia.
Qed.

(** From the last character on: nothing, or the last character when the
    stop is the end of the text. *)
Lemma slice_from_last (s : pystr) x stop :
  (0 <= stop <= Z.of_nat (length s) + 1)%Z ->
  slice (s ++ [x]) (-1) stop
  = if (stop =? Z.of_nat (length s) + 1)%Z then [x] else [].
Proof.
  intros Hstop. unfold slice, slice_bound. rewrite length_app. simpl length.
  replace (Z.of_nat (length s + 1)) with (Z.of_nat (length s) + 1)%Z by lia.
  change (-1 <? 0)%Z with true. cbn beta iota.
  destruct (Z.ltb_spec stop 0); [lia|].
  replace (Z.min (Z.of_nat (length s) + 1)
             (Z.max 0 (-1 + (Z.of_nat (length s) + 1))))
    with (Z.of_nat (length s)) by lia.
  rewrite Nat2Z.id, drop_app_length.
  destruct (Z.eqb_spec stop (Z.of_nat (length s) + 1)) as [->|Hne].
  - now replace (Z.to_nat _) with 1%nat by lia.
  - now replace (Z.to_nat _) with 0%nat by lia.
Qed.

(** X6.  A response that opens with the fence but lacks an opening or a
    closing brace is rejected: what is cut out of it is empty or a lone
    closing brace. *)
Theorem fenced_without_braces_is_rejected (response_text : pystr) :
  startswith (lit "```json") response_text = true ->
  c_lbrace ∉ response_text \/ c_rbrace ∉ response_text ->
  json_content response_text ∈ [[]; [c_rbrace]]
  /\ parse_response response_text = None.
Proof.
  intros Hf Hb.
  assert (Hc : json_content response_text ∈ [[]; [c_rbrace]]).
  { unfold json_content. rewrite Hf.
    destruct (decide (c_rbrace ∈ response_text)) as [Hin|Hnot].
    - destruct Hb as [Hl|Hr]; [|contradiction].
      rewrite (find_none _ _ Hl).
      destruct response_text as [|c0 r] using rev_ind; [discriminate|].
      clear IHr. pose proof (rfind_bounds c_rbrace r) as B.
      rewrite rfind_snoc. destruct (N.eqb_spec c0 c_rbrace) as [->|Hne].
      + rewrite slice_from_last by lia. rewrite Z.eqb_refl. right; left.
      + rewrite slice_from_last by lia.
        destruct (Z.eqb_spec (rfind c_rbrace r + 1) (Z.of_nat (length r) + 1));
          [lia | left].
    - rewrite (rfind_none _ _ Hnot). simpl Z.add. rewrite slice_to_zero. left. }
  split; [exact Hc|].
  unfold parse_response.
  apply elem_of_cons in Hc as [->|Hc]; [reflexivity|].
  apply elem_of_cons in Hc as [->|Hc]; [reflexivity|].
  now apply elem_of_nil in Hc.
Qed.

End FenceWithoutBraces.

(* ===================================================================== *)
(** ** The Selector: what an invocation writes *)
(* ===================================================================== *)

Section Written.

Import Selector.

(** X13.  With a target list without repetition, every source row whose
    identifier is in the list is written, as often as the source has it,
    and no other row; the records come in the order of the target list.
    This holds whether or not the identifiers of the source are
    distinct. *)
Theorem selection_keeps_every_matching_row (df : DataFrame) (output_file : pystr)
    (target : list Z) (output_format : pystr) :
  Forall (fun col => col ∈ columns df) required_columns ->
  target <> [] -> NoDup target ->
  exists records,
    written (events (extract_csv_data (Frame df) output_file (Some target)
                       output_format))
    = Some records
    /\ records
       ≡ₚ List.map (select_columns required_columns)
            (List.filter (isin target) (rows df))
    /\ StronglySorted (by_position target) (ids_of records)
    /\ length records
       = length (List.filter (fun z => bool_decide (z ∈ target)) (source_ids df)).
Proof.
  intros Hcols Hne Hnd.
  destruct (extract_with_target df output_file target output_format Hcols Hne Hnd)
    as (_ & Hr & _).
  eexists. split; [exact Hr|]. split; [|split].
  - apply Permutation_map, sort_values_perm.
  - unfold ids_of. rewrite ids_select_columns.
    apply sorted_ids, sort_values_sorted.
  - rewrite length_map, (Permutation_length (sort_values_perm target _)).
    rewrite <- length_ids_isin, ids_filter_isin. reflexivity.
Qed.

(** X14.  Without a target list, or with an empty one, every row of the source
    is written, in the order of the source, and nothing is warned of. *)
Theorem no_target_keeps_every_row (df : DataFrame) (output_file : pystr)
    (target_data_ids : option (list Z)) (output_format : pystr) :
  Forall (fun col => col ∈ columns df) required_columns ->
  target_data_ids = None \/ target_data_ids = Some [] ->
  let o := extract_csv_data (Frame df) output_file target_data_ids output_format in
  written (events o) = Some (List.map (select_columns required_columns) (rows df))
  /\ ids_of <$> written (events o) = Some (source_ids df)
  /\ warned (events o) = [].
Proof.
  intros Hcols Ht o.
  assert (Hev : events o
                = (match dirname output_file with
                   | [] => []
                   | _ :: _ => [Mkdir (dirname output_file)]
                   end)
                  ++ [WriteFile output_file
                        (if is_json output_format
                         then JsonRecords (List.map (select_columns required_columns) (rows df))
                         else CsvTable required_columns
                                (List.map (select_columns required_columns) (rows df)))]).
  { unfold o, extract_csv_data, extract_body.
    rewrite (no_missing_columns df Hcols).
    destruct Ht as [-> | ->]; reflexivity. }
  assert (Hw : written (events o)
               = Some (List.map (select_columns required_columns) (rows df))).
  { rewrite Hev.
    destruct (dirname output_file), (is_json output_format); reflexivity. }
  split; [exact Hw|]. split.
  - rewrite Hw. cbn [fmap option_fmap option_map]. f_equal.
    unfold ids_of, source_ids, ids_of. apply ids_select_columns.
  - rewrite Hev.
    destruct (dirname output_file), (is_json output_format); reflexivity.
Qed.

Lemma select_columns_keys (cols : list pystr) (r : pydict) :
  Forall (fun c => is_Some (dict_get r c)) cols ->
  (select_columns cols r).*1 = cols.
Proof.
  induction 1 as [|c cols [v Hv] _ IH]; [reflexivity|].
  unfold select_columns in *. cbn [omap list_omap]. rewrite Hv.
  cbn [fmap list_fmap fst]. now rewrite IH.
Qed.

Lemma select_columns_get (cols : list pystr) (r : pydict) (c : pystr) :
  c ∈ cols -> dict_get (select_columns cols r) c = dict_get r c.
Proof.
  induction cols as [|c' cols IH]; intros Hc; [now apply elem_of_nil in Hc|].
  unfold select_columns in *. cbn [omap list_omap].
  destruct (decide (c' = c)) as [->|Hne].
  - destruct (dict_get r c) as [v|] eqn:Hv.
    + cbn [dict_get]. now rewrite decide_True.
    + clear IH Hc. induction cols as [|c'' cols IH]; [reflexivity|].
      cbn [omap list_omap].
      destruct (dict_get r c'') as [v|] eqn:Hv''; [|exact IH].
      cbn [dict_get]. destruct (decide (c'' = c)) as [->|_]; [congruence | exact IH].
  - apply elem_of_cons in Hc as [->|Hc]; [contradiction|].
    destruct (dict_get r c') as [v|]; [|now apply IH].
    cbn [dict_get]. rewrite decide_False by exact Hne. now apply IH.
Qed.

(** What [extracted_rows] gives when it gives something: rows of the
    source cut to the required columns, and one warning at most. *)
Lemma extracted_rows_inv df target_data_ids warnings records :
  extracted_rows df target_data_ids = Some (warnings, records) ->
  (exists selected,
     records = List.map (select_columns required_columns) selected
     /\ forall r, r ∈ selected -> r ∈ rows df)
  /\ (warnings = [] \/ exists ids, ids <> [] /\ warnings = [PrintWarning ids]).
Proof.
  unfold extracted_rows.
  destruct target_data_ids as [[|t ts]|].
  - intros [= <- <-]. split; [|now left]. now exists (rows df).
  - cbv zeta. destruct (bool_decide (NoDup (t :: ts))); [|discriminate].
    intros [= <- <-]. split.
    + eexists. split; [reflexivity|]. intros r Hr.
      rewrite sort_values_perm in Hr.
      apply list_elem_of_In, filter_In in Hr as [Hr _]. now apply list_elem_of_In.
    + match goal with
      | |- context [match ?m with [] => _ | _ :: _ => _ end] =>
          destruct m as [|z zs]
      end; [now left|].
      right. eexists. split; [|reflexivity]. discriminate.
  - intros [= <- <-]. split; [|now left]. now exists (rows df).
Qed.


Lemma written_inv df output_file target_data_ids output_format records :
  written (events (extract_csv_data (Frame df) output_file target_data_ids
                     output_format))
  = Some records ->
  exists warnings, extracted_rows df target_data_ids = Some (warnings, records).
Proof.
  unfold extract_csv_data, extract_body.
  destruct (List.filter _ required_columns) as [|c cs]; [|discriminate].
  destruct (extracted_rows df target_data_ids) as [[warnings records']|] eqn:He;
    [|discriminate].
  cbn [events]. intros Hw. exists warnings. f_equal. f_equal.
  apply extracted_rows_inv in He as [_ Hws].
  destruct Hws as [->|(ids & _ & ->)], (dirname output_file), (is_json output_format);
    simpl in Hw; congruence.
Qed.

(** X16.  Every record written has the five required columns, in their fixed
    order and nothing else, whatever the columns of the source and their
    order; it holds the cells of one row of the source. *)
Theorem records_have_required_columns (df : DataFrame) (output_file : pystr)
    (target_data_ids : option (list Z)) (output_format : pystr)
    (records : list pydict) :
  Forall (fun r => Forall (fun c => is_Some (dict_get r c)) required_columns)
         (rows df) ->
  written (events (extract_csv_data (Frame df) output_file target_data_ids
                     output_format))
  = Some records ->
  Forall (fun record =>
            record.*1 = required_columns
            /\ exists r, r ∈ rows df
                 /\ forall c, c ∈ required_columns ->
                      dict_get record c = dict_get r c)
         records.
Proof.
  intros Hrows Hw.
  apply written_inv in Hw as [warnings He].
  apply extracted_rows_inv in He as [(selected & -> & Hsel) _].
  apply Forall_forall. intros record Hrec.
  apply list_elem_of_In, in_map_iff in Hrec as (r & <- & Hr).
  apply list_elem_of_In, Hsel in Hr.
  rewrite Forall_forall in Hrows. split.
  - apply select_columns_keys, Hrows, Hr.
  - exists r. split; [exact Hr|]. intros c Hc. now apply select_columns_get.
Qed.


End Written.

(* ===================================================================== *)
(** ** The Annotator: [main] *)
(* ===================================================================== *)

Section AnnotatorMain.

Import Annotator AnnotatorRun.

Lemma setup_exit {C} (OpenAI : pyval -> option C) config env t :
  _setup_openai_client OpenAI config env = inr t -> t = SysExit 1.
Proof.
  unfold _setup_openai_client.
  destruct config as [| |key].
  - destruct env as [api_key|]; [|now intros [= <-]].
    destruct (truthy (PStr api_key)); [|now intros [= <-]].
    destruct (OpenAI (PStr api_key)); [discriminate | now intros [= <-]].
  - now intros [= <-].
  - destruct (OpenAI key); [discriminate | now intros [= <-]].
Qed.

Lemma load_exit file t : load_quiz_data file = inr t -> t = SysExit 1.
Proof.
  unfold load_quiz_data.
  destruct (file ≫= Json.loads) as [data|]; [|now intros [= <-]].
  destruct data; try discriminate; now intros [= <-].
Qed.

(** X4.  A run that leaves through [sys.exit] does so with status 1 and before
    any work: no call of the oracle, no wait, nothing written. *)
Theorem main_exits_before_any_work (OpenAI : pyval -> option (nat -> client))
    (config : config_py) (env : option pystr) (project_root : pystr)
    (fs : gmap pystr pystr) (code : Z) :
  snd (main OpenAI config env project_root fs) = Exited code ->
  code = 1%Z /\ fst (main OpenAI config env project_root fs) = [].
Proof.
  unfold main.
  destruct (encodable project_root); [|discriminate].
  destruct (_setup_openai_client OpenAI config env) as [oracle|t] eqn:Hs.
  - destruct (load_quiz_data (fs !! input_file project_root)) as [data|t] eqn:Hl.
    + destruct (iter data) as [quiz_data|]; [|discriminate].
      destruct (process_all_quiz_data _ _ _ _ _) as [st [|]]; discriminate.
    + apply load_exit in Hl. subst t. cbn. intros [= <-]. now split.
  - apply setup_exit in Hs. subst t. cbn. intros [= <-]. now split.
Qed.

End AnnotatorMain.

(* ===================================================================== *)
(** ** The properties on the sample inputs *)
(* ===================================================================== *)






(** A response that decodes and holds both keys, with a total that cannot
    be printed: the record is rejected. *)
Lemma C10_unprintable_total_counterexample :
  let ask : Annotator.client :=
    fun _ => Annotator.Content MoreSamples.surrogate_total_response in
  Annotator.parse_response (strip MoreSamples.surrogate_total_response)
  = Some (PDict [ (lit "token_weights", PList []);
                  (lit "total_weight", PStr [55296]) ])
  /\ snd (Annotator.calculate_attention_weights ask Samples.example_item (lit "gpt-4.1"))
     = Annotator.Rejected
  /\ Annotator.annotate ask Samples.example_item (lit "gpt-4.1") = None.
Proof.
  vm_compute. repeat split.
Qed.

(** The fenced response of the design document, with blank lines around
    it: the object between [```json] and [```], each on a line of its
    own. *)
Lemma C4_json_fence_witness :
  let unwrapped :=
    c_lbrace :: jlit "'token_weights': [], 'total_weight': 1" ++ [c_rbrace] in
  let text := lit "  " ++ [10] ++ lit "```json" ++ [10] ++ unwrapped
              ++ 10 :: lit "```" ++ [10; 10] in
  Annotator.json_content (strip text) = unwrapped
  /\ Annotator.parse_response (strip text) = Annotator.parse_response (strip unwrapped).
Proof.
  intros unwrapped text.
  destruct (C4_json_fence_is_stripped text [10]
              (jlit "'token_weights': [], 'total_weight': 1") (10 :: lit "```"))
    as (H1 & H2 & _).
  - intros H. vm_compute in H.
    repeat (apply elem_of_cons in H as [H|H]; [discriminate H|]).
    now apply elem_of_nil in H.
  - intros H. vm_compute in H.
    repeat (apply elem_of_cons in H as [H|H]; [discriminate H|]).
    now apply elem_of_nil in H.
  - vm_compute. reflexivity.
  - split; assumption.
Defined.

(** A fence without the [json] tag is not recognised: the response is
    handed to the decoder whole and the record is rejected, while the bare
    object is accepted. *)
Lemma C4_plain_fence_counterexample :
  let unwrapped := jlit "{'token_weights': [], 'total_weight': 1}" in
  let wrapped := lit "```" ++ [10] ++ unwrapped ++ [10] ++ lit "```" in
  Annotator.parse_response (strip wrapped) = None
  /\ Annotator.annotate (fun _ => Annotator.Content wrapped) Samples.example_item (lit "gpt-4.1")
     = None
  /\ Annotator.parse_response (strip unwrapped)
     = Some (PDict [ (lit "token_weights", PList []); (lit "total_weight", PInt 1) ])
  /\ Annotator.annotate (fun _ => Annotator.Content unwrapped) Samples.example_item (lit "gpt-4.1")
     <> None.
Proof.
  vm_compute. repeat split; discriminate.
Qed.

(** The row of the round-trip scenario. *)
Lemma C2_row_counts_witness :
  let r := {| Flattener.data_id := PInt 1;
              Flattener.question := PStr (lit "Q");
              Flattener.answer := PStr (lit "A");
              Flattener.tokens_str := lit "|a|b|c|";
              Flattener.weights_str := lit "|0.100000|0.300000|0.600000|";
              Flattener.token_count := PInt 3 |} in
  exists entries tokens,
    getitem Samples.annotated_item (lit "attention_weights") ≫= iter = Some entries
    /\ Forall2 (fun e t => getitem e (lit "token") = Some (PStr t)) entries tokens
    /\ getitem Samples.annotated_item (lit "token_count") = Some (Flattener.token_count r)
    /\ Flattener.weights_count r = Z.max 1 (Z.of_nat (length entries))
    /\ Flattener.tokens_count r
       = (Z.max 1 (Z.of_nat (length entries)) + Flattener.inner_delimiters tokens)%Z
    /\ (Flattener.consistent r = Some true <->
        Flattener.inner_delimiters tokens = 0%Z
        /\ Flattener.declared_count r = Some (Z.max 1 (Z.of_nat (length entries))))
    /\ (Flattener.consistent r = None <-> Flattener.declared_count r = None).
Proof.
  intros r. apply (C2_row_counts Samples.annotated_item r).
  vm_compute. reflexivity.
Defined.

(** A record that declares three tokens and holds two weights is written
    as it is: two segments in each field, a declared count of three.  A
    record without a weight that declares no token is written with one
    segment in each field, a declared count of zero. *)
Lemma C2_count_mismatch_counterexample :
  (exists r,
     Flattener.row_of Samples.short_item = Some r
     /\ Flattener.tokens_str r = lit "|a|b|"
     /\ Flattener.weights_str r = lit "|0.400000|0.600000|"
     /\ Flattener.tokens_count r = 2%Z
     /\ Flattener.weights_count r = 2%Z
     /\ Flattener.declared_count r = Some 3%Z
     /\ Flattener.consistent r = Some false)
  /\ (exists r,
        Flattener.row_of MoreSamples.no_weights_item = Some r
        /\ Flattener.tokens_str r = lit "||"
        /\ Flattener.weights_str r = lit "||"
        /\ Flattener.tokens_count r = 1%Z
        /\ Flattener.weights_count r = 1%Z
        /\ Flattener.declared_count r = Some 0%Z
        /\ Flattener.consistent r = Some false).
Proof.
  split; (eexists; split; [vm_compute; reflexivity|]); vm_compute; repeat split.
Qed.

(** A [token_count] that is the text of the number, between blanks, is
    read by [int] as the number. *)
Remark text_count_is_read :
  exists r,
    Flattener.row_of MoreSamples.text_count_item = Some r
    /\ Flattener.token_count r = PStr (lit " 3 ")
    /\ Flattener.declared_count r = Some 3%Z
    /\ Flattener.consistent r = Some true.
Proof.
  eexists. split; [vm_compute; reflexivity|]. vm_compute. repeat split.
Qed.

(** The input file [weights.json] of the output directory, run twice. *)
Lemma C9_rerun_is_identical_witness :
  let output_dir := lit "/proj/data/output" in
  let fs : gmap pystr pystr :=
    {[ lit "/proj/data/output/weights.json" := MoreSamples.annotated_text ]} in
  let fs1 := Flattener.main MoreSamples.plain_writerow fs output_dir (lit "weights.json") in
  Flattener.main MoreSamples.plain_writerow fs1 output_dir (lit "weights.json") = fs1
  /\ fs1 !! lit "/proj/data/output/weights.json" = Some MoreSamples.annotated_text.
Proof.
  intros output_dir fs fs1.
  destruct (C9_rerun_is_identical MoreSamples.plain_writerow fs output_dir
              (lit "weights.json"))
    as (H1 & H2 & _).
  - reflexivity.
  - reflexivity.
  - split; [exact H1|].
    etransitivity; [exact H2 | apply lookup_singleton_eq].
Defined.

Lemma small_table_columns :
  Forall (fun col => col ∈ Selector.columns Samples.small_table)
         Selector.required_columns.
Proof. apply Forall_forall. intros col Hcol. exact Hcol. Qed.

(** Identifiers 5, 9999 and 7 asked of a table that holds 7, 3 and 5. *)
Lemma C3_output_follows_target_order_witness :
  Selector.ids_of
    <$> Selector.written
          (Selector.events
             (Selector.extract_csv_data (Selector.Frame Samples.small_table)
                (lit "out.json") (Some [5; 9999; 7]%Z) (lit "json")))
  = Some (List.filter
            (fun z => bool_decide (z ∈ Selector.source_ids Samples.small_table))
            [5; 9999; 7]%Z).
Proof.
  apply (C3_output_follows_target_order Samples.small_table (lit "out.json")
           [5; 9999; 7]%Z (lit "json")).
  - exact small_table_columns.
  - discriminate.
  - apply (bool_decide_unpack _). vm_compute. exact I.
  - apply (bool_decide_unpack _). vm_compute. exact I.
Defined.

(** An empty target list is taken for no list: every row is written, in
    the order of the source. *)
Lemma C3_empty_target_counterexample :
  let written_ids :=
    Selector.ids_of
      <$> Selector.written
            (Selector.events
               (Selector.extract_csv_data (Selector.Frame Samples.small_table)
                  (lit "out.json") (Some []) (lit "json"))) in
  written_ids = Some [7; 3; 5]%Z
  /\ written_ids
     <> Some (List.filter
                (fun z => bool_decide (z ∈ Selector.source_ids Samples.small_table))
                []).
Proof. vm_compute. split; [reflexivity | discriminate]. Qed.

Lemma narrow_table_lacks_tokens :
  Exists (fun col => col ∉ Selector.columns Samples.narrow_table)
         Selector.required_columns.
Proof.
  apply Exists_exists. exists (lit "tokens"). split.
  - apply (bool_decide_unpack _). vm_compute. exact I.
  - apply (bool_decide_unpack _). vm_compute. exact I.
Qed.

(** A table without the [tokens] column. *)
Lemma C6_missing_column_stops_witness :
  let o := Selector.extract_csv_data (Selector.Frame Samples.narrow_table)
             (lit "out.json") (Some [7]%Z) (lit "json") in
  let missing_columns :=
    List.filter
      (fun col => negb (bool_decide (col ∈ Selector.columns Samples.narrow_table)))
      Selector.required_columns in
  missing_columns <> []
  /\ (forall col, col ∈ missing_columns
                  <-> col ∈ Selector.required_columns
                      /\ col ∉ Selector.columns Samples.narrow_table)
  /\ Selector.events o = [Selector.PrintError (Selector.MissingColumns missing_columns)]
  /\ Selector.written (Selector.events o) = None
  /\ Selector.ends o = Returns
  /\ exit_status (Selector.ends o) = 0%Z.
Proof.
  apply (C6_missing_column_stops Samples.narrow_table (lit "out.json")
           (Some [7]%Z) (lit "json")).
  exact narrow_table_lacks_tokens.
Defined.

(** The script run on a table without the [tokens] column prints the
    error and ends with status 0, as a run that succeeds does. *)
Lemma C6_exit_status_counterexample :
  let o := Selector.main (Selector.Frame Samples.narrow_table)
             (lit "data/output/selected_questions.json") in
  Selector.events o
  = [Selector.PrintError (Selector.MissingColumns [lit "tokens"])]
  /\ exit_status (Selector.ends o) = 0%Z
  /\ ~ exit_status (Selector.ends o) <> 0%Z.
Proof. vm_compute. repeat split. intros H. now apply H. Qed.

(** Identifiers 5, 9999 and 7 asked of a table that holds 7, 3 and 5:
    9999 is reported, and two records are written. *)
Lemma C8_absent_ids_witness :
  let o := Selector.extract_csv_data (Selector.Frame Samples.small_table)
             (lit "out.json") (Some [5; 9999; 7]%Z) (lit "json") in
  let absent :=
    List.filter
      (fun z => negb (bool_decide (z ∈ Selector.source_ids Samples.small_table)))
      [5; 9999; 7]%Z in
  Selector.warned (Selector.events o) = absent
  /\ exists records,
       Selector.written (Selector.events o) = Some records
       /\ (forall z, z ∈ absent -> z ∉ Selector.ids_of records)
       /\ (length records + length absent = length [5; 9999; 7]%Z)%nat.
Proof.
  destruct (C8_absent_ids_are_warned_and_omitted Samples.small_table (lit "out.json")
              [5; 9999; 7]%Z (lit "json"))
    as (Hw & records & Hr & Homit & Hlen).
  - exact small_table_columns.
  - discriminate.
  - apply (bool_decide_unpack _). vm_compute. exact I.
  - split; [exact Hw|]. exists records. split; [exact Hr|]. split; [exact Homit|].
    apply Hlen. apply (bool_decide_unpack _). vm_compute. exact I.
Defined.

(** Identifiers 1 and 9999 asked of a table that holds identifier 1
    twice: 9999 is reported, and both rows are written, so the output is as
    long as the target list. *)
Lemma C8_repeated_source_counterexample :
  let target := [1; 9999]%Z in
  let o := Selector.extract_csv_data (Selector.Frame Samples.repeated_table)
             (lit "out.json") (Some target) (lit "json") in
  Selector.warned (Selector.events o) = [9999]%Z
  /\ length <$> Selector.written (Selector.events o) = Some 2%nat
  /\ length <$> Selector.written (Selector.events o)
     <> Some (length target - length [9999]%Z)%nat.
Proof. vm_compute. repeat split. discriminate. Qed.

(** The round-trip scenario, end to end: the record and the oracle's
    answer give one annotated record, and the Flattener makes of it the
    row [1,Q,A,|a|b|c|,|0.100000|0.300000|0.600000|,3]. *)
Example round_trip_scenario :
  Flattener.row_of
    <$> Annotator.annotate (fun _ => Annotator.Content Samples.good_response)
          Samples.example_item (lit "gpt-4.1")
  = Some (Some {| Flattener.data_id := PInt 1;
                  Flattener.question := PStr (lit "Q");
                  Flattener.answer := PStr (lit "A");
                  Flattener.tokens_str := lit "|a|b|c|";
                  Flattener.weights_str := lit "|0.100000|0.300000|0.600000|";
                  Flattener.token_count := PInt 3 |}).
Proof. vm_compute. reflexivity. Qed.

(** The target list of the script names no identifier twice. *)
Remark main_target_data_ids_NoDup : NoDup Selector.main_target_data_ids.
Proof. apply (bool_decide_unpack _). vm_compute. exact I. Qed.

(** A target list that names an identifier twice ends the invocation with
    an error: nothing is reported and nothing is written. *)
Remark repeated_target_raises :
  Selector.events
    (Selector.extract_csv_data (Selector.Frame Samples.small_table)
       (lit "out.json") (Some [7; 7; 9999]%Z) (lit "json"))
  = [Selector.PrintError Selector.OtherException].
Proof. vm_compute. reflexivity. Qed.

(** Where the Annotator cannot read its input it leaves through
    [sys.exit(1)]; the Selector has no such exit. *)
Remark load_quiz_data_missing :
  Annotator.load_quiz_data None = inr (SysExit 1)
  /\ exit_status (SysExit 1) = 1%Z.
Proof. split; reflexivity. Qed.

(** Three tokens, one of them with a blank inside. *)
Lemma token_list_round_trip_witness :
  Annotator.token_list
    <$> Annotator._create_prompt (PStr (lit "Q")) (PStr (lit "A"))
          (PStr (Flattener.wrap (join [c_bar] [lit "a"; lit "b c"; lit "d"])))
  = Some [lit "a"; lit "b c"; lit "d"].
Proof.
  apply (token_list_round_trip (PStr (lit "Q")) (PStr (lit "A"))
           [lit "a"; lit "b c"; lit "d"]).
  repeat (apply Forall_cons; split;
          [split; [apply (bool_decide_unpack _); vm_compute; exact I
                  | vm_compute; discriminate]|]).
  apply Forall_nil. exact I.
Defined.

(** A fenced response without a brace. *)
Lemma fenced_without_braces_witness :
  Annotator.json_content (lit "```json no payload here ```") ∈ [[]; [c_rbrace]]
  /\ Annotator.parse_response (lit "```json no payload here ```") = None.
Proof.
  apply (fenced_without_braces_is_rejected (lit "```json no payload here ```")).
  - reflexivity.
  - left. apply (bool_decide_unpack _). vm_compute. exact I.
Defined.

(** One annotated record, with the plain serialiser. *)
Lemma header_file_is_header_then_rows_witness :
  Flattener.output_text MoreSamples.plain_writerow (PList [Samples.annotated_item]) true
  = (lit "data_id,question,answer,tokens,weights,token_count" ++ [13; 10])
    ++ Flattener.output_text MoreSamples.plain_writerow
         (PList [Samples.annotated_item]) false.
Proof.
  apply (header_file_is_header_then_rows MoreSamples.plain_writerow
           (PList [Samples.annotated_item])).
  vm_compute. reflexivity.
Defined.

(** A record with a weight that is a string, between two good ones. *)
Lemma output_stops_at_first_failure_witness :
  Flattener.output_text MoreSamples.plain_writerow
    (PList ([Samples.annotated_item]
            ++ MoreSamples.broken_item :: [Samples.annotated_item])) false
  = [] ++ concat (omap (FlattenerLines.line_of MoreSamples.plain_writerow)
                    [Samples.annotated_item])
  /\ Flattener.output_text MoreSamples.plain_writerow
       (PList ([Samples.annotated_item]
               ++ MoreSamples.broken_item :: [Samples.annotated_item])) false
     = Flattener.output_text MoreSamples.plain_writerow
         (PList [Samples.annotated_item]) false.
Proof.
  apply (output_stops_at_first_failure MoreSamples.plain_writerow
           [Samples.annotated_item] MoreSamples.broken_item [Samples.annotated_item]
           false []).
  - reflexivity.
  - apply (bool_decide_unpack _). vm_compute. exact I.
  - vm_compute. reflexivity.
Defined.

(** Two records that both give a line. *)
Lemma output_is_one_line_per_item_witness :
  exists lines,
    Forall2 (fun item line =>
               FlattenerLines.line_of MoreSamples.plain_writerow item = Some line)
            [Samples.annotated_item; Samples.short_item] lines
    /\ Flattener.output_text MoreSamples.plain_writerow
         (PList [Samples.annotated_item; Samples.short_item]) true
       = (lit "data_id,question,answer,tokens,weights,token_count" ++ [13; 10])
         ++ concat lines.
Proof.
  apply (output_is_one_line_per_item MoreSamples.plain_writerow
           [Samples.annotated_item; Samples.short_item] true).
  - vm_compute. reflexivity.
  - apply (bool_decide_unpack _). vm_compute. exact I.
Defined.

Lemma repeated_table_columns :
  Forall (fun col => col ∈ Selector.columns Samples.repeated_table)
         Selector.required_columns.
Proof. apply Forall_forall. intros col Hcol. exact Hcol. Qed.

(** Identifiers 9999 and 1 asked of a table that holds identifier 1
    twice. *)
Lemma selection_keeps_every_matching_row_witness :
  exists records,
    Selector.written
      (Selector.events
         (Selector.extract_csv_data (Selector.Frame Samples.repeated_table)
            (lit "out.json") (Some [9999; 1]%Z) (lit "json")))
    = Some records
    /\ records
       ≡ₚ List.map (Selector.select_columns Selector.required_columns)
            (List.filter (Selector.isin [9999; 1]%Z)
               (Selector.rows Samples.repeated_table))
    /\ StronglySorted (Selector.by_position [9999; 1]%Z) (Selector.ids_of records)
    /\ length records
       = length (List.filter (fun z => bool_decide (z ∈ [9999; 1]%Z))
                   (Selector.source_ids Samples.repeated_table)).
Proof.
  apply (selection_keeps_every_matching_row Samples.repeated_table (lit "out.json")
           [9999; 1]%Z (lit "json")).
  - exact repeated_table_columns.
  - discriminate.
  - apply (bool_decide_unpack _). vm_compute. exact I.
Defined.


(** An empty target list on the table of three records. *)
Lemma no_target_keeps_every_row_witness :
  let o := Selector.extract_csv_data (Selector.Frame Samples.small_table)
             (lit "out/all.csv") (Some []) (lit "csv") in
  Selector.written (Selector.events o)
  = Some (List.map (Selector.select_columns Selector.required_columns)
            (Selector.rows Samples.small_table))
  /\ Selector.ids_of <$> Selector.written (Selector.events o)
     = Some (Selector.source_ids Samples.small_table)
  /\ Selector.warned (Selector.events o) = [].
Proof.
  apply (no_target_keeps_every_row Samples.small_table (lit "out/all.csv")
           (Some []) (lit "csv")).
  - exact small_table_columns.
  - right. reflexivity.
Defined.

(** A table with a further column and its columns in another order. *)
Lemma records_have_required_columns_witness :
  Forall (fun record =>
            record.*1 = Selector.required_columns
            /\ exists r, r ∈ Selector.rows MoreSamples.wide_table
                 /\ forall c, c ∈ Selector.required_columns ->
                      dict_get record c = dict_get r c)
         [ Samples.quiz_row 3 "Q3" "A3" "|u|" 1;
           Samples.quiz_row 7 "Q7" "A7" "|x|y|" 2 ].
Proof.
  apply (records_have_required_columns MoreSamples.wide_table (lit "out.json")
           (Some [3; 7]%Z) (lit "json")).
  - apply (bool_decide_unpack _). vm_compute. exact I.
  - vm_compute. reflexivity.
Defined.

(** A string between two records: the first record is processed and
    waited for, the run ends there. *)
Lemma non_object_element_aborts_witness :
  let quiz_data :=
    (PDict <$> [Samples.example_item])
    ++ PStr (lit "oops") :: [PDict Samples.example_item] in
  let out :=
    Annotator.process_all_quiz_data MoreSamples.steady quiz_data
      (lit "/proj/data/output/weights.json") (lit "gpt-4.1") 2 in
  snd out = false
  /\ Annotator.trace (fst out)
     = concat (imap (fun j q =>
                       Annotator.segment MoreSamples.steady (lit "gpt-4.1") 2
                         (length quiz_data) (S j) q)
                    [Samples.example_item])
  /\ List.filter Annotator.is_save (Annotator.trace (fst out)) = []
  /\ Annotator.saved (Annotator.trace (fst out)) = None
  /\ List.filter Annotator.is_sleep (Annotator.trace (fst out))
     = repeat (Annotator.Sleep 2) (length [Samples.example_item]).
Proof.
  apply (non_object_element_aborts MoreSamples.steady (lit "gpt-4.1") 2
           [Samples.example_item] (PStr (lit "oops")) [PDict Samples.example_item]
           (lit "/proj/data/output/weights.json")).
  - reflexivity.
  - reflexivity.
  - reflexivity.
  - intros j q Hq. destruct j as [|j]; [|discriminate Hq].
    injection Hq as <-. vm_compute. reflexivity.
  - intros d. discriminate.
Defined.

(** A client that sets up and no input file. *)
Lemma main_exits_before_any_work_witness :
  1%Z = 1%Z
  /\ fst (AnnotatorRun.main (fun _ => Some MoreSamples.steady)
            (AnnotatorRun.ConfigKey (PStr (lit "sk-test"))) None (lit "/proj") ∅)
     = [].
Proof.
  apply (main_exits_before_any_work (fun _ => Some MoreSamples.steady)
           (AnnotatorRun.ConfigKey (PStr (lit "sk-test"))) None (lit "/proj") ∅ 1%Z).
  unfold AnnotatorRun.main.
  change (encodable (lit "/proj")) with true.
  cbn [AnnotatorRun._setup_openai_client].
  rewrite lookup_empty. reflexivity.
Defined.

(** The input file [weights.json] of the output directory. *)
Lemma output_names_witness :
  let output_dir := lit "/proj/data/output" in
  let fs : gmap pystr pystr :=
    {[ output_dir ++ lit "/" ++ lit "weights" ++ lit ".json"
         := MoreSamples.annotated_text ]} in
  exists data,
    Json.loads MoreSamples.annotated_text = Some data
    /\ Flattener.replace_json (lit "weights") = lit "weights"
    /\ Flattener.replace_json (lit "weights" ++ lit ".json") = lit "weights"
    /\ Flattener.main MoreSamples.plain_writerow fs output_dir
         (lit "weights" ++ lit ".json")
         !! (output_dir ++ lit "/" ++ lit "weights" ++ lit ".csv")
       = Some (Flattener.output_text MoreSamples.plain_writerow data true)
    /\ Flattener.main MoreSamples.plain_writerow fs output_dir
         (lit "weights" ++ lit ".json")
         !! (output_dir ++ lit "/" ++ lit "weights" ++ lit "_no_header.csv")
       = Some (Flattener.output_text MoreSamples.plain_writerow data false).
Proof.
  intros output_dir fs.
  destruct (Json.loads MoreSamples.annotated_text) as [data|] eqn:E;
    [|vm_compute in E; discriminate E].
  exists data. split; [reflexivity|].
  apply (output_names MoreSamples.plain_writerow fs output_dir (lit "weights") data).
  - reflexivity.
  - reflexivity.
  - apply (bool_decide_unpack _). vm_compute. exact I.
  - unfold fs. rewrite lookup_singleton_eq. exact E.
  - vm_compute in E. injection E as <-. reflexivity.
Defined.




(** On that table the script writes the records 2201, 141 and 84, in the
    order of its list. *)
Remark script_table_written :
  Selector.source_ids MoreSamples.script_table = [84; 2201; 5; 141]%Z
  /\ Selector.ids_of
       <$> Selector.written
             (Selector.events
                (Selector.main (Selector.Frame MoreSamples.script_table)
                   (lit "data/output/selected_questions.json")))
     = Some [2201; 141; 84]%Z.
Proof. vm_compute. split; reflexivity. Qed.
